(** * Cloud Fire: the storage engine over its IndexedDB object stores

    A shallow embedding of the database service of the Cloud Fire front end
    (the [services/db] module: [updateUserStorage], [addFileToDB],
    [getFilesFromDB], [trashFile], [restoreFile], [deleteFileFromDB],
    [updateFileShareStatus], [getFileByShareToken], [getFoldersFromDB]) and
    of the record types of [types.ts].

    Modelling choices.
    - A JavaScript [number] ([size], [storageUsed], [storageLimit]) is a
      binary64 floating-point number, [spec_float] of the standard library;
      [+] is its correctly rounded addition [SFadd 53 1024] and unary [-]
      is [SFopp]. An integer literal is [num]. Sums are exact on the safe
      integers (magnitude below 2^53) and round above.
    - An optional field ([isShared?], [shareToken?], ...) is an [option];
      [None] is JavaScript's [undefined]. Tests such as [if (file.isShared)]
      go through [truthy].
    - An object store is the list of its records in ascending key order,
      which is the order in which a cursor and [getAll] deliver them
      (keys are compared byte by byte, which on ASCII keys such as the
      application's generated ids is the order of IndexedDB).
      Records read from a store are structured clones, so mutating a record
      and putting it back is a functional update followed by [put].
    - A promise is a function from the database to an outcome (resolved or
      rejected) and the database afterwards; a rejection keeps the writes
      made before it. The requests fail only for reasons the data decides
      (a key that exists on [add], a unique index that would be violated);
      failures of the browser's storage itself are outside the model.
    - [new Date().toISOString()] is an argument [now] of the operation. *)

From Stdlib Require Import ZArith List String Bool Lia Sorted OrdersEx.
From Stdlib Require Import Floats.SpecFloat.
Import ListNotations.

Local Open Scope Z_scope.

(** ** Numbers *)

(** A JavaScript [number]: binary64, without NaN payloads. *)
Definition number : Type := spec_float.

(** [x + y] *)
Definition js_add (x y : number) : number := SFadd 53 1024 x y.

(** [-x] *)
Definition js_neg (x : number) : number := SFopp x.

(** The number an integer literal denotes: the integer, rounded to the
    nearest binary64 when it is too long to be one. *)
Definition num (z : Z) : number := binary_normalize 53 1024 z 0 false.

(** The safe integers: magnitude at most [Number.MAX_SAFE_INTEGER]. *)
Definition safe_integer (z : Z) : Prop := Z.abs z < 2 ^ 53.

(** The integer a number is, when it is one. *)
Definition int_value (x : number) : option Z :=
  match x with
  | S754_zero _ => Some 0
  | S754_finite s m e =>
      if 0 <=? e then Some (cond_Zopp s (Zpos m * 2 ^ e))
      else if Zpos m mod 2 ^ (- e) =? 0
           then Some (cond_Zopp s (Zpos m / 2 ^ (- e)))
           else None
  | _ => None
  end.

(** Mantissa and exponent of a positive safe integer as a binary64. *)
Definition mantissa_of (p : positive) : positive :=
  match (53 - Zpos (digits2_pos p))%Z with
  | Zpos j => Pos.iter xO p j
  | _ => p
  end.

Definition exponent_of (p : positive) : Z := Zpos (digits2_pos p) - 53.

(** ** Records of [types.ts] *)

Inductive FileType : Type :=
  | IMAGE | VIDEO | AUDIO | DOCUMENT | ARCHIVE | UNKNOWN.

(** The content payload is opaque to the engine. *)
Definition Blob : Type := list Byte.byte.

Module CloudFile.
Record t : Type := mk {
  id : string;
  name : string;
  size : number;
  type : FileType;
  parentId : string;
  createdAt : string;
  mimeType : string;
  ownerId : string;
  storageKey : option string;
  data : option Blob;
  isShared : option bool;
  shareToken : option string;
  shareCreatedAt : option string;
  isTrashed : option bool;
  trashedAt : option string
}.

(** Field assignments [file.x = v] on a cloned record. *)
Definition set_isShared (v : option bool) (f : t) : t :=
  mk (id f) (name f) (size f) (type f) (parentId f) (createdAt f)
     (mimeType f) (ownerId f) (storageKey f) (data f)
     v (shareToken f) (shareCreatedAt f) (isTrashed f) (trashedAt f).

Definition set_shareToken (v : option string) (f : t) : t :=
  mk (id f) (name f) (size f) (type f) (parentId f) (createdAt f)
     (mimeType f) (ownerId f) (storageKey f) (data f)
     (isShared f) v (shareCreatedAt f) (isTrashed f) (trashedAt f).

Definition set_shareCreatedAt (v : option string) (f : t) : t :=
  mk (id f) (name f) (size f) (type f) (parentId f) (createdAt f)
     (mimeType f) (ownerId f) (storageKey f) (data f)
     (isShared f) (shareToken f) v (isTrashed f) (trashedAt f).

Definition set_isTrashed (v : option bool) (f : t) : t :=
  mk (id f) (name f) (size f) (type f) (parentId f) (createdAt f)
     (mimeType f) (ownerId f) (storageKey f) (data f)
     (isShared f) (shareToken f) (shareCreatedAt f) v (trashedAt f).

Definition set_trashedAt (v : option string) (f : t) : t :=
  mk (id f) (name f) (size f) (type f) (parentId f) (createdAt f)
     (mimeType f) (ownerId f) (storageKey f) (data f)
     (isShared f) (shareToken f) (shareCreatedAt f) (isTrashed f) v.
End CloudFile.

Module CloudFolder.
Record t : Type := mk {
  id : string;
  name : string;
  parentId : option string;   (* string | null *)
  createdAt : string;
  ownerId : string;
  isTrashed : option bool;
  trashedAt : option string
}.
End CloudFolder.

Module Role.
Inductive t : Type := admin | user.
End Role.

Module Plan.
Inductive t : Type := free | pro | enterprise.
End Plan.

Module User.
Record t : Type := mk {
  id : string;
  username : string;
  password : option string;
  email : string;
  role : Role.t;
  plan : Plan.t;
  avatar : string;
  storageUsed : number;
  storageLimit : number;
  createdAt : string;
  isActive : bool
}.

Definition set_storageUsed (v : number) (u : t) : t :=
  mk (id u) (username u) (password u) (email u) (role u) (plan u)
     (avatar u) v (storageLimit u) (createdAt u) (isActive u).
End User.

(** ** JavaScript tests on optional fields *)

(** [if (x)] on an optional boolean: [undefined] and [false] are falsy. *)
Definition truthy (x : option bool) : bool :=
  match x with
  | Some true => true
  | _ => false
  end.

(** [x === s] for an optional string [x] and a string [s]. *)
Definition strict_eq (x : option string) (s : string) : bool :=
  match x with
  | Some v => String.eqb v s
  | None => false
  end.

(** ** Object stores *)

Module ObjectStore.
Section Keyed.
Context {R : Type}.
(** The store's [keyPath]. *)
Variable key : R -> string.

(** [store.get(k)] *)
Definition get (k : string) (s : list R) : option R :=
  find (fun r => String.eqb (key r) k) s.

(** [store.put(r)]: the record with [r]'s key is replaced, or [r] is
    inserted at its place in key order. *)
Fixpoint put (r : R) (s : list R) : list R :=
  match s with
  | [] => [r]
  | x :: s' =>
      match String.compare (key r) (key x) with
      | Eq => r :: s'
      | Lt => r :: x :: s'
      | Gt => x :: put r s'
      end
  end.

(** [store.add(r)]: as [put], but refused when the key exists. *)
Definition add (r : R) (s : list R) : option (list R) :=
  match get (key r) s with
  | Some _ => None
  | None => Some (put r s)
  end.

(** [store.delete(k)] *)
Definition delete (k : string) (s : list R) : list R :=
  filter (fun r => negb (String.eqb (key r) k)) s.

(** Records whose indexed field [ix] holds [v]; a record whose field is
    not a valid key ([null], [undefined]) is not in the index. Entries of
    one index key come in primary-key order. *)
Definition index_match (ix : R -> option string) (v : string) (r : R) : bool :=
  strict_eq (ix r) v.

(** [store.index(ix).getAll(v)] *)
Definition index_getAll (ix : R -> option string) (v : string) (s : list R) : list R :=
  filter (index_match ix v) s.

(** [store.index(ix).get(v)] *)
Definition index_get (ix : R -> option string) (v : string) (s : list R) : option R :=
  find (index_match ix v) s.

(** [put] would break a unique index [ix]: another record (a different
    key) already holds [r]'s value of [ix]. *)
Definition violates_unique (ix : R -> option string) (r : R) (s : list R) : bool :=
  existsb (fun x => match ix r with
                    | Some v => index_match ix v x && negb (String.eqb (key x) (key r))
                    | None => false
                    end) s.

(** Keys ascend strictly along the store. *)
Definition sorted (s : list R) : Prop :=
  StronglySorted (fun a b => String.compare (key a) (key b) = Lt) s.

(** No two records agree on the unique index [ix]. *)
Definition unique_on (ix : R -> option string) (s : list R) : Prop :=
  forall a b v, In a s -> In b s -> ix a = Some v -> ix b = Some v -> a = b.
End Keyed.
End ObjectStore.

(** ** The database: its stores as [initDB] creates them *)

Record DB : Type := mkDB {
  users : list User.t;           (* keyPath username, unique index id *)
  files : list CloudFile.t;      (* keyPath id, indexes parentId, ownerId *)
  folders : list CloudFolder.t   (* keyPath id, indexes parentId, ownerId *)
}.

Definition set_users (s : list User.t) (db : DB) : DB :=
  mkDB s (files db) (folders db).

Definition set_files (s : list CloudFile.t) (db : DB) : DB :=
  mkDB (users db) s (folders db).

Definition user_ix_id (u : User.t) : option string := Some (User.id u).
Definition file_ix_parentId (f : CloudFile.t) : option string := Some (CloudFile.parentId f).
Definition folder_ix_parentId (f : CloudFolder.t) : option string := CloudFolder.parentId f.

(** ** Promises over the database *)

Inductive Rejection : Type :=
  | ConstraintError                (* [req.error] of a refused [add] or [put] *)
  | Reason (msg : string).         (* [reject("...")] *)

Inductive Outcome (A : Type) : Type :=
  | Resolved (a : A)
  | Rejected (e : Rejection).
Arguments Resolved {A} a.
Arguments Rejected {A} e.

Definition Async (A : Type) : Type := DB -> Outcome A * DB.

Definition resolve {A : Type} (a : A) : Async A := fun db => (Resolved a, db).

Definition reject {A : Type} (e : Rejection) : Async A := fun db => (Rejected e, db).

(** [await m; k]: a rejection of [m] skips [k] and keeps [m]'s writes. *)
Definition await {A B : Type} (m : Async A) (k : A -> Async B) : Async B :=
  fun db =>
    match m db with
    | (Resolved a, db') => k a db'
    | (Rejected e, db') => (Rejected e, db')
    end.

Declare Scope async_scope.
Delimit Scope async_scope with async.
Notation "x <- m ;; k" := (await m (fun x => k))
  (at level 61, m at next level, right associativity) : async_scope.
Notation "m ;; k" := (await m (fun _ => k))
  (at level 61, right associativity) : async_scope.
Local Open Scope async_scope.

(** *** Requests *)

Definition users_index_id_get (userId : string) : Async (option User.t) :=
  fun db => (Resolved (ObjectStore.index_get user_ix_id userId (users db)), db).

Definition users_put (u : User.t) : Async unit :=
  fun db =>
    if ObjectStore.violates_unique User.username user_ix_id u (users db)
    then (Rejected ConstraintError, db)
    else (Resolved tt, set_users (ObjectStore.put User.username u (users db)) db).

Definition files_get (id : string) : Async (option CloudFile.t) :=
  fun db => (Resolved (ObjectStore.get CloudFile.id id (files db)), db).

Definition files_put (f : CloudFile.t) : Async unit :=
  fun db => (Resolved tt, set_files (ObjectStore.put CloudFile.id f (files db)) db).

Definition files_add (f : CloudFile.t) : Async unit :=
  fun db =>
    match ObjectStore.add CloudFile.id f (files db) with
    | Some s => (Resolved tt, set_files s db)
    | None => (Rejected ConstraintError, db)
    end.

Definition files_delete (id : string) : Async unit :=
  fun db => (Resolved tt, set_files (ObjectStore.delete CloudFile.id id (files db)) db).

Definition files_index_parentId_getAll (parentId : string) : Async (list CloudFile.t) :=
  fun db => (Resolved (ObjectStore.index_getAll file_ix_parentId parentId (files db)), db).

Definition folders_index_parentId_getAll (parentId : string) : Async (list CloudFolder.t) :=
  fun db => (Resolved (ObjectStore.index_getAll folder_ix_parentId parentId (folders db)), db).

(** [store.openCursor()]: the records a cursor walks, in key order. *)
Definition files_openCursor : Async (list CloudFile.t) :=
  fun db => (Resolved (files db), db).

(** ** User operations *)

Definition updateUserStorage (userId : string) (bytesToAdd : number) : Async unit :=
  req <- users_index_id_get userId ;;
  match req with
  | Some user =>
      users_put (User.set_storageUsed (js_add (User.storageUsed user) bytesToAdd) user)
  | None => resolve tt
  end.

(** ** File operations *)

Definition addFileToDB (file : CloudFile.t) : Async unit :=
  updateUserStorage (CloudFile.ownerId file) (CloudFile.size file) ;;
  files_add file.

Definition getFilesFromDB (parentId ownerId : string) : Async (list CloudFile.t) :=
  files <- files_index_parentId_getAll parentId ;;
  resolve (filter (fun f => String.eqb (CloudFile.ownerId f) ownerId
                            && negb (truthy (CloudFile.isTrashed f))) files).

Definition trashFile (id now : string) : Async unit :=
  got <- files_get id ;;
  match got with
  | Some file =>
      let file := CloudFile.set_isTrashed (Some true) file in
      let file := CloudFile.set_trashedAt (Some now) file in
      let file := if truthy (CloudFile.isShared file)
                  then CloudFile.set_isShared (Some false) file
                  else file in
      files_put file
  | None => resolve tt
  end.

Definition restoreFile (id : string) : Async unit :=
  got <- files_get id ;;
  match got with
  | Some file =>
      let file := CloudFile.set_isTrashed (Some false) file in
      let file := CloudFile.set_trashedAt None file in
      files_put file
  | None => resolve tt
  end.

Definition deleteFileFromDB (id ownerId : string) (size : number) : Async unit :=
  updateUserStorage ownerId (js_neg size) ;;
  files_delete id.

(** ** Sharing operations *)

Definition updateFileShareStatus
    (fileId : string) (isShared : bool) (shareToken : option string)
    (now : string) : Async unit :=
  got <- files_get fileId ;;
  match got with
  | Some file =>
      let file := CloudFile.set_isShared (Some isShared) file in
      let file := CloudFile.set_shareToken shareToken file in
      let file := CloudFile.set_shareCreatedAt
                    (if isShared then Some now else None) file in
      files_put file
  | None => reject (Reason "Arquivo não encontrado")
  end.

(** The cursor loop of [getFileByShareToken]: the first record that is
    shared under [token] and not trashed, or [null] at the end. *)
Fixpoint share_scan (token : string) (cursor : list CloudFile.t) : option CloudFile.t :=
  match cursor with
  | file :: rest =>
      if truthy (CloudFile.isShared file)
         && strict_eq (CloudFile.shareToken file) token
         && negb (truthy (CloudFile.isTrashed file))
      then Some file
      else share_scan token rest
  | [] => None
  end.

Definition getFileByShareToken (token : string) : Async (option CloudFile.t) :=
  cursor <- files_openCursor ;;
  resolve (share_scan token cursor).

(** ** Folder operations *)

Definition getFoldersFromDB (parentId ownerId : string) : Async (list CloudFolder.t) :=
  folders <- folders_index_parentId_getAll parentId ;;
  resolve (filter (fun f => String.eqb (CloudFolder.ownerId f) ownerId
                            && negb (truthy (CloudFolder.isTrashed f))) folders).

(** ** The rest of the service *)

Definition set_folders (s : list CloudFolder.t) (db : DB) : DB :=
  mkDB (users db) (files db) s.

(** [try { await m } catch (e) { await h(e) }] *)
Definition try_catch {A : Type} (m : Async A) (h : Rejection -> Async A) : Async A :=
  fun db =>
    match m db with
    | (Resolved a, db') => (Resolved a, db')
    | (Rejected e, db') => h e db'
    end.

(** *** More requests *)

Definition users_get (username : string) : Async (option User.t) :=
  fun db => (Resolved (ObjectStore.get User.username username (users db)), db).

(** [store.add(user)] on the users store: refused when the username is
    taken or when a record already holds the user's [id]. *)
Definition users_add (u : User.t) : Async unit :=
  fun db =>
    match ObjectStore.add User.username u (users db) with
    | Some s =>
        if ObjectStore.violates_unique User.username user_ix_id u (users db)
        then (Rejected ConstraintError, db)
        else (Resolved tt, set_users s db)
    | None => (Rejected ConstraintError, db)
    end.

Definition users_delete (username : string) : Async unit :=
  fun db => (Resolved tt, set_users (ObjectStore.delete User.username username (users db)) db).

Definition users_getAll : Async (list User.t) :=
  fun db => (Resolved (users db), db).

Definition files_getAll : Async (list CloudFile.t) :=
  fun db => (Resolved (files db), db).

Definition folders_getAll : Async (list CloudFolder.t) :=
  fun db => (Resolved (folders db), db).

Definition folders_add (f : CloudFolder.t) : Async unit :=
  fun db =>
    match ObjectStore.add CloudFolder.id f (folders db) with
    | Some s => (Resolved tt, set_folders s db)
    | None => (Rejected ConstraintError, db)
    end.

(** *** User operations *)

Definition registerUser (user : User.t) : Async unit :=
  try_catch (users_add user)
            (fun _ => reject (Reason "Nome de usuário já existe")).

Definition loginUser (username password : string) : Async (option User.t) :=
  req <- users_get username ;;
  match req with
  | Some user =>
      if strict_eq (User.password user) password
      then if Bool.eqb (User.isActive user) false
           then reject (Reason "Conta desativada pelo administrador.")
           else resolve (Some user)
      else resolve None
  | None => resolve None
  end.

Definition getAllUsers : Async (list User.t) := users_getAll.

Definition updateUser (user : User.t) : Async unit := users_put user.

Definition deleteUser (username : string) : Async unit := users_delete username.

(** *** File and folder operations *)

Definition getAllFilesGlobal : Async (list CloudFile.t) := files_getAll.

(** [req.result?.data] *)
Definition getFileContent (id : string) : Async (option Blob) :=
  got <- files_get id ;;
  resolve (match got with
           | Some file => CloudFile.data file
           | None => None
           end).

Definition addFolderToDB (folder : CloudFolder.t) : Async unit :=
  folders_add folder.

(** *** Trash management *)

Definition getTrashedItems (ownerId : string)
  : Async (list CloudFile.t * list CloudFolder.t) :=
  all <- files_getAll ;;
  let files := filter (fun f => String.eqb (CloudFile.ownerId f) ownerId
                                && truthy (CloudFile.isTrashed f)) all in
  all <- folders_getAll ;;
  let folders := filter (fun f => String.eqb (CloudFolder.ownerId f) ownerId
                                  && truthy (CloudFolder.isTrashed f)) all in
  resolve (files, folders).

(** The loop of [emptyTrash]: one awaited purge per trashed file. *)
Fixpoint purge_each (ownerId : string) (files : list CloudFile.t) : Async unit :=
  match files with
  | [] => resolve tt
  | file :: rest =>
      deleteFileFromDB (CloudFile.id file) ownerId (CloudFile.size file) ;;
      purge_each ownerId rest
  end.

Definition emptyTrash (ownerId : string) : Async unit :=
  items <- getTrashedItems ownerId ;;
  purge_each ownerId (fst items).

(** *** Config operations

    The [config] store is the fourth store of the database. The two config
    operations touch no other store and no other operation touches it, so
    it is modelled on its own. A row is the saved configuration under the
    constant key that [saveCDNConfig] adds to it. *)

Module Provider.
Inductive t : Type := local | aws | wasabi | google_drive.
End Provider.

Module CDNConfig.
Record t : Type := mk {
  provider : Provider.t;
  rootPath : option string;
  endpoint : option string;
  region : option string;
  bucket : option string;
  accessKey : option string;
  secretKey : option string;
  clientId : option string;
  clientSecret : option string;
  refreshToken : option string
}.

(** [{ provider: 'local' }] *)
Definition default : t :=
  mk Provider.local None None None None None None None None None.
End CDNConfig.

Record ConfigRow : Type := mkConfigRow {
  row_key : string;
  row_config : CDNConfig.t
}.

Definition ConfigStore : Type := list ConfigRow.

Definition saveCDNConfig (config : CDNConfig.t)
  : ConfigStore -> Outcome unit * ConfigStore :=
  fun s => (Resolved tt, ObjectStore.put row_key (mkConfigRow "cdn" config) s).

Definition getCDNConfig : ConfigStore -> Outcome CDNConfig.t * ConfigStore :=
  fun s =>
    (Resolved (match ObjectStore.get row_key "cdn" s with
               | Some row => row_config row
               | None => CDNConfig.default
               end), s).

(** ** The application's helpers and handlers *)

(** [s.startsWith(p)] *)
Definition startsWith (s p : string) : bool := String.prefix p s.

(** [s.includes(sub)] *)
Fixpoint includes (s sub : string) : bool :=
  String.prefix sub s
  || match s with
     | String _ rest => includes rest sub
     | EmptyString => false
     end.

Definition getFileType (mimeType : string) : FileType :=
  if startsWith mimeType "image/" then IMAGE
  else if startsWith mimeType "video/" then VIDEO
  else if startsWith mimeType "audio/" then AUDIO
  else if includes mimeType "pdf" || includes mimeType "text"
          || includes mimeType "document" then DOCUMENT
  else if includes mimeType "zip" || includes mimeType "rar"
          || includes mimeType "7z" then ARCHIVE
  else UNKNOWN.

(** The default administrator of the start-up effect. *)
Definition adminUser (now : string) : User.t :=
  User.mk "admin" "admin" (Some "password"%string) "admin@cloudfire.com"
          Role.admin Plan.enterprise
          "https://ui-avatars.com/api/?name=Admin&background=0D8ABC&color=fff"
          (num 0) (num (100 * 1024 * 1024 * 1024)) now true.

(** [try { await registerUser(adminUser) } catch (e) { await updateUser(adminUser) }] *)
Definition seedAdmin (now : string) : Async unit :=
  try_catch (registerUser (adminUser now)) (fun _ => updateUser (adminUser now)).

(** The part of the view that [handleShareToggle] reads and sets. *)
Record ShareView : Type := mkShareView {
  selectedFile : option CloudFile.t;
  listedFiles : list CloudFile.t
}.

(** [!token] for an optional string: [undefined] and the empty string. *)
Definition no_token (token : option string) : bool :=
  match token with
  | None => true
  | Some EmptyString => true
  | Some _ => false
  end.

(** [handleShareToggle]; [random] is the string the two [Math.random()]
    calls make. The view is set only after the awaited update resolved. *)
Definition handleShareToggle (view : ShareView) (random now : string)
  : Async ShareView :=
  match selectedFile view with
  | None => resolve view
  | Some sel =>
      let newStatus := negb (truthy (CloudFile.isShared sel)) in
      let token := CloudFile.shareToken sel in
      let token := if newStatus && no_token token then Some random else token in
      let shown := if newStatus then token else None in
      updateFileShareStatus (CloudFile.id sel) newStatus shown now ;;
      let mark f := CloudFile.set_shareToken shown
                      (CloudFile.set_isShared (Some newStatus) f) in
      resolve (mkShareView
                 (option_map mark (selectedFile view))
                 (map (fun f => if String.eqb (CloudFile.id f) (CloudFile.id sel)
                                then mark f else f)
                      (listedFiles view)))
  end.

(** ** Reading the results of the listing operations *)

Definition resolved_or {A : Type} (d : A) (o : Outcome A) : A :=
  match o with
  | Resolved a => a
  | Rejected _ => d
  end.

(** What [getFilesFromDB(parentId, ownerId)] resolves with. *)
Definition listed_files (parentId ownerId : string) (db : DB) : list CloudFile.t :=
  resolved_or [] (fst (getFilesFromDB parentId ownerId db)).

(** What [getFoldersFromDB(parentId, ownerId)] resolves with. *)
Definition listed_folders (parentId ownerId : string) (db : DB) : list CloudFolder.t :=
  resolved_or [] (fst (getFoldersFromDB parentId ownerId db)).

(** The [files] and [folders] of what [getTrashedItems(ownerId)] resolves with. *)
Definition trashed_files (ownerId : string) (db : DB) : list CloudFile.t :=
  fst (resolved_or ([], []) (fst (getTrashedItems ownerId db))).

Definition trashed_folders (ownerId : string) (db : DB) : list CloudFolder.t :=
  snd (resolved_or ([], []) (fst (getTrashedItems ownerId db))).

(** The record [trashFile] puts back for [file], and the one [restoreFile]
    puts back. *)
Definition trashed_record (now : string) (file : CloudFile.t) : CloudFile.t :=
  let file := CloudFile.set_isTrashed (Some true) file in
  let file := CloudFile.set_trashedAt (Some now) file in
  if truthy (CloudFile.isShared file)
  then CloudFile.set_isShared (Some false) file
  else file.

Definition restored_record (file : CloudFile.t) : CloudFile.t :=
  CloudFile.set_trashedAt None (CloudFile.set_isTrashed (Some false) file).

(** The record [updateFileShareStatus] puts back for [file]. *)
Definition share_record (isShared : bool) (shareToken : option string)
    (now : string) (file : CloudFile.t) : CloudFile.t :=
  CloudFile.set_shareCreatedAt (if isShared then Some now else None)
    (CloudFile.set_shareToken shareToken
      (CloudFile.set_isShared (Some isShared) file)).

(** The test of the cursor loop of [getFileByShareToken]. *)
Definition share_test (token : string) (file : CloudFile.t) : bool :=
  truthy (CloudFile.isShared file)
  && strict_eq (CloudFile.shareToken file) token
  && negb (truthy (CloudFile.isTrashed file)).

(** [s] begins with [p]; [s] has [sub] somewhere inside. *)
Definition begins (s p : string) : Prop :=
  exists rest : string, s = String.append p rest.

Definition contains (s sub : string) : Prop :=
  exists before after : string, s = String.append before (String.append sub after).



(** What the usage is after the purges of [emptyTrash]: one binary64
    subtraction per file, in order. *)
Definition released (used : number) (l : list CloudFile.t) : number :=
  fold_left (fun acc f => js_add acc (js_neg (CloudFile.size f))) l used.

(** A key made of ASCII characters only. *)
Definition ascii_key (k : string) : bool :=
  forallb (fun c => Nat.ltb (Ascii.nat_of_ascii c) 128) (list_ascii_of_string k).

(** Well-formed stores: what IndexedDB itself maintains. *)
Definition wf_users (s : list User.t) : Prop :=
  ObjectStore.sorted User.username s /\ ObjectStore.unique_on user_ix_id s.

Definition wf_files (s : list CloudFile.t) : Prop :=
  ObjectStore.sorted CloudFile.id s.

Definition wf (db : DB) : Prop :=
  wf_users (users db) /\ wf_files (files db).

(** The per-file invariant on sharing: a shared record carries a token. *)
Definition share_inv (f : CloudFile.t) : Prop :=
  CloudFile.isShared f = Some true -> CloudFile.shareToken f <> None.

Definition share_inv_store (s : list CloudFile.t) : Prop :=
  Forall share_inv s.

(** The owner's accounted usage, read through the [id] index. *)
Definition storageUsed_of (userId : string) (db : DB) : option number :=
  option_map User.storageUsed (ObjectStore.index_get user_ix_id userId (users db)).

(** The same as an integer, when the usage is one. *)
Definition usage_of (userId : string) (db : DB) : option Z :=
  match storageUsed_of userId db with
  | Some x => int_value x
  | None => None
  end.

(** ** A seeded database

    Two users, one of them at her quota; files and folders of mixed
    ownership, share state and trash state. Keys ascend in each store. *)

Module Sample.
Local Open Scope string_scope.

Definition GiB : Z := 1024 * 1024 * 1024.

Definition alice : User.t :=
  User.mk "u-alice" "alice" (Some "secret") "alice@example.org"
          Role.user Plan.free "" (num 0) (num (5 * GiB)) "2024-01-01T00:00:00.000Z" true.

Definition bob : User.t :=
  User.mk "u-bob" "bob" (Some "hunter2") "bob@example.org"
          Role.user Plan.free "" (num (5 * GiB)) (num (5 * GiB))
          "2024-01-02T00:00:00.000Z" true.

Definition plain (id owner parent : string) (size : Z) : CloudFile.t :=
  CloudFile.mk id "report.pdf" (num size) DOCUMENT parent "2024-02-01T00:00:00.000Z"
               "application/pdf" owner (Some "public/content/report.pdf") None
               (Some false) None None None None.

(** Alice's upload of the scenario: 1,000,000 bytes at the root. *)
Definition f1 : CloudFile.t := plain "fi-1" "u-alice" "root" 1000000.

(** Bob's file, shared under the token ["tok"]. *)
Definition f2 : CloudFile.t :=
  CloudFile.set_shareCreatedAt (Some "2024-02-02T00:00:00.000Z")
    (CloudFile.set_shareToken (Some "tok")
      (CloudFile.set_isShared (Some true) (plain "fi-2" "u-bob" "root" 2048))).

(** Alice's trashed file; its token field is stale. *)
Definition f3 : CloudFile.t :=
  CloudFile.set_trashedAt (Some "2024-02-03T00:00:00.000Z")
    (CloudFile.set_isTrashed (Some true)
      (CloudFile.set_shareToken (Some "old") (plain "fi-3" "u-alice" "root" 512))).

(** A file not yet in the store. *)
Definition f4 : CloudFile.t := plain "fi-4" "u-bob" "f-1" 4096.

Definition d1 : CloudFolder.t :=
  CloudFolder.mk "f-1" "docs" (Some "root") "2024-01-05T00:00:00.000Z" "u-alice" None None.

Definition d2 : CloudFolder.t :=
  CloudFolder.mk "f-2" "music" (Some "root") "2024-01-06T00:00:00.000Z" "u-bob" None None.

Definition d3 : CloudFolder.t :=
  CloudFolder.mk "f-3" "old" (Some "root") "2024-01-07T00:00:00.000Z" "u-alice"
                 (Some true) (Some "2024-03-01T00:00:00.000Z").

Definition db0 : DB := mkDB [alice; bob] [f1; f2; f3] [d1; d2; d3].

Definition now : string := "2024-03-02T12:00:00.000Z".
End Sample.

(** More seed data: a user not yet registered, a blocked user, a folder
    not yet created. *)

Module SampleMore.
Local Open Scope string_scope.

Definition carol : User.t :=
  User.mk "u-carol" "carol" (Some "pw-carol") "carol@example.org"
          Role.user Plan.free "" (num 0) (num (5 * Sample.GiB))
          "2024-01-03T00:00:00.000Z" true.

(** Bob, blocked by the administrator and moved to the pro plan. *)
Definition bob_blocked : User.t :=
  User.mk "u-bob" "bob" (Some "hunter2") "bob@example.org"
          Role.user Plan.pro "" (num (5 * Sample.GiB)) (num (1024 * Sample.GiB))
          "2024-01-02T00:00:00.000Z" false.

Definition d4 : CloudFolder.t :=
  CloudFolder.mk "f-4" "photos" (Some "f-1") "2024-01-08T00:00:00.000Z" "u-alice"
                 None None.

(** A file that was trashed and restored once: trash flag false, no trash
    date, not shared. *)
Definition f0 : CloudFile.t :=
  CloudFile.set_isTrashed (Some false) (Sample.plain "fi-0" "u-alice" "root" 100).

Definition db1 : DB := mkDB [Sample.alice; Sample.bob] [f0; Sample.f2] [].

(** A database whose administrator has accounted usage and a changed
    password, and one where another account holds the administrator's id. *)
Definition old_admin : User.t :=
  User.mk "admin" "admin" (Some "changed") "root@example.org"
          Role.admin Plan.enterprise "" (num 500) (num (100 * Sample.GiB))
          "2023-12-01T00:00:00.000Z" true.

Definition db2 : DB := mkDB [old_admin; Sample.alice] [] [].

Definition impostor : User.t :=
  User.mk "admin" "mallory" (Some "x") "m@example.org"
          Role.user Plan.free "" (num 0) (num Sample.GiB)
          "2023-12-02T00:00:00.000Z" true.

Definition db3 : DB := mkDB [Sample.alice; impostor] [] [].

(** The view after selecting the unshared file [f1], and after selecting
    the shared file [f2]. *)
Definition view1 : ShareView := mkShareView (Some Sample.f1) [Sample.f1; Sample.f3].
Definition view2 : ShareView := mkShareView (Some Sample.f2) [Sample.f2].
End SampleMore.

(** Seed data beyond the safe integers: a user whose usage is 1 with a
    file of 2^53 bytes, and a user whose usage is 2^53 + 2 with a file of
    one byte and two trashed files of one byte each. *)

Module SampleLarge.
Local Open Scope string_scope.

Definition two53 : Z := 2 ^ 53.

Definition erin : User.t :=
  User.mk "u-erin" "erin" (Some "pw") "erin@example.org"
          Role.user Plan.enterprise "" (num 1) (num (4 * two53))
          "2024-01-04T00:00:00.000Z" true.

Definition frank : User.t :=
  User.mk "u-frank" "frank" (Some "pw") "frank@example.org"
          Role.user Plan.enterprise "" (num (two53 + 2)) (num (4 * two53))
          "2024-01-05T00:00:00.000Z" true.

Definition huge : CloudFile.t := Sample.plain "fi-huge" "u-erin" "root" two53.

Definition byte1 : CloudFile.t := Sample.plain "fi-b1" "u-frank" "root" 1.

Definition trashed1 : CloudFile.t :=
  CloudFile.set_isTrashed (Some true) (Sample.plain "fi-t1" "u-frank" "root" 1).

Definition trashed2 : CloudFile.t :=
  CloudFile.set_isTrashed (Some true) (Sample.plain "fi-t2" "u-frank" "root" 1).

Definition db : DB := mkDB [erin; frank] [byte1; trashed1; trashed2] [].
End SampleLarge.

(** * Facts about binary64 numbers *)

Lemma iter_pos_iter {A : Type} (f : A -> A) (p : positive) (x : A) :
  iter_pos f p x = Pos.iter f x p.
Proof.
  revert x. induction p as [p IH|p IH|]; intro x; cbn.
  - rewrite !IH, <- !Pos.iter_swap. reflexivity.
  - rewrite !IH. reflexivity.
  - reflexivity.
Qed.

Lemma shl_value (m p : positive) :
  Zpos (Pos.iter xO m p) = Zpos m * 2 ^ Zpos p.
Proof.
  induction p as [|p IH] using Pos.peano_ind.
  - cbn. lia.
  - rewrite Pos.iter_succ, Pos2Z.inj_succ, Z.pow_succ_r by lia.
    rewrite (Pos2Z.inj_xO (Pos.iter xO m p)), IH. ring.
Qed.

Lemma shl_digits (m p : positive) :
  digits2_pos (Pos.iter xO m p) = (digits2_pos m + p)%positive.
Proof.
  induction p as [|p IH] using Pos.peano_ind.
  - cbn. lia.
  - rewrite Pos.iter_succ. cbn. rewrite IH. lia.
Qed.

Lemma digits_bounds (m : positive) :
  2 ^ (Zpos (digits2_pos m) - 1) <= Zpos m < 2 ^ Zpos (digits2_pos m).
Proof.
  induction m as [m IH|m IH|]; cbn [digits2_pos].
  - rewrite Pos2Z.inj_succ, (Pos2Z.inj_xI m).
    replace (Z.succ (Zpos (digits2_pos m)) - 1) with (Z.succ (Zpos (digits2_pos m) - 1)) by lia.
    rewrite !Z.pow_succ_r by lia.
    generalize dependent (2 ^ (Zpos (digits2_pos m) - 1)).
    generalize (2 ^ Zpos (digits2_pos m)). intros; lia.
  - rewrite Pos2Z.inj_succ, (Pos2Z.inj_xO m).
    replace (Z.succ (Zpos (digits2_pos m)) - 1) with (Z.succ (Zpos (digits2_pos m) - 1)) by lia.
    rewrite !Z.pow_succ_r by lia.
    generalize dependent (2 ^ (Zpos (digits2_pos m) - 1)).
    generalize (2 ^ Zpos (digits2_pos m)). intros; lia.
  - cbn. lia.
Qed.

Lemma digits_le_prec (m : positive) :
  Zpos m < 2 ^ 53 -> Zpos (digits2_pos m) <= 53.
Proof.
  intro H. destruct (digits_bounds m) as [Hlo _].
  destruct (Z_le_gt_dec (Zpos (digits2_pos m)) 53) as [|Hgt]; [assumption|].
  exfalso.
  assert (2 ^ 53 <= 2 ^ (Zpos (digits2_pos m) - 1)) by (apply Z.pow_le_mono_r; lia).
  lia.
Qed.

Lemma shr_exact (m p : positive) :
  Pos.iter shr_1 (Build_shr_record (Zpos (Pos.iter xO m p)) false false) p
  = Build_shr_record (Zpos m) false false.
Proof.
  induction p as [|p IH] using Pos.peano_ind.
  - reflexivity.
  - rewrite Pos.iter_succ_r, Pos.iter_succ. cbn [shr_1 orb]. exact IH.
Qed.

Lemma shr_fexp_amount (m : positive) (e : Z) :
  shr_fexp 53 1024 (Zpos m) e loc_Exact
  = shr (Build_shr_record (Zpos m) false false) e
        (fexp 53 1024 (Zpos (digits2_pos m) + e) - e).
Proof. reflexivity. Qed.

Lemma pre_round_shift (c k : positive) (e : Z) :
  let t := fexp 53 1024 (Zpos (digits2_pos c) + e) in
  (let '(mz, ez) := shl_align (Pos.iter xO c k) (e - Zpos k) t in
   shr_fexp 53 1024 (Zpos mz) ez loc_Exact)
  = (let '(mz, ez) := shl_align c e t in
     shr_fexp 53 1024 (Zpos mz) ez loc_Exact).
Proof.
  intro t. unfold shl_align.
  destruct (t - (e - Zpos k)) as [|j|j] eqn:Ej; destruct (t - e) as [|q|q] eqn:Eq;
    try lia; rewrite !shr_fexp_amount, ?shl_digits.
  - (* left unshifted by 0, right shifted left by q = k *)
    assert (q = k) by lia. subst q.
    replace (Zpos (digits2_pos c + k) + (e - Zpos k)) with (Zpos (digits2_pos c) + e) by lia.
    replace (Zpos (digits2_pos c + k) + t) with (Zpos (digits2_pos c) + e) by lia.
    fold t. replace (t - (e - Zpos k)) with 0 by lia. replace (t - t) with 0 by lia.
    cbn [shr]. f_equal. lia.
  - (* t = e: left shr by j = k *)
    assert (j = k) by lia. subst j.
    replace (Zpos (digits2_pos c + k) + (e - Zpos k)) with (Zpos (digits2_pos c) + e) by lia.
    fold t. rewrite Ej, Eq. cbn [shr]. rewrite iter_pos_iter, shr_exact. f_equal. lia.
  - (* t > e: left shr by j = q + k *)
    assert (j = (q + k)%positive) by lia. subst j.
    replace (Zpos (digits2_pos c + k) + (e - Zpos k)) with (Zpos (digits2_pos c) + e) by lia.
    fold t. rewrite Ej, Eq. cbn [shr]. rewrite !iter_pos_iter, Pos.iter_add, shr_exact.
    f_equal. lia.
  - (* e - k < t < e: left shr by j, right shl by q, k = j + q *)
    assert (k = (j + q)%positive) by lia. subst k.
    replace (Zpos (digits2_pos c + (j + q)) + (e - Zpos (j + q)))
      with (Zpos (digits2_pos c) + e) by lia.
    replace (Zpos (digits2_pos c + q) + t) with (Zpos (digits2_pos c) + e) by lia.
    fold t. rewrite Ej. replace (t - t) with 0 by lia. cbn [shr].
    rewrite iter_pos_iter, Pos.iter_add, shr_exact. f_equal. lia.
  - (* both shifted left *)
    assert (q = (j + k)%positive) by lia. subst q.
    rewrite Pos.iter_add.
    replace (digits2_pos c + (j + k))%positive with (digits2_pos c + k + j)%positive by lia.
    reflexivity.
Qed.

(** Rounding sees the value, not the way it is written: shifting the
    mantissa left and lowering the exponent by as much changes nothing. *)
Lemma binary_round_shift (s : bool) (c k : positive) (e : Z) :
  binary_round 53 1024 s (Pos.iter xO c k) (e - Zpos k) = binary_round 53 1024 s c e.
Proof.
  unfold binary_round. rewrite shl_digits.
  replace (Zpos (digits2_pos c + k) + (e - Zpos k)) with (Zpos (digits2_pos c) + e) by lia.
  pose proof (pre_round_shift c k e) as H. cbv zeta in H.
  destruct (shl_align (Pos.iter xO c k) (e - Zpos k) _) as [mz ez].
  destruct (shl_align c e _) as [mz' ez'].
  unfold binary_round_aux. now rewrite H.
Qed.

(** A mantissa of 53 digits with an exponent in range is kept as it is. *)
Lemma binary_round_canonical (s : bool) (m : positive) (e : Z) :
  Zpos (digits2_pos m) = 53 -> -1074 <= e <= 971 ->
  binary_round 53 1024 s m e = S754_finite s m e.
Proof.
  intros Hd He.
  assert (Hf : fexp 53 1024 (Zpos (digits2_pos m) + e) = e).
  { unfold fexp, emin. rewrite Hd. lia. }
  unfold binary_round, shl_align. rewrite Hf, Z.sub_diag.
  unfold binary_round_aux. rewrite shr_fexp_amount, Hf, Z.sub_diag. cbn [shr shr_m loc_of_shr_record round_nearest_even].
  rewrite shr_fexp_amount, Hf, Z.sub_diag. cbn [shr shr_m].
  replace (e <=? 1024 - 53) with true by (symmetry; apply Z.leb_le; lia).
  reflexivity.
Qed.

Lemma binary_round_safe (s : bool) (p : positive) :
  Zpos p < 2 ^ 53 ->
  binary_round 53 1024 s p 0 = S754_finite s (mantissa_of p) (exponent_of p)
  /\ exponent_of p <= 0
  /\ Zpos (mantissa_of p) = Zpos p * 2 ^ (- exponent_of p).
Proof.
  intro Hp. pose proof (digits_le_prec p Hp) as Hd.
  unfold mantissa_of, exponent_of.
  destruct (53 - Zpos (digits2_pos p)) as [|j|j] eqn:Ej; try lia.
  - split; [|split; [lia|]].
    + replace (Zpos (digits2_pos p) - 53) with 0 by lia.
      apply binary_round_canonical; lia.
    + replace (- (Zpos (digits2_pos p) - 53)) with 0 by lia. lia.
  - split; [|split; [lia|]].
    + rewrite <- (binary_round_shift s p j 0).
      replace (Zpos (digits2_pos p) - 53) with (0 - Zpos j) by lia.
      apply binary_round_canonical; [rewrite shl_digits|]; lia.
    + rewrite shl_value. f_equal. f_equal. lia.
Qed.

Lemma normalize_shift (c k : Z) :
  0 <= k ->
  binary_normalize 53 1024 (c * 2 ^ k) (- k) false = binary_normalize 53 1024 c 0 false.
Proof.
  intro Hk. destruct k as [|q|q]; [now rewrite Z.mul_1_r| |lia].
  destruct c as [|p|p]; [reflexivity| |].
  - replace (Zpos p * 2 ^ Zpos q) with (Zpos (Pos.iter xO p q)) by apply shl_value.
    cbn [binary_normalize]. apply (binary_round_shift false p q 0).
  - replace (Zneg p * 2 ^ Zpos q) with (Zneg (Pos.iter xO p q)).
    + cbn [binary_normalize]. apply (binary_round_shift true p q 0).
    + rewrite <- !Pos2Z.opp_pos, shl_value. ring.
Qed.

(** A safe integer as a number: zero, or a finite number whose mantissa
    and exponent depend on the magnitude alone. *)
Lemma num_shape (a : Z) :
  safe_integer a ->
  (a = 0 /\ num a = S754_zero false)
  \/ (exists (m : positive) (e : Z),
        a <> 0
        /\ num a = S754_finite (a <? 0) m e
        /\ num (- a) = S754_finite (negb (a <? 0)) m e
        /\ e <= 0
        /\ cond_Zopp (a <? 0) (Zpos m) = a * 2 ^ (- e)).
Proof.
  unfold safe_integer. intro Ha. destruct a as [|p|p].
  - left. split; reflexivity.
  - right. destruct (binary_round_safe false p Ha) as [H1 [H2 H3]].
    destruct (binary_round_safe true p Ha) as [H1' _].
    exists (mantissa_of p), (exponent_of p).
    repeat split; try assumption; discriminate.
  - right. destruct (binary_round_safe true p Ha) as [H1 [H2 H3]].
    destruct (binary_round_safe false p Ha) as [H1' _].
    exists (mantissa_of p), (exponent_of p).
    repeat split; try assumption; try discriminate.
    cbn [Z.ltb Z.compare cond_Zopp]. rewrite <- !Pos2Z.opp_pos, H3. ring.
Qed.

Lemma align_value (m : positive) (e ez : Z) :
  ez <= e -> Zpos (fst (shl_align m e ez)) = Zpos m * 2 ^ (e - ez).
Proof.
  intro H. unfold shl_align.
  destruct (ez - e) as [|d|d] eqn:E; cbn [fst]; try lia.
  - replace (e - ez) with 0 by lia. lia.
  - rewrite shl_value. f_equal. f_equal. lia.
Qed.

Lemma cond_Zopp_mul (s : bool) (x y : Z) : cond_Zopp s x * y = cond_Zopp s (x * y).
Proof. destruct s; cbn; ring. Qed.

(** The sum of two safe integers is the number of their sum: exact when
    the sum is safe, correctly rounded when it is not. *)
Theorem num_add (a b : Z) :
  safe_integer a -> safe_integer b -> js_add (num a) (num b) = num (a + b).
Proof.
  intros Ha Hb.
  destruct (num_shape a Ha) as [[-> Ea]|[ma [ea [Hna [Ea [_ [Hea Hva]]]]]]];
    destruct (num_shape b Hb) as [[-> Eb]|[mb [eb [Hnb [Eb [_ [Heb Hvb]]]]]]].
  - reflexivity.
  - rewrite Ea. cbn [Z.add]. rewrite Eb. reflexivity.
  - rewrite Eb, Z.add_0_r, Ea. reflexivity.
  - rewrite Ea, Eb. unfold js_add, SFadd.
    set (ez := Z.min ea eb).
    rewrite (align_value ma ea ez), (align_value mb eb ez) by (unfold ez; lia).
    rewrite <- !cond_Zopp_mul, Hva, Hvb.
    replace (a * 2 ^ (- ea) * 2 ^ (ea - ez) + b * 2 ^ (- eb) * 2 ^ (eb - ez))
      with ((a + b) * 2 ^ (- ez)).
    + replace ez with (- (- ez)) at 2 by lia. apply normalize_shift. unfold ez. lia.
    + assert (Pa : 2 ^ (- ea) * 2 ^ (ea - ez) = 2 ^ (- ez)).
      { rewrite <- Z.pow_add_r by (unfold ez; lia). f_equal. lia. }
      assert (Pb : 2 ^ (- eb) * 2 ^ (eb - ez) = 2 ^ (- ez)).
      { rewrite <- Z.pow_add_r by (unfold ez; lia). f_equal. lia. }
      rewrite <- !Z.mul_assoc, Pa, Pb. ring.
Qed.

Lemma num_neg (a : Z) : safe_integer a -> a <> 0 -> js_neg (num a) = num (- a).
Proof.
  intros Ha Hne.
  destruct (num_shape a Ha) as [[-> _]|[m [e [_ [E [E' _]]]]]]; [contradiction|].
  rewrite E, E'. reflexivity.
Qed.

Lemma safe_opp (a : Z) : safe_integer a -> safe_integer (- a).
Proof. unfold safe_integer. now rewrite Z.abs_opp. Qed.

(** The difference of two safe integers, as [x + (-y)] computes it. *)
Theorem num_sub (a b : Z) :
  safe_integer a -> safe_integer b -> js_add (num a) (js_neg (num b)) = num (a - b).
Proof.
  intros Ha Hb. destruct (Z.eq_dec b 0) as [->|Hne].
  - rewrite Z.sub_0_r.
    destruct (num_shape a Ha) as [[-> _]|[m [e [_ [E _]]]]]; [reflexivity|].
    rewrite E. reflexivity.
  - rewrite (num_neg b Hb Hne). apply (num_add a (- b) Ha (safe_opp b Hb)).
Qed.

(** A safe integer is read back from its number. *)
Theorem int_value_num (a : Z) : safe_integer a -> int_value (num a) = Some a.
Proof.
  intro Ha.
  destruct (num_shape a Ha) as [[-> E]|[m [e [_ [E [_ [He Hv]]]]]]]; [now rewrite E|].
  rewrite E. unfold int_value.
  destruct (Z.eq_dec e 0) as [->|Hne].
  - cbn [Z.leb Z.compare]. f_equal. rewrite <- cond_Zopp_mul, Hv.
    change (2 ^ (- 0)) with 1. change (2 ^ 0) with 1. ring.
  - replace (0 <=? e) with false by (symmetry; apply Z.leb_gt; lia).
    assert (Hm : Zpos m = Z.abs a * 2 ^ (- e)).
    { destruct (a <? 0) eqn:Hs; cbn [cond_Zopp] in Hv.
      - apply Z.ltb_lt in Hs. rewrite Z.abs_neq by lia. lia.
      - apply Z.ltb_ge in Hs. rewrite Z.abs_eq by lia. lia. }
    assert (Hpow : 0 < 2 ^ (- e)) by (apply Z.pow_pos_nonneg; lia).
    rewrite Hm, Z.mod_mul, Z.div_mul by lia. cbn [Z.eqb]. f_equal.
    destruct (a <? 0) eqn:Hs; cbn [cond_Zopp].
    + apply Z.ltb_lt in Hs. lia.
    + apply Z.ltb_ge in Hs. lia.
Qed.

Example rounding_above_the_safe_integers :
  js_add (num (2 ^ 53)) (num 1) = num (2 ^ 53)
  /\ js_add (js_add (num 1) (num (2 ^ 53))) (js_neg (num (2 ^ 53))) = num 0
  /\ js_add (num (2 ^ 53 + 2)) (js_neg (num 1)) = num (2 ^ 53)
  /\ int_value (num (2 ^ 53 + 2)) = Some (2 ^ 53 + 2).
Proof. repeat split; reflexivity. Qed.

(** * Facts about object stores *)

(** The order on keys. *)
Lemma key_lt_trans (a b c : string) :
  String.compare a b = Lt -> String.compare b c = Lt -> String.compare a c = Lt.
Proof.
  intros Hab Hbc.
  exact (@RelationClasses.StrictOrder_Transitive _ _ String_as_OT.lt_strorder a b c Hab Hbc).
Qed.

Lemma key_lt_gt (a b : string) :
  String.compare a b = Lt -> String.compare b a = Gt.
Proof.
  intro H. rewrite String.compare_antisym, H. reflexivity.
Qed.

Lemma key_gt_lt (a b : string) :
  String.compare a b = Gt -> String.compare b a = Lt.
Proof.
  intro H. rewrite String.compare_antisym, H. reflexivity.
Qed.

Lemma key_compare_refl (a : string) : String.compare a a = Eq.
Proof.
  pose proof (String.compare_antisym a a) as H.
  destruct (String.compare a a); cbn in H; congruence.
Qed.

Lemma key_neq_of_lt (a b : string) : String.compare a b = Lt -> String.eqb a b = false.
Proof.
  intro H. apply String.eqb_neq. intros ->.
  rewrite key_compare_refl in H. discriminate.
Qed.

Lemma key_neq_of_gt (a b : string) : String.compare a b = Gt -> String.eqb a b = false.
Proof.
  intro H. apply String.eqb_neq. intros ->.
  rewrite key_compare_refl in H. discriminate.
Qed.

Section StoreFacts.
Context {R : Type}.
Variable key : R -> string.

Local Abbreviation get := (ObjectStore.get key).
Local Abbreviation put := (ObjectStore.put key).
Local Abbreviation delete := (ObjectStore.delete key).
Local Abbreviation sorted := (ObjectStore.sorted key).

Lemma get_some (k : string) (s : list R) (r : R) :
  get k s = Some r -> In r s /\ key r = k.
Proof.
  unfold ObjectStore.get. intro H.
  apply find_some in H. destruct H as [Hin Hk].
  apply String.eqb_eq in Hk. auto.
Qed.

Lemma get_none (k : string) (s : list R) :
  get k s = None -> forall r, In r s -> key r <> k.
Proof.
  unfold ObjectStore.get. intros H r Hin Hk.
  pose proof (find_none _ _ H r Hin) as Hf. cbn in Hf.
  apply String.eqb_neq in Hf. contradiction.
Qed.

Lemma put_in (r x : R) (s : list R) :
  In x (put r s) -> x = r \/ In x s.
Proof.
  induction s as [|y s IH]; cbn.
  - intros [<-|[]]. now left.
  - destruct (String.compare (key r) (key y)); cbn.
    + intros [<-|H]; auto.
    + intros [<-|[<-|H]]; auto.
    + intros [<-|H]; auto. destruct (IH H); auto.
Qed.

Lemma put_in_new (r : R) (s : list R) : In r (put r s).
Proof.
  induction s as [|y s IH]; cbn; auto.
  destruct (String.compare (key r) (key y)); cbn; auto.
Qed.

Lemma get_put_same (r : R) (s : list R) :
  get (key r) (put r s) = Some r.
Proof.
  unfold ObjectStore.get.
  induction s as [|y s IH]; cbn.
  - now rewrite String.eqb_refl.
  - destruct (String.compare (key r) (key y)) eqn:E; cbn.
    + now rewrite String.eqb_refl.
    + now rewrite String.eqb_refl.
    + rewrite String.eqb_sym, (key_neq_of_gt _ _ E). exact IH.
Qed.

Lemma get_put_other (k : string) (r : R) (s : list R) :
  k <> key r -> get k (put r s) = get k s.
Proof.
  unfold ObjectStore.get. intro Hk.
  assert (Hr : String.eqb (key r) k = false)
    by (apply String.eqb_neq; congruence).
  induction s as [|y s IH]; cbn.
  - now rewrite Hr.
  - destruct (String.compare (key r) (key y)) eqn:E; cbn.
    + apply String.compare_eq_iff in E. rewrite <- E, Hr. reflexivity.
    + rewrite Hr. reflexivity.
    + rewrite IH. reflexivity.
Qed.

Lemma put_put (r1 r2 : R) (s : list R) :
  key r1 = key r2 -> put r2 (put r1 s) = put r2 s.
Proof.
  intro Hk.
  induction s as [|y s IH]; cbn.
  - rewrite Hk, key_compare_refl. reflexivity.
  - rewrite Hk.
    destruct (String.compare (key r2) (key y)) eqn:E; cbn.
    + rewrite Hk, key_compare_refl. reflexivity.
    + rewrite Hk, key_compare_refl. reflexivity.
    + rewrite E, IH. reflexivity.
Qed.

Lemma sorted_head_lt (x : R) (s : list R) :
  sorted (x :: s) -> forall y, In y s -> String.compare (key x) (key y) = Lt.
Proof.
  intros H y Hy. apply StronglySorted_inv in H. destruct H as [_ H].
  rewrite Forall_forall in H. auto.
Qed.

Lemma sorted_tail (x : R) (s : list R) : sorted (x :: s) -> sorted s.
Proof.
  intro H. apply StronglySorted_inv in H. tauto.
Qed.

(** Putting back the record a sorted store already holds changes nothing. *)
Lemma put_present (r : R) (s : list R) :
  sorted s -> In r s -> put r s = s.
Proof.
  intros Hs Hin.
  induction s as [|y s IH]; cbn; [destruct Hin|].
  destruct Hin as [->|Hin].
  - rewrite key_compare_refl. reflexivity.
  - rewrite (key_lt_gt _ _ (sorted_head_lt _ _ Hs _ Hin)).
    rewrite (IH (sorted_tail _ _ Hs) Hin). reflexivity.
Qed.

(** In a sorted store, [put] over an existing key replaces that record
    and leaves the others in place. *)
Lemma put_replaces (r r' : R) (s : list R) :
  sorted s -> In r s -> key r' = key r -> put r (put r' s) = s.
Proof.
  intros Hs Hin Hk. rewrite put_put by exact Hk. now apply put_present.
Qed.

Lemma sorted_put (r : R) (s : list R) : sorted s -> sorted (put r s).
Proof.
  unfold ObjectStore.sorted.
  induction s as [|y s IH]; cbn; intro Hs.
  - constructor; constructor.
  - pose proof (sorted_head_lt _ _ Hs) as Hlt.
    pose proof (sorted_tail _ _ Hs) as Hs'.
    destruct (String.compare (key r) (key y)) eqn:E.
    + apply String.compare_eq_iff in E.
      constructor; [exact Hs'|].
      apply Forall_forall. intros z Hz. rewrite E. auto.
    + constructor; [exact Hs|].
      apply Forall_forall. intros z [<-|Hz]; [exact E|].
      eapply key_lt_trans; [exact E|auto].
    + constructor; [exact (IH Hs')|].
      apply Forall_forall. intros z Hz.
      destruct (put_in _ _ _ Hz) as [->|Hz'].
      * now apply key_gt_lt.
      * auto.
Qed.

Lemma sorted_delete (k : string) (s : list R) : sorted s -> sorted (delete k s).
Proof.
  unfold ObjectStore.sorted, ObjectStore.delete.
  induction 1 as [|y s Hs IH Hall]; cbn; [constructor|].
  destruct (negb (String.eqb (key y) k)); [|exact IH].
  constructor; [exact IH|].
  rewrite Forall_forall in *. intros z Hz.
  apply filter_In in Hz. destruct Hz as [Hz _]. auto.
Qed.

Lemma delete_absent (k : string) (s : list R) :
  get k s = None -> delete k s = s.
Proof.
  unfold ObjectStore.get, ObjectStore.delete.
  induction s as [|y s IH]; cbn; [reflexivity|].
  destruct (String.eqb (key y) k); cbn; [discriminate|].
  intro H. rewrite (IH H). reflexivity.
Qed.

Lemma get_delete_same (k : string) (s : list R) : get k (delete k s) = None.
Proof.
  unfold ObjectStore.get, ObjectStore.delete.
  induction s as [|y s IH]; cbn; [reflexivity|].
  destruct (String.eqb (key y) k) eqn:E; cbn; [exact IH|].
  rewrite E. exact IH.
Qed.

(** A unique index survives replacing a record by one with the same key
    and the same indexed value. *)
Lemma index_get_put (ix : R -> option string) (v : string) (r r' : R) (s : list R) :
  sorted s ->
  ObjectStore.index_get ix v s = Some r ->
  key r' = key r -> ix r' = Some v ->
  ObjectStore.index_get ix v (put r' s) = Some r'.
Proof.
  unfold ObjectStore.index_get, ObjectStore.index_match.
  intros Hs Hget Hk Hix.
  induction s as [|y s IH]; cbn in *; [discriminate|].
  destruct (strict_eq (ix y) v) eqn:Ey.
  - injection Hget as ->. rewrite Hk, key_compare_refl. cbn.
    rewrite Hix. cbn. now rewrite String.eqb_refl.
  - assert (Hin : In r s) by (apply find_some in Hget; tauto).
    rewrite Hk, (key_lt_gt _ _ (sorted_head_lt _ _ Hs _ Hin)). cbn.
    rewrite Ey. apply IH; [exact (sorted_tail _ _ Hs)|exact Hget].
Qed.

Lemma index_get_some (ix : R -> option string) (v : string) (r : R) (s : list R) :
  ObjectStore.index_get ix v s = Some r -> In r s /\ ix r = Some v.
Proof.
  unfold ObjectStore.index_get, ObjectStore.index_match. intro H.
  apply find_some in H. destruct H as [Hin Hm]. split; [exact Hin|].
  destruct (ix r) as [w|]; cbn in Hm; [|discriminate].
  apply String.eqb_eq in Hm. now subst.
Qed.

(** Under a unique index, writing back a record found through the index
    (same key, same indexed value) never meets a constraint. *)
Lemma violates_unique_self (ix : R -> option string) (v : string) (r r' : R) (s : list R) :
  ObjectStore.unique_on ix s ->
  In r s -> ix r = Some v ->
  key r' = key r -> ix r' = Some v ->
  ObjectStore.violates_unique key ix r' s = false.
Proof.
  intros Hu Hin Hr Hk Hr'.
  unfold ObjectStore.violates_unique. rewrite Hr'.
  apply not_true_is_false. intro Hex.
  apply existsb_exists in Hex. destruct Hex as [x [Hx Hm]].
  apply andb_true_iff in Hm. destruct Hm as [Hm Hne].
  unfold ObjectStore.index_match in Hm.
  destruct (ix x) as [w|] eqn:Ex; cbn in Hm; [|discriminate].
  apply String.eqb_eq in Hm. subst w.
  assert (x = r) by (eapply Hu; eauto). subst x.
  rewrite Hk, String.eqb_refl in Hne. discriminate.
Qed.
End StoreFacts.

(** * Facts about the engine *)

Lemma sample_wf_users : wf_users (users Sample.db0).
Proof.
  split.
  - repeat constructor.
  - intros a b v Ha Hb Ea Eb. cbn in Ha, Hb.
    destruct Ha as [<-|[<-|[]]]; destruct Hb as [<-|[<-|[]]];
      try reflexivity; cbv in Ea, Eb; congruence.
Qed.

Lemma sample_wf_files : wf_files (files Sample.db0).
Proof. repeat constructor. Qed.

(** In a sorted store the records of [put r s] other than [r] are the
    records of [s] under other keys. *)
Lemma put_in_sorted {R : Type} (key : R -> string) (r x : R) (s : list R) :
  ObjectStore.sorted key s ->
  In x (ObjectStore.put key r s) -> x = r \/ (In x s /\ key x <> key r).
Proof.
  intros Hs.
  induction s as [|y s IH]; cbn.
  - intros [<-|[]]. now left.
  - pose proof (sorted_head_lt key _ _ Hs) as Hlt.
    pose proof (sorted_tail key _ _ Hs) as Hs'.
    destruct (String.compare (key r) (key y)) eqn:E; cbn.
    + apply String.compare_eq_iff in E.
      intros [<-|H]; [now left|right]. split; [now right|].
      specialize (Hlt _ H). rewrite E. intro Heq. rewrite Heq in Hlt.
      rewrite key_compare_refl in Hlt. discriminate.
    + intros [<-|[<-|H]]; [now left|right|right].
      * split; [now left|]. intro Heq. rewrite Heq in E.
        rewrite key_compare_refl in E. discriminate.
      * split; [now right|]. intro Heq.
        pose proof (key_lt_trans _ _ _ E (Hlt _ H)) as Hc.
        rewrite Heq in Hc. rewrite key_compare_refl in Hc. discriminate.
    + intros [<-|H].
      * right. split; [now left|]. intro Heq. rewrite Heq in E.
        rewrite key_compare_refl in E. discriminate.
      * destruct (IH Hs' H) as [->|[Hin Hne]]; [now left|right].
        split; [now right|exact Hne].
Qed.

(** Replacing a user's record by one with the same [username] and [id]
    keeps the users store well formed. *)
Lemma wf_users_put (u u' : User.t) (s : list User.t) :
  wf_users s -> In u s ->
  User.username u' = User.username u -> User.id u' = User.id u ->
  wf_users (ObjectStore.put User.username u' s).
Proof.
  intros [Hs Hu] Hin Hk Hid. split.
  - now apply sorted_put.
  - assert (Hold : forall x, In x s -> User.username x <> User.username u' ->
                             User.id x <> User.id u').
    { intros x Hx Hne Heq. apply Hne.
      rewrite (Hu x u (User.id u) Hx Hin); [symmetry; exact Hk| |reflexivity].
      unfold user_ix_id. congruence. }
    intros a b v Ha Hb Ea Eb.
    unfold user_ix_id in Ea, Eb. injection Ea as Ea. injection Eb as Eb.
    destruct (put_in_sorted _ _ _ _ Hs Ha) as [->|[Ha' Hna]];
      destruct (put_in_sorted _ _ _ _ Hs Hb) as [->|[Hb' Hnb]].
    + reflexivity.
    + exfalso. apply (Hold b Hb' Hnb). congruence.
    + exfalso. apply (Hold a Ha' Hna). congruence.
    + apply (Hu a b v); unfold user_ix_id; congruence.
Qed.

(** [updateUserStorage] on a user the [id] index finds: the record is
    written back with the adjusted usage, and the promise resolves. *)
Lemma updateUserStorage_found (db : DB) (userId : string) (bytesToAdd : number) (u : User.t) :
  wf_users (users db) ->
  ObjectStore.index_get user_ix_id userId (users db) = Some u ->
  updateUserStorage userId bytesToAdd db =
    (Resolved tt,
     set_users (ObjectStore.put User.username
                  (User.set_storageUsed (js_add (User.storageUsed u) bytesToAdd) u)
                  (users db)) db).
Proof.
  intros [Hs Hu] Hget.
  unfold updateUserStorage, await, users_index_id_get. rewrite Hget.
  unfold users_put.
  destruct (index_get_some _ _ _ _ Hget) as [Hin Hix].
  rewrite (violates_unique_self User.username user_ix_id userId u); auto.
Qed.

Lemma updateUserStorage_missing (db : DB) (userId : string) (bytesToAdd : number) :
  ObjectStore.index_get user_ix_id userId (users db) = None ->
  updateUserStorage userId bytesToAdd db = (Resolved tt, db).
Proof.
  intro Hget.
  unfold updateUserStorage, await, users_index_id_get. rewrite Hget.
  reflexivity.
Qed.

(** What the [id] index reads after such an adjustment. *)
Lemma index_get_adjusted (s : list User.t) (userId : string) (d : number) (u : User.t) :
  wf_users s ->
  ObjectStore.index_get user_ix_id userId s = Some u ->
  ObjectStore.index_get user_ix_id userId
    (ObjectStore.put User.username (User.set_storageUsed (js_add (User.storageUsed u) d) u) s)
  = Some (User.set_storageUsed (js_add (User.storageUsed u) d) u).
Proof.
  intros [Hs _] Hget.
  destruct (index_get_some _ _ _ _ Hget) as [_ Hix].
  eapply index_get_put; eauto.
Qed.

Lemma wf_users_adjusted (s : list User.t) (userId : string) (d : number) (u : User.t) :
  wf_users s ->
  ObjectStore.index_get user_ix_id userId s = Some u ->
  wf_users (ObjectStore.put User.username
              (User.set_storageUsed (js_add (User.storageUsed u) d) u) s).
Proof.
  intros Hwf Hget.
  destruct (index_get_some _ _ _ _ Hget) as [Hin _].
  now apply (wf_users_put u).
Qed.

(** [updateUserStorage] keeps the users store well formed and touches
    no other store. *)
Lemma updateUserStorage_wf (db : DB) (userId : string) (d : number) :
  wf_users (users db) ->
  wf_users (users (snd (updateUserStorage userId d db)))
  /\ files (snd (updateUserStorage userId d db)) = files db
  /\ folders (snd (updateUserStorage userId d db)) = folders db.
Proof.
  intro Hwf.
  destruct (ObjectStore.index_get user_ix_id userId (users db)) as [u|] eqn:Hget.
  - rewrite (updateUserStorage_found db userId d u Hwf Hget). cbn.
    split; [|split; reflexivity]. now apply (wf_users_adjusted _ userId).
  - rewrite (updateUserStorage_missing db userId d Hget). auto.
Qed.

Lemma sample_large_wf_users : wf_users (users SampleLarge.db).
Proof.
  split.
  - repeat constructor.
  - intros a b v Ha Hb Ea Eb. cbn in Ha, Hb.
    destruct Ha as [<-|[<-|[]]]; destruct Hb as [<-|[<-|[]]];
      try reflexivity; cbv in Ea, Eb; congruence.
Qed.

(** On safe integers with a safe sum, adding a size and taking it off
    again gives back the record. *)
Lemma set_storageUsed_back (u : User.t) (size : number) (a s : Z) :
  User.storageUsed u = num a -> size = num s ->
  safe_integer a -> safe_integer s -> safe_integer (a + s) ->
  User.set_storageUsed
    (js_add (User.storageUsed (User.set_storageUsed (js_add (User.storageUsed u) size) u))
            (js_neg size))
    (User.set_storageUsed (js_add (User.storageUsed u) size) u) = u.
Proof.
  intros Hu -> Ha Hs Has. destruct u. unfold User.set_storageUsed.
  cbn [User.storageUsed User.id User.username User.password User.email User.role
       User.plan User.avatar User.storageLimit User.createdAt User.isActive] in *.
  subst. rewrite (num_add a s Ha Hs), (num_sub (a + s) s Has Hs).
  do 2 f_equal. lia.
Qed.

(** [addFileToDB] when the owner exists: the usage is adjusted first, and
    the [add] request runs on the database so adjusted. *)
Lemma addFileToDB_found (db : DB) (file : CloudFile.t) (u : User.t) :
  wf_users (users db) ->
  ObjectStore.index_get user_ix_id (CloudFile.ownerId file) (users db) = Some u ->
  addFileToDB file db =
    files_add file
      (set_users (ObjectStore.put User.username
                    (User.set_storageUsed (js_add (User.storageUsed u) (CloudFile.size file)) u)
                    (users db)) db).
Proof.
  intros Hwf Hget. unfold addFileToDB, await.
  rewrite (updateUserStorage_found db _ _ u Hwf Hget). reflexivity.
Qed.

Lemma files_add_users (file : CloudFile.t) (db : DB) :
  users (snd (files_add file db)) = users db.
Proof.
  unfold files_add.
  destruct (ObjectStore.add CloudFile.id file (files db)); reflexivity.
Qed.

Lemma deleteFileFromDB_found (db : DB) (id ownerId : string) (size : number) (u : User.t) :
  wf_users (users db) ->
  ObjectStore.index_get user_ix_id ownerId (users db) = Some u ->
  deleteFileFromDB id ownerId size db =
    (Resolved tt,
     set_files (ObjectStore.delete CloudFile.id id (files db))
       (set_users (ObjectStore.put User.username
                     (User.set_storageUsed (js_add (User.storageUsed u) (js_neg size)) u)
                     (users db)) db)).
Proof.
  intros Hwf Hget. unfold deleteFileFromDB, await.
  rewrite (updateUserStorage_found db _ _ u Hwf Hget). reflexivity.
Qed.

(** * The claims *)

(** C1, as the code has it. For a user the store holds, an upload in
    that user's name followed at once by the purge of the same file with
    the same size leaves the user's [storageUsed] at the binary64 value
    of (used + size) - size. When the usage before, the size and their sum
    are safe integers, that is exactly the usage before, and the whole
    users store ends as it began. *)
Theorem upload_then_purge_restores_usage
    (db : DB) (file : CloudFile.t) (u : User.t) :
  wf_users (users db) ->
  ObjectStore.index_get user_ix_id (CloudFile.ownerId file) (users db) = Some u ->
  let db1 := snd (addFileToDB file db) in
  let db2 := snd (deleteFileFromDB (CloudFile.id file) (CloudFile.ownerId file)
                    (CloudFile.size file) db1) in
  storageUsed_of (CloudFile.ownerId file) db1
    = Some (js_add (User.storageUsed u) (CloudFile.size file))
  /\ storageUsed_of (CloudFile.ownerId file) db2
     = Some (js_add (js_add (User.storageUsed u) (CloudFile.size file))
                    (js_neg (CloudFile.size file)))
  /\ (forall a s : Z,
        User.storageUsed u = num a -> CloudFile.size file = num s ->
        safe_integer a -> safe_integer s -> safe_integer (a + s) ->
        storageUsed_of (CloudFile.ownerId file) db2 = Some (User.storageUsed u)
        /\ usage_of (CloudFile.ownerId file) db2 = Some a
        /\ users db2 = users db).
Proof.
  intros Hwf Hget db1 db2.
  set (u1 := User.set_storageUsed (js_add (User.storageUsed u) (CloudFile.size file)) u).
  set (u2 := User.set_storageUsed
               (js_add (User.storageUsed u1) (js_neg (CloudFile.size file))) u1).
  assert (Husers1 : users db1 = ObjectStore.put User.username u1 (users db)).
  { unfold db1. rewrite (addFileToDB_found db file u Hwf Hget).
    rewrite files_add_users. reflexivity. }
  assert (Hget1 : ObjectStore.index_get user_ix_id (CloudFile.ownerId file) (users db1)
                  = Some u1).
  { rewrite Husers1. now apply index_get_adjusted. }
  assert (Hwf1 : wf_users (users db1)).
  { rewrite Husers1. now apply (wf_users_adjusted _ (CloudFile.ownerId file)). }
  assert (Husers2 : users db2 = ObjectStore.put User.username u2 (users db1)).
  { unfold db2. rewrite (deleteFileFromDB_found db1 _ _ _ u1 Hwf1 Hget1). reflexivity. }
  assert (Hget2 : ObjectStore.index_get user_ix_id (CloudFile.ownerId file) (users db2)
                  = Some u2).
  { rewrite Husers2. now apply index_get_adjusted. }
  split; [|split].
  - unfold storageUsed_of. rewrite Hget1. reflexivity.
  - unfold storageUsed_of. rewrite Hget2. reflexivity.
  - intros a s Hu Hsize Ha Hs Has.
    assert (Hback : u2 = u).
    { unfold u2, u1. now apply (set_storageUsed_back u (CloudFile.size file) a s). }
    assert (Hused : storageUsed_of (CloudFile.ownerId file) db2 = Some (User.storageUsed u)).
    { unfold storageUsed_of. now rewrite Hget2, Hback. }
    split; [exact Hused|]. split.
    + unfold usage_of. rewrite Hused, Hu. now apply int_value_num.
    + rewrite Husers2, Husers1, Hback.
      destruct Hwf as [Hsorted _]. destruct (index_get_some _ _ _ _ Hget) as [Hin _].
      now apply put_replaces.
Qed.

Lemma upload_then_purge_restores_usage_witness :
  storageUsed_of "u-alice" Sample.db0 = Some (num 0)
  /\ storageUsed_of "u-alice" (snd (addFileToDB Sample.f4 Sample.db0)) = Some (num 0)
  /\ storageUsed_of "u-bob" (snd (addFileToDB Sample.f4 Sample.db0))
     = Some (num (5 * Sample.GiB + 4096))
  /\ storageUsed_of "u-bob"
       (snd (deleteFileFromDB "fi-4" "u-bob" (num 4096) (snd (addFileToDB Sample.f4 Sample.db0))))
     = Some (num (5 * Sample.GiB))
  /\ usage_of "u-bob"
       (snd (deleteFileFromDB "fi-4" "u-bob" (num 4096) (snd (addFileToDB Sample.f4 Sample.db0))))
     = Some (5 * Sample.GiB).
Proof.
  split; [reflexivity|]. split; [reflexivity|].
  pose proof (upload_then_purge_restores_usage Sample.db0 Sample.f4 Sample.bob
                sample_wf_users eq_refl) as H.
  cbv zeta in H. destruct H as [H1 [_ H3]].
  split; [exact H1|].
  assert (Hsafe : forall z, 0 <= z < 2 ^ 40 -> safe_integer z).
  { intros z Hz. unfold safe_integer. rewrite Z.abs_eq by lia.
    assert (2 ^ 40 < 2 ^ 53) by (apply Z.pow_lt_mono_r; lia). lia. }
  destruct (H3 (5 * Sample.GiB) 4096 eq_refl eq_refl) as [H4 [H5 _]];
    try (apply Hsafe; cbv; split; discriminate || reflexivity).
  split; [exact H4|exact H5].
Defined.

(** C1, as stated, fails above the safe integers: with a usage of 1 and a
    file of 2^53 bytes, the upload leaves 2^53 (the sum 2^53 + 1 is not a
    binary64 number) and the purge leaves 0, not 1. *)
Lemma upload_then_purge_rounding_counterexample :
  let db := SampleLarge.db in
  let db1 := snd (addFileToDB SampleLarge.huge db) in
  let db2 := snd (deleteFileFromDB "fi-huge" "u-erin" (CloudFile.size SampleLarge.huge) db1) in
  wf_users (users db)
  /\ usage_of "u-erin" db = Some 1
  /\ int_value (CloudFile.size SampleLarge.huge) = Some (2 ^ 53)
  /\ fst (addFileToDB SampleLarge.huge db) = Resolved tt
  /\ usage_of "u-erin" db1 = Some (2 ^ 53)
  /\ usage_of "u-erin" db2 = Some 0
  /\ storageUsed_of "u-erin" db2 <> storageUsed_of "u-erin" db.
Proof.
  cbv zeta. split; [apply sample_large_wf_users|].
  repeat (split; [reflexivity|]).
  assert (E2 : storageUsed_of "u-erin"
                 (snd (deleteFileFromDB "fi-huge" "u-erin" (CloudFile.size SampleLarge.huge)
                         (snd (addFileToDB SampleLarge.huge SampleLarge.db))))
               = Some (num 0)) by reflexivity.
  assert (E0 : storageUsed_of "u-erin" SampleLarge.db = Some (num 1)) by reflexivity.
  rewrite E2, E0. intro H. injection H as H. cbv in H. discriminate.
Qed.

(** C5. Trashing or restoring an id the files store does not hold, and
    adjusting the usage of a user id the users store does not hold, resolve
    and leave the database as it was. *)
Theorem soft_operations_swallow_not_found (db : DB) (id userId now : string) :
  (ObjectStore.get CloudFile.id id (files db) = None ->
     trashFile id now db = (Resolved tt, db)
     /\ restoreFile id db = (Resolved tt, db))
  /\ (ObjectStore.index_get user_ix_id userId (users db) = None ->
        forall bytesToAdd : number,
          updateUserStorage userId bytesToAdd db = (Resolved tt, db)).
Proof.
  split.
  - intro Hget. unfold trashFile, restoreFile, await, files_get.
    rewrite Hget. split; reflexivity.
  - intros Hget d. now apply updateUserStorage_missing.
Qed.

Lemma soft_operations_swallow_not_found_witness :
  trashFile "fi-9" Sample.now Sample.db0 = (Resolved tt, Sample.db0)
  /\ restoreFile "fi-9" Sample.db0 = (Resolved tt, Sample.db0)
  /\ updateUserStorage "u-carol" (num 4096) Sample.db0 = (Resolved tt, Sample.db0).
Proof.
  destruct (soft_operations_swallow_not_found Sample.db0 "fi-9" "u-carol" Sample.now)
    as [Hf Hu].
  destruct (Hf eq_refl) as [Ht Hr].
  split; [exact Ht|]. split; [exact Hr|]. exact (Hu eq_refl (num 4096)).
Defined.

(** C6. Changing the share status of an id the files store does not hold
    is rejected with the not-found reason, whether sharing is being enabled
    or disabled, and the database stays as it was. *)
Theorem share_status_of_missing_file_rejects
    (db : DB) (fileId : string) (isShared : bool) (shareToken : option string)
    (now : string) :
  ObjectStore.get CloudFile.id fileId (files db) = None ->
  updateFileShareStatus fileId isShared shareToken now db
  = (Rejected (Reason "Arquivo não encontrado"), db).
Proof.
  intro Hget. unfold updateFileShareStatus, await, files_get.
  rewrite Hget. reflexivity.
Qed.

Lemma share_status_of_missing_file_rejects_witness :
  updateFileShareStatus "fi-9" true (Some "tok9"%string) Sample.now Sample.db0
  = (Rejected (Reason "Arquivo não encontrado"), Sample.db0)
  /\ updateFileShareStatus "fi-9" false None Sample.now Sample.db0
     = (Rejected (Reason "Arquivo não encontrado"), Sample.db0).
Proof.
  split; apply share_status_of_missing_file_rejects; reflexivity.
Defined.

(** C10, as the code has it. For an owner the users store holds,
    [deleteFileFromDB] resolves for every file id (no premise asks for a
    record under that id) and leaves that owner's [storageUsed] at the
    binary64 value of used - size. When the usage, the size and their
    difference are safe integers, that is the usage lowered by exactly the
    size. *)
Theorem purge_decrements_unconditionally
    (db : DB) (id ownerId : string) (size : number) (u : User.t) :
  wf_users (users db) ->
  ObjectStore.index_get user_ix_id ownerId (users db) = Some u ->
  fst (deleteFileFromDB id ownerId size db) = Resolved tt
  /\ storageUsed_of ownerId (snd (deleteFileFromDB id ownerId size db))
     = Some (js_add (User.storageUsed u) (js_neg size))
  /\ files (snd (deleteFileFromDB id ownerId size db))
     = ObjectStore.delete CloudFile.id id (files db)
  /\ (forall a s : Z,
        User.storageUsed u = num a -> size = num s ->
        safe_integer a -> safe_integer s -> safe_integer (a - s) ->
        storageUsed_of ownerId (snd (deleteFileFromDB id ownerId size db))
        = Some (num (a - s))
        /\ usage_of ownerId (snd (deleteFileFromDB id ownerId size db)) = Some (a - s)).
Proof.
  intros Hwf Hget.
  assert (Hused : storageUsed_of ownerId (snd (deleteFileFromDB id ownerId size db))
                  = Some (js_add (User.storageUsed u) (js_neg size))).
  { rewrite (deleteFileFromDB_found db id ownerId size u Hwf Hget).
    unfold set_files, set_users, storageUsed_of. cbn [snd users].
    rewrite (index_get_adjusted _ _ _ _ Hwf Hget). reflexivity. }
  split; [|split; [exact Hused|split]].
  - now rewrite (deleteFileFromDB_found db id ownerId size u Hwf Hget).
  - now rewrite (deleteFileFromDB_found db id ownerId size u Hwf Hget).
  - intros a s Hu -> Ha Hs Has.
    assert (Hnum : storageUsed_of ownerId (snd (deleteFileFromDB id ownerId (num s) db))
                   = Some (num (a - s))).
    { rewrite Hused, Hu. now rewrite (num_sub a s Ha Hs). }
    split; [exact Hnum|].
    unfold usage_of. rewrite Hnum. now apply int_value_num.
Qed.

Lemma purge_decrements_unconditionally_witness :
  ObjectStore.get CloudFile.id "fi-9" (files Sample.db0) = None
  /\ files (snd (deleteFileFromDB "fi-9" "u-bob" (num 4096) Sample.db0)) = files Sample.db0
  /\ storageUsed_of "u-bob" (snd (deleteFileFromDB "fi-9" "u-bob" (num 4096) Sample.db0))
     = Some (num (5 * Sample.GiB - 4096))
  /\ usage_of "u-bob" (snd (deleteFileFromDB "fi-9" "u-bob" (num 4096) Sample.db0))
     = Some (5 * Sample.GiB - 4096).
Proof.
  split; [reflexivity|]. split; [reflexivity|].
  destruct (purge_decrements_unconditionally Sample.db0 "fi-9" "u-bob" (num 4096)
              Sample.bob sample_wf_users eq_refl) as [_ [_ [_ H]]].
  assert (Hsafe : forall z, 0 <= z < 2 ^ 40 -> safe_integer z).
  { intros z Hz. unfold safe_integer. rewrite Z.abs_eq by lia.
    assert (2 ^ 40 < 2 ^ 53) by (apply Z.pow_lt_mono_r; lia). lia. }
  apply (H (5 * Sample.GiB) 4096 eq_refl eq_refl);
    apply Hsafe; cbv; split; discriminate || reflexivity.
Defined.

(** C10, as stated, fails above the safe integers: with a usage of
    2^53 + 2, purging one byte leaves 2^53, which is two less, because
    2^53 + 1 is not a binary64 number. *)
Lemma purge_rounding_counterexample :
  let db := SampleLarge.db in
  let db' := snd (deleteFileFromDB "fi-b1" "u-frank" (CloudFile.size SampleLarge.byte1) db) in
  wf_users (users db)
  /\ usage_of "u-frank" db = Some (2 ^ 53 + 2)
  /\ int_value (CloudFile.size SampleLarge.byte1) = Some 1
  /\ fst (deleteFileFromDB "fi-b1" "u-frank" (CloudFile.size SampleLarge.byte1) db)
     = Resolved tt
  /\ usage_of "u-frank" db' = Some (2 ^ 53)
  /\ usage_of "u-frank" db' <> Some (2 ^ 53 + 2 - 1).
Proof.
  cbv zeta. split; [apply sample_large_wf_users|].
  repeat (split; [reflexivity|]).
  assert (E : usage_of "u-frank"
                (snd (deleteFileFromDB "fi-b1" "u-frank" (CloudFile.size SampleLarge.byte1)
                        SampleLarge.db)) = Some (2 ^ 53)) by reflexivity.
  rewrite E. intro H. injection H as H. cbv in H. discriminate.
Qed.

(** The [add] request is refused exactly when the key is taken, and a
    refused [add] writes nothing. *)
Lemma files_add_outcome (file : CloudFile.t) (db : DB) :
  fst (files_add file db) =
    match ObjectStore.get CloudFile.id (CloudFile.id file) (files db) with
    | Some _ => Rejected ConstraintError
    | None => Resolved tt
    end.
Proof.
  unfold files_add, ObjectStore.add.
  destruct (ObjectStore.get CloudFile.id (CloudFile.id file) (files db)); reflexivity.
Qed.

Lemma files_add_rejected (file : CloudFile.t) (db : DB) (e : Rejection) :
  fst (files_add file db) = Rejected e -> files_add file db = (Rejected e, db).
Proof.
  unfold files_add.
  destruct (ObjectStore.add CloudFile.id file (files db)); cbn; congruence.
Qed.

(** C7. [addFileToDB] adjusts the owner's usage first and sends the [add]
    request on the database so adjusted; when that request is rejected the
    whole operation is rejected with the same error, the owner's
    [storageUsed] stays raised by the file's size, and the files store is
    the one from before the call. *)
Theorem upload_failure_keeps_increment
    (db : DB) (file : CloudFile.t) (u : User.t) (e : Rejection) :
  wf_users (users db) ->
  ObjectStore.index_get user_ix_id (CloudFile.ownerId file) (users db) = Some u ->
  let db1 := snd (updateUserStorage (CloudFile.ownerId file) (CloudFile.size file) db) in
  fst (files_add file db1) = Rejected e ->
  addFileToDB file db = files_add file db1
  /\ addFileToDB file db = (Rejected e, db1)
  /\ storageUsed_of (CloudFile.ownerId file) db1
     = Some (js_add (User.storageUsed u) (CloudFile.size file))
  /\ files (snd (addFileToDB file db)) = files db.
Proof.
  intros Hwf Hget db1 Hrej.
  assert (Hdb1 : db1 = set_users
                         (ObjectStore.put User.username
                            (User.set_storageUsed
                               (js_add (User.storageUsed u) (CloudFile.size file)) u)
                            (users db)) db).
  { unfold db1. rewrite (updateUserStorage_found db _ _ u Hwf Hget). reflexivity. }
  assert (Hadd : addFileToDB file db = files_add file db1).
  { rewrite Hdb1. now apply addFileToDB_found. }
  split; [exact Hadd|]. rewrite Hadd, (files_add_rejected _ _ _ Hrej).
  split; [reflexivity|]. split.
  - rewrite Hdb1. unfold storageUsed_of, set_users. cbn [users].
    rewrite (index_get_adjusted _ _ _ _ Hwf Hget). reflexivity.
  - rewrite Hdb1. reflexivity.
Qed.

Lemma upload_failure_keeps_increment_witness :
  storageUsed_of "u-alice" Sample.db0 = Some (num 0)
  /\ addFileToDB Sample.f1 Sample.db0
     = (Rejected ConstraintError,
        snd (updateUserStorage "u-alice" (num 1000000) Sample.db0))
  /\ storageUsed_of "u-alice" (snd (addFileToDB Sample.f1 Sample.db0)) = Some (num 1000000)
  /\ files (snd (addFileToDB Sample.f1 Sample.db0)) = files Sample.db0.
Proof.
  split; [reflexivity|].
  destruct (upload_failure_keeps_increment Sample.db0 Sample.f1 Sample.alice
              ConstraintError sample_wf_users eq_refl eq_refl)
    as [_ [Hrej [Hused Hfiles]]].
  split; [exact Hrej|]. split; [|exact Hfiles].
  rewrite Hrej. exact Hused.
Defined.

(** C8. Whether [addFileToDB] resolves is decided by the files store
    alone: it is rejected exactly when the file's id is taken. No field of
    the owner enters, so an owner at or over [storageLimit] uploads like any
    other, and the usage is raised past the limit. *)
Theorem upload_ignores_quota (db : DB) (file : CloudFile.t) :
  wf_users (users db) ->
  fst (addFileToDB file db) =
    match ObjectStore.get CloudFile.id (CloudFile.id file) (files db) with
    | Some _ => Rejected ConstraintError
    | None => Resolved tt
    end
  /\ forall u : User.t,
       ObjectStore.index_get user_ix_id (CloudFile.ownerId file) (users db) = Some u ->
       storageUsed_of (CloudFile.ownerId file) (snd (addFileToDB file db))
       = Some (js_add (User.storageUsed u) (CloudFile.size file)).
Proof.
  intro Hwf.
  split.
  - destruct (ObjectStore.index_get user_ix_id (CloudFile.ownerId file) (users db))
      as [u|] eqn:Hget.
    + rewrite (addFileToDB_found db file u Hwf Hget), files_add_outcome.
      reflexivity.
    + unfold addFileToDB, await.
      rewrite (updateUserStorage_missing db _ _ Hget). apply files_add_outcome.
  - intros u Hget. rewrite (addFileToDB_found db file u Hwf Hget).
    unfold storageUsed_of. rewrite files_add_users. unfold set_users. cbn [users].
    rewrite (index_get_adjusted _ _ _ _ Hwf Hget). reflexivity.
Qed.

Lemma upload_ignores_quota_witness :
  SFleb (User.storageLimit Sample.bob) (User.storageUsed Sample.bob) = true
  /\ CloudFile.ownerId Sample.f4 = User.id Sample.bob
  /\ fst (addFileToDB Sample.f4 Sample.db0) = Resolved tt
  /\ storageUsed_of "u-bob" (snd (addFileToDB Sample.f4 Sample.db0))
     = Some (num (5 * Sample.GiB + 4096)).
Proof.
  split; [reflexivity|]. split; [reflexivity|].
  destruct (upload_ignores_quota Sample.db0 Sample.f4 sample_wf_users) as [Hout Hused].
  split; [exact Hout|]. exact (Hused Sample.bob eq_refl).
Defined.

(** The cursor loop returns a record of the store that passes its test,
    and returns [null] only when no record passes. *)
Lemma share_scan_some (token : string) (s : list CloudFile.t) (f : CloudFile.t) :
  share_scan token s = Some f ->
  In f s
  /\ CloudFile.isShared f = Some true
  /\ CloudFile.shareToken f = Some token
  /\ truthy (CloudFile.isTrashed f) = false.
Proof.
  induction s as [|x s IH]; cbn; [discriminate|].
  destruct (truthy (CloudFile.isShared x)
            && strict_eq (CloudFile.shareToken x) token
            && negb (truthy (CloudFile.isTrashed x))) eqn:E.
  - intro H. injection H as <-.
    apply andb_true_iff in E. destruct E as [E Et].
    apply andb_true_iff in E. destruct E as [Es Ek].
    split; [now left|]. repeat split.
    + destruct (CloudFile.isShared x) as [[|]|]; cbn in Es; congruence.
    + destruct (CloudFile.shareToken x) as [w|]; cbn in Ek; [|discriminate].
      apply String.eqb_eq in Ek. now subst.
    + now apply negb_true_iff in Et.
  - intro H. destruct (IH H) as [Hin Hrest]. split; [now right|exact Hrest].
Qed.

Lemma share_scan_none (token : string) (s : list CloudFile.t) :
  (forall f, In f s ->
     ~ (CloudFile.isShared f = Some true
        /\ CloudFile.shareToken f = Some token
        /\ truthy (CloudFile.isTrashed f) = false)) ->
  share_scan token s = None.
Proof.
  intro Hno.
  destruct (share_scan token s) as [f|] eqn:E; [|reflexivity].
  destruct (share_scan_some _ _ _ E) as [Hin Hf].
  exfalso. exact (Hno f Hin Hf).
Qed.

(** C2. [getFileByShareToken] always resolves and writes nothing. A record
    it returns is in the files store, has [isShared] true, carries exactly
    the token asked for and is not trashed; when no record of the store is
    like that (unknown token, trashed file, sharing disabled) it resolves
    with [null]; and asking again on the unchanged database gives the same
    answer. *)
Theorem resolve_share_contract (db : DB) (token : string) :
  getFileByShareToken token db = (Resolved (share_scan token (files db)), db)
  /\ (forall f : CloudFile.t,
        fst (getFileByShareToken token db) = Resolved (Some f) ->
        In f (files db)
        /\ CloudFile.isShared f = Some true
        /\ CloudFile.shareToken f = Some token
        /\ truthy (CloudFile.isTrashed f) = false)
  /\ ((forall f : CloudFile.t, In f (files db) ->
         ~ (CloudFile.isShared f = Some true
            /\ CloudFile.shareToken f = Some token
            /\ truthy (CloudFile.isTrashed f) = false)) ->
      getFileByShareToken token db = (Resolved None, db))
  /\ getFileByShareToken token (snd (getFileByShareToken token db))
     = getFileByShareToken token db.
Proof.
  assert (Hrun : getFileByShareToken token db
                 = (Resolved (share_scan token (files db)), db)) by reflexivity.
  split; [exact Hrun|]. split; [|split].
  - rewrite Hrun. cbn. intros f H. injection H as H.
    now apply share_scan_some.
  - intro Hno. rewrite Hrun, (share_scan_none _ _ Hno). reflexivity.
  - rewrite Hrun. reflexivity.
Qed.

Lemma resolve_share_contract_witness :
  getFileByShareToken "tok" Sample.db0 = (Resolved (Some Sample.f2), Sample.db0)
  /\ getFileByShareToken "old" Sample.db0 = (Resolved None, Sample.db0)
  /\ getFileByShareToken "tok"
       (snd (updateFileShareStatus "fi-2" false None Sample.now Sample.db0))
     = (Resolved None,
        snd (updateFileShareStatus "fi-2" false None Sample.now Sample.db0))
  /\ CloudFile.shareToken Sample.f2 = Some "tok"%string.
Proof.
  split; [reflexivity|]. split; [reflexivity|]. split; [reflexivity|].
  exact (proj1 (proj2 (proj2
           (proj1 (proj2 (resolve_share_contract Sample.db0 "tok")) Sample.f2 eq_refl)))).
Defined.

(** C9. [getFilesFromDB] and [getFoldersFromDB] resolve, write nothing, and
    return exactly the records of their store whose [ownerId] is the one
    given, whose [parentId] is the one given and whose [isTrashed] flag is
    not set: never a record of another owner, never a trashed one. *)
Theorem listing_filters_owner_parent_trash (db : DB) (parentId ownerId : string) :
  (exists fs : list CloudFile.t,
     getFilesFromDB parentId ownerId db = (Resolved fs, db)
     /\ forall f, In f fs <->
          In f (files db)
          /\ CloudFile.ownerId f = ownerId
          /\ CloudFile.parentId f = parentId
          /\ truthy (CloudFile.isTrashed f) = false)
  /\ (exists ds : list CloudFolder.t,
        getFoldersFromDB parentId ownerId db = (Resolved ds, db)
        /\ forall d, In d ds <->
             In d (folders db)
             /\ CloudFolder.ownerId d = ownerId
             /\ CloudFolder.parentId d = Some parentId
             /\ truthy (CloudFolder.isTrashed d) = false).
Proof.
  split.
  - eexists. split; [reflexivity|]. intro f.
    rewrite filter_In. unfold ObjectStore.index_getAll. rewrite filter_In.
    unfold ObjectStore.index_match, file_ix_parentId, strict_eq.
    rewrite andb_true_iff, negb_true_iff, !String.eqb_eq. tauto.
  - eexists. split; [reflexivity|]. intro d.
    rewrite filter_In. unfold ObjectStore.index_getAll. rewrite filter_In.
    unfold ObjectStore.index_match, folder_ix_parentId, strict_eq.
    rewrite andb_true_iff, negb_true_iff, String.eqb_eq.
    destruct (CloudFolder.parentId d) as [p|].
    + rewrite String.eqb_eq. split.
      * intros [[Hin ->] [Ho Ht]]. auto.
      * intros [Hin [Ho [Hp Ht]]]. injection Hp as ->. auto.
    + split; [intros [[_ H] _]; discriminate|intros [_ [_ [H _]]]; discriminate].
Qed.

Lemma listing_filters_owner_parent_trash_witness :
  getFilesFromDB "root" "u-alice" Sample.db0 = (Resolved [Sample.f1], Sample.db0)
  /\ getFoldersFromDB "root" "u-alice" Sample.db0 = (Resolved [Sample.d1], Sample.db0)
  /\ (forall f, In f [Sample.f1] ->
        CloudFile.ownerId f = "u-alice"%string
        /\ truthy (CloudFile.isTrashed f) = false).
Proof.
  assert (Hfiles : getFilesFromDB "root" "u-alice" Sample.db0
                   = (Resolved [Sample.f1], Sample.db0)) by reflexivity.
  split; [exact Hfiles|]. split; [reflexivity|].
  destruct (listing_filters_owner_parent_trash Sample.db0 "root" "u-alice")
    as [[fs [Hrun Hiff]] _].
  rewrite Hfiles in Hrun. injection Hrun as <-.
  intros f Hin. apply Hiff in Hin. tauto.
Defined.

(** The record [trashFile] writes back, when it finds one. *)
Lemma trashFile_found (db : DB) (id now : string) (f : CloudFile.t) :
  ObjectStore.get CloudFile.id id (files db) = Some f ->
  exists f' : CloudFile.t,
    trashFile id now db
    = (Resolved tt, set_files (ObjectStore.put CloudFile.id f' (files db)) db)
    /\ CloudFile.id f' = id
    /\ CloudFile.isTrashed f' = Some true
    /\ CloudFile.trashedAt f' = Some now
    /\ CloudFile.isShared f'
       = (if truthy (CloudFile.isShared f) then Some false else CloudFile.isShared f)
    /\ CloudFile.shareToken f' = CloudFile.shareToken f.
Proof.
  intro Hget. destruct (get_some _ _ _ _ Hget) as [_ Hid].
  unfold trashFile, await, files_get. rewrite Hget. cbn [CloudFile.isShared
    CloudFile.set_trashedAt CloudFile.set_isTrashed].
  destruct (truthy (CloudFile.isShared f)) eqn:E;
    eexists; (split; [reflexivity|]); cbn; auto.
Qed.

(** The record [restoreFile] writes back, when it finds one. *)
Lemma restoreFile_found (db : DB) (id : string) (f : CloudFile.t) :
  ObjectStore.get CloudFile.id id (files db) = Some f ->
  exists f' : CloudFile.t,
    restoreFile id db
    = (Resolved tt, set_files (ObjectStore.put CloudFile.id f' (files db)) db)
    /\ CloudFile.id f' = id
    /\ CloudFile.isTrashed f' = Some false
    /\ CloudFile.trashedAt f' = None
    /\ CloudFile.isShared f' = CloudFile.isShared f
    /\ CloudFile.shareToken f' = CloudFile.shareToken f.
Proof.
  intro Hget. destruct (get_some _ _ _ _ Hget) as [_ Hid].
  unfold restoreFile, await, files_get. rewrite Hget.
  eexists. split; [reflexivity|]. cbn. auto.
Qed.

(** The record [updateFileShareStatus] writes back, when it finds one. *)
Lemma updateFileShareStatus_found
    (db : DB) (fileId : string) (isShared : bool) (shareToken : option string)
    (now : string) (f : CloudFile.t) :
  ObjectStore.get CloudFile.id fileId (files db) = Some f ->
  exists f' : CloudFile.t,
    updateFileShareStatus fileId isShared shareToken now db
    = (Resolved tt, set_files (ObjectStore.put CloudFile.id f' (files db)) db)
    /\ CloudFile.id f' = fileId
    /\ CloudFile.isShared f' = Some isShared
    /\ CloudFile.shareToken f' = shareToken
    /\ CloudFile.shareCreatedAt f' = (if isShared then Some now else None)
    /\ CloudFile.isTrashed f' = CloudFile.isTrashed f.
Proof.
  intro Hget. destruct (get_some _ _ _ _ Hget) as [_ Hid].
  unfold updateFileShareStatus, await, files_get. rewrite Hget.
  eexists. split; [reflexivity|]. cbn. auto.
Qed.

Lemma truthy_cleared (x : option bool) :
  truthy (if truthy x then Some false else x) = false.
Proof. destruct x as [[|]|]; reflexivity. Qed.

(** C4. For a file the store holds, [trashFile] resolves and leaves the
    record with [isTrashed] true, [trashedAt] stamped and [isShared] not
    true (false whenever the field was present, also when it was true);
    [restoreFile] resolves and leaves the record with [isTrashed] false,
    [trashedAt] absent and [isShared] as it found it; so after trashing and
    restoring, the record is not shared, whatever its share state before. *)
Theorem trash_clears_share_restore_keeps_it
    (db : DB) (id now : string) (f : CloudFile.t) :
  ObjectStore.get CloudFile.id id (files db) = Some f ->
  (exists t : CloudFile.t,
     fst (trashFile id now db) = Resolved tt
     /\ ObjectStore.get CloudFile.id id (files (snd (trashFile id now db))) = Some t
     /\ CloudFile.isTrashed t = Some true
     /\ CloudFile.trashedAt t = Some now
     /\ truthy (CloudFile.isShared t) = false
     /\ (CloudFile.isShared f <> None -> CloudFile.isShared t = Some false))
  /\ (exists r : CloudFile.t,
        fst (restoreFile id db) = Resolved tt
        /\ ObjectStore.get CloudFile.id id (files (snd (restoreFile id db))) = Some r
        /\ CloudFile.isTrashed r = Some false
        /\ CloudFile.trashedAt r = None
        /\ CloudFile.isShared r = CloudFile.isShared f)
  /\ (exists r : CloudFile.t,
        ObjectStore.get CloudFile.id id
          (files (snd (restoreFile id (snd (trashFile id now db))))) = Some r
        /\ CloudFile.isTrashed r = Some false
        /\ CloudFile.trashedAt r = None
        /\ truthy (CloudFile.isShared r) = false).
Proof.
  intro Hget.
  destruct (trashFile_found db id now f Hget)
    as [t [Hrun [Hid [Htr [Hat [Hsh _]]]]]].
  assert (Hgt : ObjectStore.get CloudFile.id id (files (snd (trashFile id now db)))
                = Some t).
  { rewrite Hrun. cbn [snd files set_files]. rewrite <- Hid. apply get_put_same. }
  split; [|split].
  - exists t. rewrite Hrun at 1. cbn [fst].
    repeat (split; [assumption || reflexivity|]). split.
    + rewrite Hsh. apply truthy_cleared.
    + rewrite Hsh. destruct (CloudFile.isShared f) as [[|]|]; cbn; congruence.
  - destruct (restoreFile_found db id f Hget)
      as [r [Hrun' [Hid' [Htr' [Hat' [Hsh' _]]]]]].
    exists r. rewrite Hrun'. cbn [fst snd files set_files].
    rewrite <- Hid', get_put_same. auto.
  - destruct (restoreFile_found _ id t Hgt)
      as [r [Hrun' [Hid' [Htr' [Hat' [Hsh' _]]]]]].
    exists r. rewrite Hrun'. cbn [snd files set_files].
    rewrite <- Hid' at 1. rewrite get_put_same.
    repeat (split; [assumption || reflexivity|]).
    rewrite Hsh', Hsh. apply truthy_cleared.
Qed.

Lemma trash_clears_share_restore_keeps_it_witness :
  CloudFile.isShared Sample.f2 = Some true
  /\ option_map CloudFile.isShared
       (ObjectStore.get CloudFile.id "fi-2"
          (files (snd (trashFile "fi-2" Sample.now Sample.db0)))) = Some (Some false)
  /\ option_map CloudFile.isShared
       (ObjectStore.get CloudFile.id "fi-2"
          (files (snd (restoreFile "fi-2"
                         (snd (trashFile "fi-2" Sample.now Sample.db0))))))
     = Some (Some false)
  /\ exists r : CloudFile.t,
       ObjectStore.get CloudFile.id "fi-2"
         (files (snd (restoreFile "fi-2"
                        (snd (trashFile "fi-2" Sample.now Sample.db0))))) = Some r
       /\ CloudFile.isTrashed r = Some false
       /\ CloudFile.trashedAt r = None
       /\ truthy (CloudFile.isShared r) = false.
Proof.
  split; [reflexivity|]. split; [reflexivity|]. split; [reflexivity|].
  exact (proj2 (proj2 (trash_clears_share_restore_keeps_it
                         Sample.db0 "fi-2" Sample.now Sample.f2 eq_refl))).
Defined.

Lemma Forall_put {R : Type} (key : R -> string) (P : R -> Prop) (r : R) (s : list R) :
  Forall P s -> P r -> Forall P (ObjectStore.put key r s).
Proof.
  rewrite !Forall_forall. intros Hs Hr x Hx.
  destruct (put_in key _ _ _ Hx) as [->|Hin]; auto.
Qed.

Lemma Forall_delete {R : Type} (key : R -> string) (P : R -> Prop) (k : string) (s : list R) :
  Forall P s -> Forall P (ObjectStore.delete key k s).
Proof.
  rewrite !Forall_forall. intros Hs x Hx.
  apply filter_In in Hx. destruct Hx as [Hx _]. auto.
Qed.

(** [updateUserStorage] writes to the users store only, also when its
    [put] is refused. *)
Lemma updateUserStorage_files (db : DB) (userId : string) (d : number) :
  files (snd (updateUserStorage userId d db)) = files db.
Proof.
  unfold updateUserStorage, await, users_index_id_get.
  destruct (ObjectStore.index_get user_ix_id userId (users db)) as [u|];
    [|reflexivity].
  unfold users_put.
  destruct (ObjectStore.violates_unique User.username user_ix_id _ (users db));
    reflexivity.
Qed.

(** C3, as the code has it. Starting from a files store in which every
    shared record carries a token: [trashFile], [restoreFile],
    [deleteFileFromDB] and [updateUserStorage] keep it so; [addFileToDB]
    keeps it so when the record it is given is itself shared only with a
    token; [updateFileShareStatus] keeps it so when it disables sharing or
    is given a token. When it enables sharing, the record carries exactly
    the token argument, present or absent: the engine stores what it is
    given. *)
Theorem share_invariant_preserved_when_token_given (db : DB) :
  share_inv_store (files db) ->
  (forall id now : string, share_inv_store (files (snd (trashFile id now db))))
  /\ (forall id : string, share_inv_store (files (snd (restoreFile id db))))
  /\ (forall (id ownerId : string) (size : number),
        share_inv_store (files (snd (deleteFileFromDB id ownerId size db))))
  /\ (forall (userId : string) (d : number),
        share_inv_store (files (snd (updateUserStorage userId d db))))
  /\ (forall file : CloudFile.t,
        share_inv file -> share_inv_store (files (snd (addFileToDB file db))))
  /\ (forall (fileId : string) (isShared : bool) (shareToken : option string)
             (now : string),
        (isShared = true -> shareToken <> None) ->
        share_inv_store
          (files (snd (updateFileShareStatus fileId isShared shareToken now db))))
  /\ (forall (fileId now : string) (shareToken : option string) (f : CloudFile.t),
        ObjectStore.get CloudFile.id fileId (files db) = Some f ->
        exists f' : CloudFile.t,
          ObjectStore.get CloudFile.id fileId
            (files (snd (updateFileShareStatus fileId true shareToken now db)))
          = Some f'
          /\ CloudFile.isShared f' = Some true
          /\ CloudFile.shareToken f' = shareToken).
Proof.
  intro Hinv. unfold share_inv_store in *.
  repeat split.
  - intros id now.
    destruct (ObjectStore.get CloudFile.id id (files db)) as [f|] eqn:Hget.
    + destruct (trashFile_found db id now f Hget) as [t [Hrun [_ [_ [_ [Hsh _]]]]]].
      rewrite Hrun. cbn [snd files set_files].
      apply Forall_put; [exact Hinv|].
      intro Ht. exfalso. rewrite Hsh in Ht.
      destruct (CloudFile.isShared f) as [[|]|]; cbn in Ht; discriminate.
    + unfold trashFile, await, files_get. rewrite Hget. exact Hinv.
  - intros id.
    destruct (ObjectStore.get CloudFile.id id (files db)) as [f|] eqn:Hget.
    + destruct (restoreFile_found db id f Hget) as [r [Hrun [_ [_ [_ [Hsh Htok]]]]]].
      rewrite Hrun. cbn [snd files set_files].
      apply Forall_put; [exact Hinv|].
      unfold share_inv. rewrite Hsh, Htok.
      destruct (get_some _ _ _ _ Hget) as [Hin _].
      rewrite Forall_forall in Hinv. exact (Hinv f Hin).
    + unfold restoreFile, await, files_get. rewrite Hget. exact Hinv.
  - intros id ownerId size. unfold deleteFileFromDB, await.
    pose proof (updateUserStorage_files db ownerId (js_neg size)) as Hf.
    destruct (updateUserStorage ownerId (js_neg size) db) as [[[]|e] db1]; cbn in Hf |- *.
    + rewrite Hf. now apply Forall_delete.
    + rewrite Hf. exact Hinv.
  - intros userId d. rewrite updateUserStorage_files. exact Hinv.
  - intros file Hfile. unfold addFileToDB, await.
    pose proof (updateUserStorage_files db (CloudFile.ownerId file) (CloudFile.size file))
      as Hf.
    destruct (updateUserStorage (CloudFile.ownerId file) (CloudFile.size file) db)
      as [[[]|e] db1]; cbn in Hf |- *.
    + unfold files_add, ObjectStore.add. rewrite Hf.
      destruct (ObjectStore.get CloudFile.id (CloudFile.id file) (files db));
        cbn [snd files set_files]; rewrite ?Hf; [exact Hinv|].
      now apply Forall_put.
    + rewrite Hf. exact Hinv.
  - intros fileId isShared shareToken now Htok.
    destruct (ObjectStore.get CloudFile.id fileId (files db)) as [f|] eqn:Hget.
    + destruct (updateFileShareStatus_found db fileId isShared shareToken now f Hget)
        as [f' [Hrun [_ [Hsh [Htk _]]]]].
      rewrite Hrun. cbn [snd files set_files].
      apply Forall_put; [exact Hinv|].
      unfold share_inv. rewrite Hsh, Htk. intro H. injection H as ->. now apply Htok.
    + unfold updateFileShareStatus, await, files_get. rewrite Hget. exact Hinv.
  - intros fileId now shareToken f Hget.
    destruct (updateFileShareStatus_found db fileId true shareToken now f Hget)
      as [f' [Hrun [Hid [Hsh [Htk _]]]]].
    exists f'. rewrite Hrun. cbn [snd files set_files].
    rewrite <- Hid at 1. rewrite get_put_same. auto.
Qed.

Lemma share_invariant_preserved_when_token_given_witness :
  share_inv_store (files Sample.db0)
  /\ share_inv_store
       (files (snd (updateFileShareStatus "fi-1" true (Some "t1"%string)
                      Sample.now Sample.db0)))
  /\ share_inv_store (files (snd (trashFile "fi-2" Sample.now Sample.db0))).
Proof.
  assert (H0 : share_inv_store (files Sample.db0))
    by (repeat constructor; cbv; congruence).
  pose proof (share_invariant_preserved_when_token_given Sample.db0 H0)
    as [Htrash [_ [_ [_ [_ [Hshare _]]]]]].
  split; [exact H0|]. split.
  - apply Hshare. intros _. discriminate.
  - apply Htrash.
Defined.

(** C3, as stated, fails: on a store that satisfies the invariant,
    enabling sharing without a token resolves and leaves a record with
    [isShared] true and no [shareToken]. *)
Lemma share_enabled_without_token_counterexample :
  share_inv_store (files Sample.db0)
  /\ fst (updateFileShareStatus "fi-1" true None Sample.now Sample.db0) = Resolved tt
  /\ (exists f : CloudFile.t,
        ObjectStore.get CloudFile.id "fi-1"
          (files (snd (updateFileShareStatus "fi-1" true None Sample.now Sample.db0)))
        = Some f
        /\ CloudFile.isShared f = Some true
        /\ CloudFile.shareToken f = None)
  /\ ~ share_inv_store
         (files (snd (updateFileShareStatus "fi-1" true None Sample.now Sample.db0))).
Proof.
  split; [repeat constructor; cbv; congruence|].
  split; [reflexivity|]. split.
  - eexists. split; [reflexivity|]. split; reflexivity.
  - intro H. apply Forall_inv in H. apply H; reflexivity.
Qed.

(** * Well-formedness is an invariant of the engine *)

Lemma files_put_wf (f : CloudFile.t) (db : DB) :
  wf db -> wf (snd (files_put f db)).
Proof.
  intros [Hu Hf]. split; [exact Hu|]. now apply sorted_put.
Qed.

Lemma updateUserStorage_preserves_wf (db : DB) (userId : string) (d : number) :
  wf db -> wf (snd (updateUserStorage userId d db)).
Proof.
  intros [Hu Hf].
  destruct (updateUserStorage_wf db userId d Hu) as [Hu' [Hf' _]].
  split; [exact Hu'|]. rewrite Hf'. exact Hf.
Qed.

Lemma addFileToDB_preserves_wf (db : DB) (file : CloudFile.t) :
  wf db -> wf (snd (addFileToDB file db)).
Proof.
  intro Hwf. unfold addFileToDB, await.
  pose proof (updateUserStorage_preserves_wf db (CloudFile.ownerId file)
                (CloudFile.size file) Hwf) as H1.
  destruct (updateUserStorage (CloudFile.ownerId file) (CloudFile.size file) db)
    as [[[]|e] db1]; cbn [snd] in *; [|exact H1].
  unfold files_add, ObjectStore.add.
  destruct (ObjectStore.get CloudFile.id (CloudFile.id file) (files db1));
    [exact H1|].
  destruct H1 as [Hu Hf]. split; [exact Hu|]. now apply sorted_put.
Qed.

Lemma deleteFileFromDB_preserves_wf (db : DB) (id ownerId : string) (size : number) :
  wf db -> wf (snd (deleteFileFromDB id ownerId size db)).
Proof.
  intro Hwf. unfold deleteFileFromDB, await.
  pose proof (updateUserStorage_preserves_wf db ownerId (js_neg size) Hwf) as H1.
  destruct (updateUserStorage ownerId (js_neg size) db) as [[[]|e] db1];
    cbn [snd] in *; [|exact H1].
  destruct H1 as [Hu Hf]. split; [exact Hu|]. now apply sorted_delete.
Qed.

Lemma trashFile_preserves_wf (db : DB) (id now : string) :
  wf db -> wf (snd (trashFile id now db)).
Proof.
  intro Hwf.
  destruct (ObjectStore.get CloudFile.id id (files db)) as [f|] eqn:Hget.
  - destruct (trashFile_found db id now f Hget) as [t [Hrun _]].
    rewrite Hrun. exact (files_put_wf t db Hwf).
  - unfold trashFile, await, files_get. rewrite Hget. exact Hwf.
Qed.

Lemma restoreFile_preserves_wf (db : DB) (id : string) :
  wf db -> wf (snd (restoreFile id db)).
Proof.
  intro Hwf.
  destruct (ObjectStore.get CloudFile.id id (files db)) as [f|] eqn:Hget.
  - destruct (restoreFile_found db id f Hget) as [r [Hrun _]].
    rewrite Hrun. exact (files_put_wf r db Hwf).
  - unfold restoreFile, await, files_get. rewrite Hget. exact Hwf.
Qed.

Lemma updateFileShareStatus_preserves_wf
    (db : DB) (fileId : string) (isShared : bool) (shareToken : option string)
    (now : string) :
  wf db -> wf (snd (updateFileShareStatus fileId isShared shareToken now db)).
Proof.
  intro Hwf.
  destruct (ObjectStore.get CloudFile.id fileId (files db)) as [f|] eqn:Hget.
  - destruct (updateFileShareStatus_found db fileId isShared shareToken now f Hget)
      as [f' [Hrun _]].
    rewrite Hrun. exact (files_put_wf f' db Hwf).
  - unfold updateFileShareStatus, await, files_get. rewrite Hget. exact Hwf.
Qed.

(** The scenario of the seeded user: upload, trash, purge. *)
Example scenario_upload_trash_purge :
  let db := mkDB [Sample.alice] [] [] in
  let db1 := snd (addFileToDB Sample.f1 db) in
  let db2 := snd (trashFile "fi-1" Sample.now db1) in
  let db3 := snd (deleteFileFromDB "fi-1" "u-alice" (num 1000000) db2) in
  storageUsed_of "u-alice" db1 = Some (num 1000000)
  /\ fst (getFilesFromDB "root" "u-alice" db2) = Resolved []
  /\ storageUsed_of "u-alice" db2 = Some (num 1000000)
  /\ storageUsed_of "u-alice" db3 = Some (num 0)
  /\ files db3 = [].
Proof. cbv zeta. repeat split; reflexivity. Qed.

(** * More facts about object stores *)

Lemma put_in_old {R : Type} (key : R -> string) (r x : R) (s : list R) :
  In x s -> key x <> key r -> In x (ObjectStore.put key r s).
Proof.
  intros Hin Hne.
  induction s as [|y s IH]; cbn; [destruct Hin|].
  destruct (String.compare (key r) (key y)) eqn:E.
  - apply String.compare_eq_iff in E. destruct Hin as [->|Hin]; [congruence|now right].
  - right. exact Hin.
  - destruct Hin as [->|Hin]; [now left|right; auto].
Qed.

Lemma get_delete_other {R : Type} (key : R -> string) (k k' : string) (s : list R) :
  k' <> k -> ObjectStore.get key k' (ObjectStore.delete key k s) = ObjectStore.get key k' s.
Proof.
  intro Hne. unfold ObjectStore.get, ObjectStore.delete.
  induction s as [|y s IH]; cbn; [reflexivity|].
  destruct (String.eqb (key y) k) eqn:E; cbn.
  - apply String.eqb_eq in E.
    assert (String.eqb (key y) k' = false) by (apply String.eqb_neq; congruence).
    now rewrite H.
  - destruct (String.eqb (key y) k'); [reflexivity|exact IH].
Qed.

(** In a sorted store a key names at most one record. *)
Lemma sorted_key_inj {R : Type} (key : R -> string) (s : list R) (a b : R) :
  ObjectStore.sorted key s -> In a s -> In b s -> key a = key b -> a = b.
Proof.
  unfold ObjectStore.sorted.
  induction 1 as [|y s Hs IH Hall]; intros Ha Hb Hk; [destruct Ha|].
  rewrite Forall_forall in Hall.
  destruct Ha as [<-|Ha]; destruct Hb as [<-|Hb]; auto.
  - specialize (Hall _ Hb). rewrite Hk, key_compare_refl in Hall. discriminate.
  - specialize (Hall _ Ha). rewrite Hk, key_compare_refl in Hall. discriminate.
Qed.

Lemma get_of_in {R : Type} (key : R -> string) (s : list R) (a : R) :
  ObjectStore.sorted key s -> In a s -> ObjectStore.get key (key a) s = Some a.
Proof.
  intros Hs Hin.
  destruct (ObjectStore.get key (key a) s) as [b|] eqn:E.
  - destruct (get_some _ _ _ _ E) as [Hb Hk].
    now rewrite (sorted_key_inj key s b a Hs Hb Hin Hk).
  - exfalso. exact (get_none _ _ _ E a Hin eq_refl).
Qed.

(** What [put] would violate on the users store, spelled out. *)
Lemma users_violation_iff (u : User.t) (s : list User.t) :
  ObjectStore.violates_unique User.username user_ix_id u s = true
  <-> exists x, In x s /\ User.id x = User.id u /\ User.username x <> User.username u.
Proof.
  unfold ObjectStore.violates_unique, ObjectStore.index_match, user_ix_id, strict_eq.
  rewrite existsb_exists. split.
  - intros [x [Hin Hm]]. exists x.
    apply andb_true_iff in Hm. destruct Hm as [Hi Hk].
    apply String.eqb_eq in Hi. apply negb_true_iff, String.eqb_neq in Hk. auto.
  - intros [x [Hin [Hi Hk]]]. exists x. split; [exact Hin|].
    apply andb_true_iff. split.
    + now apply String.eqb_eq.
    + now apply negb_true_iff, String.eqb_neq.
Qed.

Lemma index_get_none_iff (userId : string) (s : list User.t) :
  ObjectStore.index_get user_ix_id userId s = None
  <-> forall x, In x s -> User.id x <> userId.
Proof.
  unfold ObjectStore.index_get, ObjectStore.index_match, user_ix_id, strict_eq.
  split.
  - intros H x Hin Hid. pose proof (find_none _ _ H x Hin) as Hf. cbn in Hf.
    apply String.eqb_neq in Hf. contradiction.
  - intro H. destruct (find _ s) as [x|] eqn:E; [|reflexivity].
    apply find_some in E. destruct E as [Hin Hm]. apply String.eqb_eq in Hm.
    exfalso. exact (H x Hin Hm).
Qed.

(** * The users *)

(** X1. [registerUser] resolves exactly when neither the username nor
    the id is taken; otherwise it rejects with the one message about the
    username, whichever of the two collided, and writes nothing. *)
Theorem registerUser_outcome (db : DB) (user : User.t) :
  (fst (registerUser user db) = Resolved tt
   <-> ObjectStore.get User.username (User.username user) (users db) = None
       /\ forall x, In x (users db) -> User.id x <> User.id user)
  /\ (fst (registerUser user db) <> Resolved tt ->
      registerUser user db = (Rejected (Reason "Nome de usuário já existe"), db)).
Proof.
  unfold registerUser, try_catch, users_add, ObjectStore.add, reject.
  destruct (ObjectStore.get User.username (User.username user) (users db))
    as [old|] eqn:Hget.
  - cbn. split; [split|].
    + discriminate.
    + intros [H _]. discriminate.
    + reflexivity.
  - destruct (ObjectStore.violates_unique User.username user_ix_id user (users db))
      eqn:Hv; cbn.
    + apply users_violation_iff in Hv. destruct Hv as [x [Hin [Hid _]]].
      split; [split|].
      * discriminate.
      * intros [_ H]. exfalso. exact (H x Hin Hid).
      * reflexivity.
    + split; [split|].
      * intros _. split; [reflexivity|]. intros x Hin Hid.
        assert (Ht : ObjectStore.violates_unique User.username user_ix_id user (users db)
                     = true).
        { apply users_violation_iff. exists x. repeat split; auto.
          exact (get_none _ _ _ Hget x Hin). }
        congruence.
      * reflexivity.
      * intro H. congruence.
Qed.

Lemma registerUser_outcome_witness :
  registerUser (User.set_storageUsed (num 7) Sample.alice) Sample.db0
  = (Rejected (Reason "Nome de usuário já existe"), Sample.db0)
  /\ fst (registerUser SampleMore.carol Sample.db0) = Resolved tt.
Proof.
  destruct (registerUser_outcome Sample.db0 (User.set_storageUsed (num 7) Sample.alice))
    as [_ Hrej].
  destruct (registerUser_outcome Sample.db0 SampleMore.carol) as [[_ Hok] _].
  split.
  - apply Hrej. cbv. discriminate.
  - apply Hok. split; [reflexivity|].
    intros x [<-|[<-|[]]]; cbv; discriminate.
Defined.

Lemma registerUser_resolved (db : DB) (user : User.t) :
  fst (registerUser user db) = Resolved tt ->
  registerUser user db
  = (Resolved tt, set_users (ObjectStore.put User.username user (users db)) db).
Proof.
  unfold registerUser, try_catch, users_add, ObjectStore.add, reject.
  destruct (ObjectStore.get User.username (User.username user) (users db));
    [cbn; discriminate|].
  destruct (ObjectStore.violates_unique User.username user_ix_id user (users db));
    [cbn; discriminate|reflexivity].
Qed.

(** Registration keeps the users store well formed. *)
Lemma registerUser_preserves_wf_users (db : DB) (user : User.t) :
  wf_users (users db) -> wf_users (users (snd (registerUser user db))).
Proof.
  intros [Hs Hu].
  destruct (registerUser_outcome db user) as [[Hok _] Hrej].
  destruct (registerUser user db) as [[[]|e] db'] eqn:E.
  - cbn [fst] in Hok. destruct (Hok eq_refl) as [Hfresh Hid].
    assert (E' := registerUser_resolved db user). rewrite E in E'.
    cbn [fst] in E'. specialize (E' eq_refl). injection E' as ->. cbn.
    split; [now apply sorted_put|].
    intros a b v Ha Hb Ea Eb.
    unfold user_ix_id in Ea, Eb. injection Ea as Ea. injection Eb as Eb.
    destruct (put_in _ _ _ _ Ha) as [->|Ha']; destruct (put_in _ _ _ _ Hb) as [->|Hb'].
    + reflexivity.
    + exfalso. apply (Hid b Hb'). congruence.
    + exfalso. apply (Hid a Ha'). congruence.
    + apply (Hu a b v); unfold user_ix_id; congruence.
  - cbn [fst] in Hrej. rewrite Hrej by discriminate. cbn. now split.
Qed.

(** X2. After a registration that resolved, logging in under the new
    username with the registered password resolves with exactly the
    registered record when the account is active and rejects as disabled
    when it is not; any other password resolves with [null]. *)
Theorem register_then_login (db : DB) (user : User.t) (pw : string) :
  fst (registerUser user db) = Resolved tt ->
  User.password user = Some pw ->
  let db' := snd (registerUser user db) in
  loginUser (User.username user) pw db'
  = (if User.isActive user then Resolved (Some user)
     else Rejected (Reason "Conta desativada pelo administrador."), db')
  /\ forall pw' : string, pw' <> pw ->
       loginUser (User.username user) pw' db' = (Resolved None, db').
Proof.
  intros Hok Hpw db'. unfold db'.
  rewrite (registerUser_resolved db user Hok). cbn [snd].
  unfold loginUser, await, users_get, set_users. cbn [users].
  rewrite get_put_same, Hpw. cbn [strict_eq]. split.
  - rewrite String.eqb_refl. destruct (User.isActive user); reflexivity.
  - intros pw' Hne.
    assert (String.eqb pw pw' = false) by (apply String.eqb_neq; congruence).
    now rewrite H.
Qed.

Lemma register_then_login_witness :
  loginUser "carol" "pw-carol" (snd (registerUser SampleMore.carol Sample.db0))
  = (Resolved (Some SampleMore.carol), snd (registerUser SampleMore.carol Sample.db0))
  /\ loginUser "carol" "guess" (snd (registerUser SampleMore.carol Sample.db0))
     = (Resolved None, snd (registerUser SampleMore.carol Sample.db0)).
Proof.
  destruct (register_then_login Sample.db0 SampleMore.carol "pw-carol" eq_refl eq_refl)
    as [Hin Hout].
  split; [exact Hin|]. apply Hout. discriminate.
Defined.

(** X3. [loginUser] never writes. It resolves with a user only when that
    record is stored under the username, carries exactly the password and
    is active; it rejects only for a stored record with the right password
    that is inactive; a missing user, a wrong password and a record
    without a password all resolve with [null]. *)
Theorem loginUser_contract (db : DB) (username password : string) :
  snd (loginUser username password db) = db
  /\ (forall u : User.t,
        fst (loginUser username password db) = Resolved (Some u) ->
        ObjectStore.get User.username username (users db) = Some u
        /\ User.password u = Some password
        /\ User.isActive u = true)
  /\ (forall e : Rejection,
        fst (loginUser username password db) = Rejected e ->
        e = Reason "Conta desativada pelo administrador."
        /\ exists u : User.t,
             ObjectStore.get User.username username (users db) = Some u
             /\ User.password u = Some password
             /\ User.isActive u = false)
  /\ (ObjectStore.get User.username username (users db) = None ->
      fst (loginUser username password db) = Resolved None)
  /\ (forall u : User.t,
        ObjectStore.get User.username username (users db) = Some u ->
        User.password u <> Some password ->
        fst (loginUser username password db) = Resolved None).
Proof.
  unfold loginUser, await, users_get, resolve, reject.
  destruct (ObjectStore.get User.username username (users db)) as [u|] eqn:Hget.
  - destruct (strict_eq (User.password u) password) eqn:Hpw.
    + assert (Hp : User.password u = Some password).
      { destruct (User.password u) as [p|]; cbn in Hpw; [|discriminate].
        apply String.eqb_eq in Hpw. now subst. }
      destruct (User.isActive u) eqn:Hact; cbn;
        repeat (split || intro); try congruence; try (exists u; auto).
    + assert (Hp : User.password u <> Some password).
      { intro H. rewrite H in Hpw. cbn in Hpw. rewrite String.eqb_refl in Hpw.
        discriminate. }
      cbn. repeat (split || intro); try congruence.
  - cbn. repeat (split || intro); congruence.
Qed.

Lemma loginUser_contract_witness :
  fst (loginUser "alice" "secret" Sample.db0) = Resolved (Some Sample.alice)
  /\ User.isActive Sample.alice = true
  /\ fst (loginUser "dave" "pw" Sample.db0) = Resolved None
  /\ fst (loginUser "alice" "wrong" Sample.db0) = Resolved None.
Proof.
  destruct (loginUser_contract Sample.db0 "alice" "secret") as [_ [Hs _]].
  destruct (loginUser_contract Sample.db0 "dave" "pw") as [_ [_ [_ [Hm _]]]].
  destruct (loginUser_contract Sample.db0 "alice" "wrong") as [_ [_ [_ [_ Hw]]]].
  split; [reflexivity|]. split; [exact (proj2 (proj2 (Hs Sample.alice eq_refl)))|].
  split; [exact (Hm eq_refl)|].
  apply (Hw Sample.alice eq_refl). cbv. discriminate.
Defined.

Lemma index_get_of_in (u : User.t) (s : list User.t) :
  ObjectStore.unique_on user_ix_id s -> In u s ->
  ObjectStore.index_get user_ix_id (User.id u) s = Some u.
Proof.
  intros Hu Hin.
  destruct (ObjectStore.index_get user_ix_id (User.id u) s) as [x|] eqn:E.
  - destruct (index_get_some _ _ _ _ E) as [Hx Hix].
    now rewrite (Hu x u (User.id u) Hx Hin Hix eq_refl).
  - exfalso. exact (proj1 (index_get_none_iff _ _) E u Hin eq_refl).
Qed.

(** Replacing a record that the index does not list under [v] by another
    that it does not list under [v] leaves the index entry of [v] alone. *)
Lemma index_get_put_other {R : Type} (key : R -> string) (ix : R -> option string)
    (v : string) (r r0 : R) (s : list R) :
  ObjectStore.sorted key s -> In r0 s -> key r = key r0 ->
  ObjectStore.index_match ix v r0 = false ->
  ObjectStore.index_match ix v r = false ->
  ObjectStore.index_get ix v (ObjectStore.put key r s) = ObjectStore.index_get ix v s.
Proof.
  unfold ObjectStore.index_get. intros Hs Hin Hk H0 Hr.
  induction s as [|y s IH]; [destruct Hin|].
  cbn [ObjectStore.put]. destruct Hin as [->|Hin].
  - rewrite Hk, key_compare_refl. cbn. now rewrite H0, Hr.
  - rewrite Hk, (key_lt_gt _ _ (sorted_head_lt key _ _ Hs _ Hin)). cbn.
    rewrite (IH (sorted_tail key _ _ Hs) Hin). reflexivity.
Qed.

(** X4. [deleteUser] resolves and removes the user's record only: the
    files and folders stores are as before (nothing cascades), the other
    users are as before, the username no longer logs in, and later usage
    adjustments for the deleted user's id are silent no-ops. Deleting a
    username that is not stored resolves and changes nothing. *)
Theorem deleteUser_no_cascade (db : DB) (username : string) :
  (forall u : User.t,
     wf_users (users db) ->
     ObjectStore.get User.username username (users db) = Some u ->
     let db' := snd (deleteUser username db) in
     fst (deleteUser username db) = Resolved tt
     /\ files db' = files db
     /\ folders db' = folders db
     /\ (forall k, k <> username ->
           ObjectStore.get User.username k (users db')
           = ObjectStore.get User.username k (users db))
     /\ (forall pw, loginUser username pw db' = (Resolved None, db'))
     /\ (forall d, updateUserStorage (User.id u) d db' = (Resolved tt, db')))
  /\ (ObjectStore.get User.username username (users db) = None ->
      deleteUser username db = (Resolved tt, db)).
Proof.
  split.
  - intros u [Hs Hu] Hget db'.
    destruct (get_some _ _ _ _ Hget) as [Hin Hname].
    assert (Hdb' : db' = set_users (ObjectStore.delete User.username username (users db)) db)
      by reflexivity.
    split; [reflexivity|]. split; [reflexivity|]. split; [reflexivity|].
    split; [|split].
    + intros k Hk. rewrite Hdb'. cbn [users set_users]. now apply get_delete_other.
    + intro pw. unfold loginUser, await, users_get. rewrite Hdb'.
      cbn [users set_users]. rewrite get_delete_same. reflexivity.
    + intro d. apply updateUserStorage_missing. rewrite Hdb'. cbn [users set_users].
      apply index_get_none_iff. intros x Hx Hid.
      apply filter_In in Hx. destruct Hx as [Hx Hne].
      apply negb_true_iff, String.eqb_neq in Hne. apply Hne.
      rewrite (Hu x u (User.id u) Hx Hin); [exact Hname| |reflexivity].
      unfold user_ix_id. now rewrite Hid.
  - intro Hget. unfold deleteUser, users_delete.
    rewrite (delete_absent _ _ _ Hget). destruct db. reflexivity.
Qed.

Lemma deleteUser_no_cascade_witness :
  files (snd (deleteUser "alice" Sample.db0)) = files Sample.db0
  /\ (exists f, In f (files (snd (deleteUser "alice" Sample.db0)))
                /\ CloudFile.ownerId f = User.id Sample.alice)
  /\ loginUser "alice" "secret" (snd (deleteUser "alice" Sample.db0))
     = (Resolved None, snd (deleteUser "alice" Sample.db0))
  /\ deleteUser "dave" Sample.db0 = (Resolved tt, Sample.db0).
Proof.
  destruct (deleteUser_no_cascade Sample.db0 "alice") as [Hdel _].
  destruct (Hdel Sample.alice sample_wf_users eq_refl)
    as [_ [Hfiles [_ [_ [Hlogin _]]]]].
  destruct (deleteUser_no_cascade Sample.db0 "dave") as [_ Hmiss].
  split; [exact Hfiles|]. split.
  - exists Sample.f1. split; [now left|reflexivity].
  - split; [apply Hlogin|exact (Hmiss eq_refl)].
Defined.

(** X5. [updateUser] with a record under a stored username and that
    record's id resolves and replaces it: the username and the id both
    read the new record, every other username reads as before, and the
    users store stays well formed. With the id of a record stored under
    another username it rejects with the store's error and writes nothing. *)
Theorem updateUser_outcome (db : DB) (user : User.t) :
  (forall old : User.t,
     wf_users (users db) ->
     ObjectStore.get User.username (User.username user) (users db) = Some old ->
     User.id user = User.id old ->
     let db' := snd (updateUser user db) in
     fst (updateUser user db) = Resolved tt
     /\ ObjectStore.get User.username (User.username user) (users db') = Some user
     /\ ObjectStore.index_get user_ix_id (User.id user) (users db') = Some user
     /\ (forall k, k <> User.username user ->
           ObjectStore.get User.username k (users db')
           = ObjectStore.get User.username k (users db))
     /\ wf_users (users db')
     /\ files db' = files db /\ folders db' = folders db)
  /\ (forall x : User.t,
        In x (users db) -> User.id x = User.id user ->
        User.username x <> User.username user ->
        updateUser user db = (Rejected ConstraintError, db)).
Proof.
  split.
  - intros old Hwf Hget Hid db'.
    destruct (get_some _ _ _ _ Hget) as [Hin Hname].
    assert (Hrun : updateUser user db
                   = (Resolved tt,
                      set_users (ObjectStore.put User.username user (users db)) db)).
    { unfold updateUser, users_put.
      rewrite (violates_unique_self User.username user_ix_id (User.id old) old);
        auto; try (destruct Hwf; assumption); unfold user_ix_id; congruence. }
    unfold db'. rewrite Hrun. cbn [fst snd users files folders set_users].
    split; [reflexivity|]. split; [apply get_put_same|]. split; [|split].
    + rewrite Hid. destruct Hwf as [Hs Hu].
      apply (index_get_put User.username user_ix_id _ old); auto.
      * now apply index_get_of_in.
      * unfold user_ix_id. now rewrite Hid.
    + intros k Hk. now apply get_put_other.
    + split; [|split; reflexivity]. now apply (wf_users_put old).
  - intros x Hin Hid Hname. unfold updateUser, users_put.
    assert (Hv : ObjectStore.violates_unique User.username user_ix_id user (users db)
                 = true) by (apply users_violation_iff; eauto).
    now rewrite Hv.
Qed.

Lemma updateUser_outcome_witness :
  loginUser "bob" "hunter2" Sample.db0 = (Resolved (Some Sample.bob), Sample.db0)
  /\ fst (loginUser "bob" "hunter2" (snd (updateUser SampleMore.bob_blocked Sample.db0)))
     = Rejected (Reason "Conta desativada pelo administrador.")
  /\ ObjectStore.get User.username "bob"
       (users (snd (updateUser SampleMore.bob_blocked Sample.db0)))
     = Some SampleMore.bob_blocked
  /\ updateUser (User.mk "u-bob" "robert" None "" Role.user Plan.free "" (num 0) (num 0) "" true)
       Sample.db0 = (Rejected ConstraintError, Sample.db0).
Proof.
  split; [reflexivity|]. split; [reflexivity|].
  destruct (updateUser_outcome Sample.db0 SampleMore.bob_blocked) as [Hok _].
  destruct (Hok Sample.bob sample_wf_users eq_refl eq_refl) as [_ [Hget _]].
  split; [exact Hget|].
  destruct (updateUser_outcome Sample.db0
              (User.mk "u-bob" "robert" None "" Role.user Plan.free "" (num 0) (num 0) "" true))
    as [_ Hrej].
  apply (Hrej Sample.bob); [right; now left|reflexivity|cbv; discriminate].
Defined.

(** X6. On a stored user, [updateUserStorage] changes the [storageUsed]
    field of that user's record and nothing else: every other field of the
    record, every other user and the other stores are as before. Two
    adjustments in a row leave the usage at the binary64 value of
    (used + d1) + d2. When the usage and the two adjustments are safe
    integers and so are used + d1 and d1 + d2, they leave the database one
    adjustment by d1 + d2 would. *)
Theorem updateUserStorage_frame_and_sum
    (db : DB) (userId : string) (d1 d2 : number) (u : User.t) :
  wf_users (users db) ->
  ObjectStore.index_get user_ix_id userId (users db) = Some u ->
  let db1 := snd (updateUserStorage userId d1 db) in
  ObjectStore.index_get user_ix_id userId (users db1)
  = Some (User.set_storageUsed (js_add (User.storageUsed u) d1) u)
  /\ (forall k, k <> User.username u ->
        ObjectStore.get User.username k (users db1)
        = ObjectStore.get User.username k (users db))
  /\ files db1 = files db /\ folders db1 = folders db
  /\ storageUsed_of userId (snd (updateUserStorage userId d2 db1))
     = Some (js_add (js_add (User.storageUsed u) d1) d2)
  /\ (forall a x y : Z,
        User.storageUsed u = num a -> d1 = num x -> d2 = num y ->
        safe_integer a -> safe_integer x -> safe_integer y ->
        safe_integer (a + x) -> safe_integer (x + y) ->
        snd (updateUserStorage userId d2 db1)
        = snd (updateUserStorage userId (js_add d1 d2) db)).
Proof.
  intros Hwf Hget db1.
  set (u1 := User.set_storageUsed (js_add (User.storageUsed u) d1) u).
  assert (Hdb1 : db1 = set_users (ObjectStore.put User.username u1 (users db)) db).
  { unfold db1. now rewrite (updateUserStorage_found db userId d1 u Hwf Hget). }
  assert (Hget1 : ObjectStore.index_get user_ix_id userId (users db1) = Some u1).
  { rewrite Hdb1. cbn [users set_users]. now apply index_get_adjusted. }
  assert (Hwf1 : wf_users (users db1)).
  { rewrite Hdb1. cbn [users set_users]. now apply (wf_users_adjusted _ userId). }
  split; [exact Hget1|]. split; [|split; [|split; [|split]]].
  - intros k Hk. rewrite Hdb1. cbn [users set_users]. now apply get_put_other.
  - now rewrite Hdb1.
  - now rewrite Hdb1.
  - rewrite (updateUserStorage_found db1 userId d2 u1 Hwf1 Hget1).
    unfold storageUsed_of, set_users. cbn [snd users].
    rewrite (index_get_adjusted _ _ _ _ Hwf1 Hget1). reflexivity.
  - intros a x y Hu -> -> Ha Hx Hy Hax Hxy.
    rewrite (updateUserStorage_found db1 userId (num y) u1 Hwf1 Hget1).
    rewrite (updateUserStorage_found db userId (js_add (num x) (num y)) u Hwf Hget).
    cbn [snd]. rewrite Hdb1. unfold set_users. cbn [users files folders].
    rewrite put_put by reflexivity.
    f_equal. f_equal. unfold u1. destruct u. unfold User.set_storageUsed.
    cbn [User.storageUsed User.id User.username User.password User.email User.role
         User.plan User.avatar User.storageLimit User.createdAt User.isActive] in *.
    subst. rewrite (num_add a x Ha Hx), (num_add (a + x) y Hax Hy).
    rewrite (num_add x y Hx Hy), (num_add a (x + y) Ha Hxy).
    do 2 f_equal. lia.
Qed.

Lemma updateUserStorage_frame_and_sum_witness :
  storageUsed_of "u-alice"
    (snd (updateUserStorage "u-alice" (num (-300))
            (snd (updateUserStorage "u-alice" (num 1000) Sample.db0))))
  = Some (num 700)
  /\ snd (updateUserStorage "u-alice" (num (-300))
            (snd (updateUserStorage "u-alice" (num 1000) Sample.db0)))
     = snd (updateUserStorage "u-alice" (js_add (num 1000) (num (-300))) Sample.db0)
  /\ (let db := snd (updateUserStorage "u-erin" (num (2 ^ 53 - 1)) SampleLarge.db) in
      usage_of "u-erin" db = Some (2 ^ 53)
      /\ usage_of "u-erin"
            (snd (updateUserStorage "u-erin" (num 1)
                    (snd (updateUserStorage "u-erin" (num 1) db)))) = Some (2 ^ 53)
      /\ usage_of "u-erin" (snd (updateUserStorage "u-erin" (js_add (num 1) (num 1)) db))
         = Some (2 ^ 53 + 2)).
Proof.
  split; [reflexivity|]. split; [|cbv zeta; repeat split; reflexivity].
  destruct (updateUserStorage_frame_and_sum Sample.db0 "u-alice" (num 1000) (num (-300))
              Sample.alice sample_wf_users eq_refl) as [_ [_ [_ [_ [_ H]]]]].
  apply (H 0 1000 (-300)); try reflexivity; unfold safe_integer; cbv; reflexivity.
Defined.

(** X7. [deleteFileFromDB] charges the owner id it is handed, not the
    owner recorded in the file: purging a stored file under another
    existing user's id removes the file, leaves that other user's
    [storageUsed] at the binary64 value of its usage minus the size given,
    and leaves the real owner's [storageUsed] where it was. *)
Theorem purge_charges_the_owner_given
    (db : DB) (f : CloudFile.t) (ownerId : string) (size : number) (real other : User.t) :
  wf_users (users db) ->
  ObjectStore.get CloudFile.id (CloudFile.id f) (files db) = Some f ->
  ObjectStore.index_get user_ix_id (CloudFile.ownerId f) (users db) = Some real ->
  ObjectStore.index_get user_ix_id ownerId (users db) = Some other ->
  ownerId <> CloudFile.ownerId f ->
  let db' := snd (deleteFileFromDB (CloudFile.id f) ownerId size db) in
  fst (deleteFileFromDB (CloudFile.id f) ownerId size db) = Resolved tt
  /\ ObjectStore.get CloudFile.id (CloudFile.id f) (files db') = None
  /\ storageUsed_of (CloudFile.ownerId f) db' = Some (User.storageUsed real)
  /\ storageUsed_of ownerId db' = Some (js_add (User.storageUsed other) (js_neg size)).
Proof.
  intros Hwf Hf Hreal Hother Hne db'. unfold db'.
  rewrite (deleteFileFromDB_found db _ ownerId size other Hwf Hother).
  unfold set_files, set_users, storageUsed_of. cbn [fst snd users files].
  split; [reflexivity|]. split; [apply get_delete_same|]. split.
  - destruct (index_get_some _ _ _ _ Hother) as [Hin Hix].
    unfold user_ix_id in Hix. injection Hix as Hix.
    rewrite (index_get_put_other User.username user_ix_id _ _ other);
      [now rewrite Hreal|destruct Hwf; assumption|exact Hin|reflexivity| |];
      unfold ObjectStore.index_match, user_ix_id, strict_eq; cbn;
      apply String.eqb_neq; congruence.
  - rewrite (index_get_adjusted _ _ _ _ Hwf Hother). reflexivity.
Qed.

Lemma purge_charges_the_owner_given_witness :
  CloudFile.ownerId Sample.f1 = User.id Sample.alice
  /\ storageUsed_of "u-alice" (snd (deleteFileFromDB "fi-1" "u-bob" (num 1000000) Sample.db0))
     = Some (num 0)
  /\ usage_of "u-bob" (snd (deleteFileFromDB "fi-1" "u-bob" (num 1000000) Sample.db0))
     = Some (5 * Sample.GiB - 1000000).
Proof.
  split; [reflexivity|].
  destruct (purge_charges_the_owner_given Sample.db0 Sample.f1 "u-bob" (num 1000000)
              Sample.alice Sample.bob sample_wf_users eq_refl eq_refl eq_refl)
    as [_ [_ [Ha Hb]]].
  - cbv. discriminate.
  - split; [exact Ha|].
    assert (Hb' : storageUsed_of "u-bob"
                    (snd (deleteFileFromDB "fi-1" "u-bob" (num 1000000) Sample.db0))
                  = Some (js_add (User.storageUsed Sample.bob) (js_neg (num 1000000))))
      by exact Hb.
    unfold usage_of. rewrite Hb'. reflexivity.
Defined.

(** * Config *)

(** X8. Saving a configuration and reading it back gives that
    configuration; a second save replaces the first and leaves the store as
    if only the second had been made; with nothing saved the read gives the
    local default. Neither operation rejects and the read writes nothing. *)
Theorem config_roundtrip (s : ConfigStore) (c1 c2 : CDNConfig.t) :
  getCDNConfig (snd (saveCDNConfig c2 s)) = (Resolved c2, snd (saveCDNConfig c2 s))
  /\ fst (saveCDNConfig c2 s) = Resolved tt
  /\ snd (saveCDNConfig c2 (snd (saveCDNConfig c1 s))) = snd (saveCDNConfig c2 s)
  /\ (ObjectStore.get row_key "cdn" s = None ->
      getCDNConfig s = (Resolved CDNConfig.default, s)).
Proof.
  unfold getCDNConfig, saveCDNConfig. cbn [fst snd].
  split; [|split; [reflexivity|split]].
  - change "cdn"%string with (row_key (mkConfigRow "cdn" c2)) at 1.
    rewrite get_put_same. reflexivity.
  - now apply put_put.
  - intros ->. reflexivity.
Qed.

Lemma config_roundtrip_witness :
  getCDNConfig [] = (Resolved CDNConfig.default, [])
  /\ CDNConfig.provider CDNConfig.default = Provider.local.
Proof.
  split; [|reflexivity].
  exact (proj2 (proj2 (proj2 (config_roundtrip [] CDNConfig.default CDNConfig.default)))
           eq_refl).
Defined.

(** * Files: content and listings *)

Lemma addFileToDB_resolved (db : DB) (file : CloudFile.t) :
  fst (addFileToDB file db) = Resolved tt ->
  ObjectStore.get CloudFile.id (CloudFile.id file) (files db) = None
  /\ files (snd (addFileToDB file db)) = ObjectStore.put CloudFile.id file (files db)
  /\ folders (snd (addFileToDB file db)) = folders db.
Proof.
  unfold addFileToDB, await.
  pose proof (updateUserStorage_files db (CloudFile.ownerId file) (CloudFile.size file))
    as Hf.
  assert (Hd : folders (snd (updateUserStorage (CloudFile.ownerId file)
                               (CloudFile.size file) db)) = folders db).
  { unfold updateUserStorage, await, users_index_id_get.
    destruct (ObjectStore.index_get user_ix_id _ (users db)); [|reflexivity].
    unfold users_put.
    destruct (ObjectStore.violates_unique User.username user_ix_id _ (users db));
      reflexivity. }
  destruct (updateUserStorage (CloudFile.ownerId file) (CloudFile.size file) db)
    as [[[]|e] db1]; cbn [fst snd] in *; [|discriminate].
  unfold files_add, ObjectStore.add. rewrite Hf.
  destruct (ObjectStore.get CloudFile.id (CloudFile.id file) (files db));
    cbn [fst snd files folders set_files]; [discriminate|].
  intros _. rewrite ?Hf. auto.
Qed.

(** X9. After an upload that resolved, [getFileContent] under the file's
    id resolves with the payload the record was given. *)
Theorem content_after_upload (db : DB) (file : CloudFile.t) :
  fst (addFileToDB file db) = Resolved tt ->
  getFileContent (CloudFile.id file) (snd (addFileToDB file db))
  = (Resolved (CloudFile.data file), snd (addFileToDB file db)).
Proof.
  intro Hok. destruct (addFileToDB_resolved db file Hok) as [_ [Hfiles _]].
  unfold getFileContent, await, files_get, resolve.
  rewrite Hfiles, get_put_same. reflexivity.
Qed.

Lemma content_after_upload_witness :
  getFileContent "fi-4" (snd (addFileToDB Sample.f4 Sample.db0))
  = (Resolved (CloudFile.data Sample.f4), snd (addFileToDB Sample.f4 Sample.db0)).
Proof.
  exact (content_after_upload Sample.db0 Sample.f4 eq_refl).
Defined.

(** X10. After a purge that resolved, [getFileContent] under the purged
    id resolves with [undefined]; it also does so, without an error, for
    any id the files store does not hold. *)
Theorem content_after_purge (db : DB) (id ownerId : string) (size : number) :
  (fst (deleteFileFromDB id ownerId size db) = Resolved tt ->
   getFileContent id (snd (deleteFileFromDB id ownerId size db))
   = (Resolved None, snd (deleteFileFromDB id ownerId size db)))
  /\ (ObjectStore.get CloudFile.id id (files db) = None ->
      getFileContent id db = (Resolved None, db)).
Proof.
  split.
  - unfold deleteFileFromDB, await.
    destruct (updateUserStorage ownerId (js_neg size) db) as [[[]|e] db1];
      cbn [fst snd]; [|discriminate].
    intros _. unfold getFileContent, await, files_get, files_delete, resolve.
    cbn [snd files set_files]. rewrite get_delete_same. reflexivity.
  - intro Hget. unfold getFileContent, await, files_get, resolve.
    now rewrite Hget.
Qed.

Lemma content_after_purge_witness :
  fst (getFileContent "fi-1" Sample.db0) = Resolved (CloudFile.data Sample.f1)
  /\ getFileContent "fi-1" (snd (deleteFileFromDB "fi-1" "u-alice" (num 1000000) Sample.db0))
     = (Resolved None, snd (deleteFileFromDB "fi-1" "u-alice" (num 1000000) Sample.db0))
  /\ getFileContent "fi-9" Sample.db0 = (Resolved None, Sample.db0).
Proof.
  split; [reflexivity|].
  destruct (content_after_purge Sample.db0 "fi-1" "u-alice" (num 1000000)) as [Hp _].
  destruct (content_after_purge Sample.db0 "fi-9" "u-alice" (num 0)) as [_ Hm].
  split; [exact (Hp eq_refl)|exact (Hm eq_refl)].
Defined.

(** The records the soft operations put back, as named above. *)
Lemma trashFile_run (db : DB) (id now : string) (f : CloudFile.t) :
  ObjectStore.get CloudFile.id id (files db) = Some f ->
  trashFile id now db
  = (Resolved tt,
     set_files (ObjectStore.put CloudFile.id (trashed_record now f) (files db)) db).
Proof.
  intro Hget. unfold trashFile, await, files_get. rewrite Hget. reflexivity.
Qed.

Lemma restoreFile_run (db : DB) (id : string) (f : CloudFile.t) :
  ObjectStore.get CloudFile.id id (files db) = Some f ->
  restoreFile id db
  = (Resolved tt,
     set_files (ObjectStore.put CloudFile.id (restored_record f) (files db)) db).
Proof.
  intro Hget. unfold restoreFile, await, files_get. rewrite Hget. reflexivity.
Qed.

Lemma updateFileShareStatus_run
    (db : DB) (fileId : string) (isShared : bool) (shareToken : option string)
    (now : string) (f : CloudFile.t) :
  ObjectStore.get CloudFile.id fileId (files db) = Some f ->
  updateFileShareStatus fileId isShared shareToken now db
  = (Resolved tt,
     set_files (ObjectStore.put CloudFile.id
                  (share_record isShared shareToken now f) (files db)) db).
Proof.
  intro Hget. unfold updateFileShareStatus, await, files_get. rewrite Hget.
  reflexivity.
Qed.

Lemma trashed_record_id (now : string) (f : CloudFile.t) :
  CloudFile.id (trashed_record now f) = CloudFile.id f.
Proof.
  unfold trashed_record. cbn. destruct (truthy (CloudFile.isShared f)); reflexivity.
Qed.

Lemma trashed_record_data (now : string) (f : CloudFile.t) :
  CloudFile.data (trashed_record now f) = CloudFile.data f.
Proof.
  unfold trashed_record. cbn. destruct (truthy (CloudFile.isShared f)); reflexivity.
Qed.

(** Replacing a record by one with the same key and the same payload does
    not change what any id's payload reads. *)
Lemma content_put_same_data (db : DB) (k : string) (f f' : CloudFile.t) :
  ObjectStore.get CloudFile.id (CloudFile.id f) (files db) = Some f ->
  CloudFile.id f' = CloudFile.id f ->
  CloudFile.data f' = CloudFile.data f ->
  fst (getFileContent k (set_files (ObjectStore.put CloudFile.id f' (files db)) db))
  = fst (getFileContent k db).
Proof.
  intros Hget Hid Hdata.
  unfold getFileContent, await, files_get, resolve. cbn [fst snd files set_files].
  destruct (String.eqb k (CloudFile.id f')) eqn:E.
  - apply String.eqb_eq in E. subst k.
    rewrite get_put_same. rewrite Hid, Hget. now rewrite Hdata.
  - apply String.eqb_neq in E. rewrite get_put_other by exact E. reflexivity.
Qed.

(** X11. Trashing, restoring and changing the share status of a file
    leave every file's payload readable as before: [getFileContent] does
    not look at the trash or share state. *)
Theorem content_survives_soft_operations
    (db : DB) (id k now : string) (isShared : bool) (shareToken : option string) :
  fst (getFileContent k (snd (trashFile id now db))) = fst (getFileContent k db)
  /\ fst (getFileContent k (snd (restoreFile id db))) = fst (getFileContent k db)
  /\ (fst (updateFileShareStatus id isShared shareToken now db) = Resolved tt ->
      fst (getFileContent k (snd (updateFileShareStatus id isShared shareToken now db)))
      = fst (getFileContent k db)).
Proof.
  destruct (ObjectStore.get CloudFile.id id (files db)) as [f|] eqn:Hget.
  - destruct (get_some _ _ _ _ Hget) as [_ Hid]. subst id.
    rewrite (trashFile_run db _ now f Hget), (restoreFile_run db _ f Hget),
      (updateFileShareStatus_run db _ isShared shareToken now f Hget).
    cbn [snd]. split; [|split; [|intros _]].
    + apply (content_put_same_data db k f); auto using trashed_record_id, trashed_record_data.
    + now apply (content_put_same_data db k f).
    + now apply (content_put_same_data db k f).
  - unfold trashFile, restoreFile, updateFileShareStatus, await, files_get, reject.
    rewrite Hget. cbn [fst snd]. split; [reflexivity|split; [reflexivity|discriminate]].
Qed.

Lemma content_survives_soft_operations_witness :
  fst (getFileContent "fi-2"
         (snd (updateFileShareStatus "fi-2" false None Sample.now Sample.db0)))
  = fst (getFileContent "fi-2" Sample.db0).
Proof.
  exact (proj2 (proj2 (content_survives_soft_operations Sample.db0 "fi-2" "fi-2"
                         Sample.now false None)) eq_refl).
Defined.

(** Membership in the results of the listing operations. *)
Lemma listed_files_in (db : DB) (p o : string) (g : CloudFile.t) :
  In g (listed_files p o db)
  <-> In g (files db) /\ CloudFile.ownerId g = o /\ CloudFile.parentId g = p
      /\ truthy (CloudFile.isTrashed g) = false.
Proof.
  unfold listed_files, getFilesFromDB, await, files_index_parentId_getAll, resolve.
  cbn [fst resolved_or]. unfold ObjectStore.index_getAll.
  rewrite !filter_In.
  unfold ObjectStore.index_match, file_ix_parentId, strict_eq.
  rewrite andb_true_iff, negb_true_iff, !String.eqb_eq. tauto.
Qed.

Lemma listed_folders_in (db : DB) (p o : string) (d : CloudFolder.t) :
  In d (listed_folders p o db)
  <-> In d (folders db) /\ CloudFolder.ownerId d = o /\ CloudFolder.parentId d = Some p
      /\ truthy (CloudFolder.isTrashed d) = false.
Proof.
  unfold listed_folders, getFoldersFromDB, await, folders_index_parentId_getAll, resolve.
  cbn [fst resolved_or]. unfold ObjectStore.index_getAll.
  rewrite !filter_In.
  unfold ObjectStore.index_match, folder_ix_parentId, strict_eq.
  rewrite andb_true_iff, negb_true_iff, String.eqb_eq.
  destruct (CloudFolder.parentId d) as [q|].
  - rewrite String.eqb_eq. split.
    + intros [[Hin ->] [Ho Ht]]. auto.
    + intros [Hin [Ho [Hp Ht]]]. injection Hp as ->. auto.
  - split; [intros [[_ H] _]; discriminate|intros [_ [_ [H _]]]; discriminate].
Qed.

Lemma trashed_files_in (db : DB) (o : string) (g : CloudFile.t) :
  In g (trashed_files o db)
  <-> In g (files db) /\ CloudFile.ownerId g = o
      /\ truthy (CloudFile.isTrashed g) = true.
Proof.
  unfold trashed_files, getTrashedItems, await, files_getAll, folders_getAll, resolve.
  cbn [fst snd resolved_or]. rewrite filter_In, andb_true_iff, String.eqb_eq. tauto.
Qed.

Lemma trashed_folders_in (db : DB) (o : string) (d : CloudFolder.t) :
  In d (trashed_folders o db)
  <-> In d (folders db) /\ CloudFolder.ownerId d = o
      /\ truthy (CloudFolder.isTrashed d) = true.
Proof.
  unfold trashed_folders, getTrashedItems, await, files_getAll, folders_getAll, resolve.
  cbn [fst snd resolved_or]. rewrite filter_In, andb_true_iff, String.eqb_eq. tauto.
Qed.

Lemma put_in_fresh_iff {R : Type} (key : R -> string) (r x : R) (s : list R) :
  ObjectStore.get key (key r) s = None ->
  In x (ObjectStore.put key r s) <-> x = r \/ In x s.
Proof.
  intro Hfresh. split.
  - apply put_in.
  - intros [->|Hin]; [apply put_in_new|].
    apply put_in_old; [exact Hin|exact (get_none _ _ _ Hfresh x Hin)].
Qed.

Lemma put_in_replace_iff {R : Type} (key : R -> string) (r x : R) (s : list R) :
  ObjectStore.sorted key s ->
  In x (ObjectStore.put key r s) <-> x = r \/ (In x s /\ key x <> key r).
Proof.
  intro Hs. split.
  - now apply put_in_sorted.
  - intros [->|[Hin Hne]]; [apply put_in_new|now apply put_in_old].
Qed.

(** * Folders *)

(** X12. [addFolderToDB] rejects a folder whose id is taken and writes
    nothing. With a fresh id it resolves, leaves users and files alone, and
    every listing afterwards is the listing before plus the new folder
    where it belongs: under its own parent and owner, when its trash flag
    is not set. A folder at [parentId] null is in no listing. *)
Theorem addFolderToDB_outcome (db : DB) (folder : CloudFolder.t) :
  (forall old : CloudFolder.t,
     ObjectStore.get CloudFolder.id (CloudFolder.id folder) (folders db) = Some old ->
     addFolderToDB folder db = (Rejected ConstraintError, db))
  /\ (ObjectStore.get CloudFolder.id (CloudFolder.id folder) (folders db) = None ->
      let db' := snd (addFolderToDB folder db) in
      fst (addFolderToDB folder db) = Resolved tt
      /\ users db' = users db /\ files db' = files db
      /\ forall (p o : string) (d : CloudFolder.t),
           In d (listed_folders p o db')
           <-> In d (listed_folders p o db)
               \/ (d = folder
                   /\ CloudFolder.parentId folder = Some p
                   /\ CloudFolder.ownerId folder = o
                   /\ truthy (CloudFolder.isTrashed folder) = false)).
Proof.
  unfold addFolderToDB, folders_add, ObjectStore.add. split.
  - intros old Hget. now rewrite Hget.
  - intro Hget. rewrite Hget. cbn [fst snd users files set_folders].
    split; [reflexivity|]. split; [reflexivity|]. split; [reflexivity|].
    intros p o d. rewrite !listed_folders_in. cbn [folders set_folders].
    rewrite (put_in_fresh_iff CloudFolder.id folder d (folders db) Hget).
    split.
    + intros [[->|Hin] [Ho [Hp Ht]]]; [right|left]; auto.
    + intros [[Hin [Ho [Hp Ht]]]|[-> [Hp [Ho Ht]]]]; auto.
Qed.

Lemma addFolderToDB_outcome_witness :
  addFolderToDB Sample.d1 Sample.db0 = (Rejected ConstraintError, Sample.db0)
  /\ In SampleMore.d4 (listed_folders "f-1" "u-alice"
                         (snd (addFolderToDB SampleMore.d4 Sample.db0)))
  /\ listed_folders "f-1" "u-alice" Sample.db0 = [].
Proof.
  destruct (addFolderToDB_outcome Sample.db0 Sample.d1) as [Hrej _].
  destruct (addFolderToDB_outcome Sample.db0 SampleMore.d4) as [_ Hok].
  destruct (Hok eq_refl) as [_ [_ [_ Hlist]]].
  split; [exact (Hrej Sample.d1 eq_refl)|]. split; [|reflexivity].
  apply Hlist. right. repeat split; reflexivity.
Defined.

(** * The trash lifecycle in the listings *)

(** X13. After an upload that resolved, every listing is the listing
    before plus the uploaded record where it belongs (its parent, its
    owner, trash flag not set), and no trash listing has changed. *)
Theorem upload_then_listed (db : DB) (file : CloudFile.t) :
  fst (addFileToDB file db) = Resolved tt ->
  let db' := snd (addFileToDB file db) in
  (forall (p o : string) (g : CloudFile.t),
     In g (listed_files p o db')
     <-> In g (listed_files p o db)
         \/ (g = file /\ CloudFile.parentId file = p /\ CloudFile.ownerId file = o
             /\ truthy (CloudFile.isTrashed file) = false))
  /\ (forall (o : string) (d : CloudFolder.t),
        In d (trashed_folders o db') <-> In d (trashed_folders o db)).
Proof.
  intros Hok db'. destruct (addFileToDB_resolved db file Hok) as [Hfresh [Hfiles Hfolders]].
  split.
  - intros p o g. rewrite !listed_files_in. fold db' in Hfiles. rewrite Hfiles.
    rewrite (put_in_fresh_iff CloudFile.id file g (files db) Hfresh).
    split.
    + intros [[->|Hin] [Ho [Hp Ht]]]; [right|left]; auto.
    + intros [[Hin [Ho [Hp Ht]]]|[-> [Hp [Ho Ht]]]]; auto.
  - intros o d. rewrite !trashed_folders_in. fold db' in Hfolders.
    now rewrite Hfolders.
Qed.

Lemma upload_then_listed_witness :
  listed_files "f-1" "u-bob" Sample.db0 = []
  /\ In Sample.f4 (listed_files "f-1" "u-bob" (snd (addFileToDB Sample.f4 Sample.db0))).
Proof.
  split; [reflexivity|].
  destruct (upload_then_listed Sample.db0 Sample.f4 eq_refl) as [Hl _].
  apply Hl. right. repeat split; reflexivity.
Defined.

Ltac record_field :=
  unfold trashed_record, restored_record, share_record; cbn;
  repeat match goal with
         | |- context [if ?b then _ else _] => destruct b
         end; reflexivity.

(** X14. Trashing a stored file takes it out of every listing and puts
    it, as trashed, in its owner's trash listing; every other file stays
    in the listings and trash listings it was in. *)
Theorem trash_moves_file_to_trash (db : DB) (id now : string) (f : CloudFile.t) :
  wf_files (files db) ->
  ObjectStore.get CloudFile.id id (files db) = Some f ->
  let db' := snd (trashFile id now db) in
  (forall (p o : string) (g : CloudFile.t),
     In g (listed_files p o db') <-> In g (listed_files p o db) /\ CloudFile.id g <> id)
  /\ (forall (o : string) (g : CloudFile.t),
        In g (trashed_files o db')
        <-> (In g (trashed_files o db) /\ CloudFile.id g <> id)
            \/ (g = trashed_record now f /\ CloudFile.ownerId f = o)).
Proof.
  intros Hs Hget db'. destruct (get_some _ _ _ _ Hget) as [Hin Hid].
  assert (Hfiles : forall g, In g (files db')
                   <-> g = trashed_record now f \/ (In g (files db) /\ CloudFile.id g <> id)).
  { intro g. unfold db'. rewrite (trashFile_run db id now f Hget).
    cbn [snd files set_files].
    rewrite (put_in_replace_iff CloudFile.id _ g _ Hs), trashed_record_id, Hid.
    reflexivity. }
  assert (Ht : truthy (CloudFile.isTrashed (trashed_record now f)) = true) by record_field.
  assert (Ho : CloudFile.ownerId (trashed_record now f) = CloudFile.ownerId f)
    by record_field.
  split.
  - intros p o g. rewrite !listed_files_in, Hfiles. split.
    + intros [[->|[Hg Hne]] [Hgo [Hgp Hgt]]]; [congruence|tauto].
    + tauto.
  - intros o g. rewrite !trashed_files_in, Hfiles. split.
    + intros [[->|[Hg Hne]] [Hgo Hgt]]; [right|left]; auto. split; congruence.
    + intros [[[Hg [Hgo Hgt]] Hne]|[-> Hfo]]; [tauto|].
      split; [now left|]. split; congruence.
Qed.

Lemma trash_moves_file_to_trash_witness :
  In Sample.f1 (listed_files "root" "u-alice" Sample.db0)
  /\ listed_files "root" "u-alice" (snd (trashFile "fi-1" Sample.now Sample.db0)) = []
  /\ In (trashed_record Sample.now Sample.f1)
        (trashed_files "u-alice" (snd (trashFile "fi-1" Sample.now Sample.db0))).
Proof.
  split; [now left|]. split; [reflexivity|].
  destruct (trash_moves_file_to_trash Sample.db0 "fi-1" Sample.now Sample.f1
              sample_wf_files eq_refl) as [_ Ht].
  apply Ht. right. split; reflexivity.
Defined.

(** X15. Restoring a stored file takes it out of every trash listing and
    puts it back in the listing of its parent and owner, with its trash
    flag false and its trash date gone; every other file stays where it
    was. *)
Theorem restore_returns_file_to_listing (db : DB) (id : string) (f : CloudFile.t) :
  wf_files (files db) ->
  ObjectStore.get CloudFile.id id (files db) = Some f ->
  let db' := snd (restoreFile id db) in
  (forall (p o : string) (g : CloudFile.t),
     In g (listed_files p o db')
     <-> (In g (listed_files p o db) /\ CloudFile.id g <> id)
         \/ (g = restored_record f /\ CloudFile.parentId f = p /\ CloudFile.ownerId f = o))
  /\ (forall (o : string) (g : CloudFile.t),
        In g (trashed_files o db') <-> In g (trashed_files o db) /\ CloudFile.id g <> id).
Proof.
  intros Hs Hget db'. destruct (get_some _ _ _ _ Hget) as [Hin Hid].
  assert (Hfiles : forall g, In g (files db')
                   <-> g = restored_record f \/ (In g (files db) /\ CloudFile.id g <> id)).
  { intro g. unfold db'. rewrite (restoreFile_run db id f Hget).
    cbn [snd files set_files].
    rewrite (put_in_replace_iff CloudFile.id _ g _ Hs).
    change (CloudFile.id (restored_record f)) with (CloudFile.id f). rewrite Hid.
    reflexivity. }
  split.
  - intros p o g. rewrite !listed_files_in, Hfiles. split.
    + intros [[->|[Hg Hne]] [Hgo [Hgp Hgt]]]; [right|left]; auto.
    + intros [[[Hg [Hgo [Hgp Hgt]]] Hne]|[-> [Hfp Hfo]]]; [tauto|].
      split; [now left|]. repeat split; assumption.
  - intros o g. rewrite !trashed_files_in, Hfiles. split.
    + intros [[->|[Hg Hne]] [Hgo Hgt]]; [discriminate|tauto].
    + tauto.
Qed.

Lemma restore_returns_file_to_listing_witness :
  In Sample.f3 (trashed_files "u-alice" Sample.db0)
  /\ trashed_files "u-alice" (snd (restoreFile "fi-3" Sample.db0)) = []
  /\ In (restored_record Sample.f3)
        (listed_files "root" "u-alice" (snd (restoreFile "fi-3" Sample.db0))).
Proof.
  split; [now left|]. split; [reflexivity|].
  destruct (restore_returns_file_to_listing Sample.db0 "fi-3" Sample.f3
              sample_wf_files eq_refl) as [Hl _].
  apply Hl. right. repeat split; reflexivity.
Defined.

(** X16. Trashing and then restoring a file whose record has its trash
    flag false, no trash date and is not shared gives back the database
    exactly; for any stored file the round trip leaves the record with the
    trash flag false, no trash date, and not shared. Restoring twice is
    restoring once. *)
Theorem trash_restore_roundtrip (db : DB) (id now : string) (f : CloudFile.t) :
  wf_files (files db) ->
  ObjectStore.get CloudFile.id id (files db) = Some f ->
  let db2 := snd (restoreFile id (snd (trashFile id now db))) in
  files db2
  = ObjectStore.put CloudFile.id (restored_record (trashed_record now f)) (files db)
  /\ (CloudFile.isTrashed f = Some false -> CloudFile.trashedAt f = None ->
      truthy (CloudFile.isShared f) = false -> db2 = db)
  /\ restoreFile id (snd (restoreFile id db)) = (Resolved tt, snd (restoreFile id db)).
Proof.
  intros Hs Hget db2. destruct (get_some _ _ _ _ Hget) as [Hin Hid].
  assert (Hdb2 : db2 = set_files
                         (ObjectStore.put CloudFile.id
                            (restored_record (trashed_record now f)) (files db)) db).
  { unfold db2. rewrite (trashFile_run db id now f Hget). cbn [snd].
    rewrite (restoreFile_run _ id (trashed_record now f)).
    - cbn [snd files set_files]. unfold set_files. cbn [users files folders].
      rewrite put_put; [reflexivity|].
      change (CloudFile.id (restored_record (trashed_record now f)))
        with (CloudFile.id (trashed_record now f)). reflexivity.
    - cbn [files set_files]. rewrite <- Hid, <- (trashed_record_id now f).
      apply get_put_same. }
  split; [now rewrite Hdb2|]. split.
  - intros Ht Hat Hsh. rewrite Hdb2.
    assert (Hback : restored_record (trashed_record now f) = f).
    { unfold restored_record, trashed_record. cbn [CloudFile.isShared
        CloudFile.set_trashedAt CloudFile.set_isTrashed]. rewrite Hsh.
      destruct f. cbn in *. subst. reflexivity. }
    rewrite Hback, (put_present CloudFile.id f (files db) Hs Hin).
    destruct db. reflexivity.
  - rewrite (restoreFile_run db id f Hget). cbn [snd].
    rewrite (restoreFile_run _ id (restored_record f)).
    + unfold set_files. cbn [users files folders].
      rewrite put_put by reflexivity. reflexivity.
    + cbn [files set_files]. rewrite <- Hid.
      change (CloudFile.id f) with (CloudFile.id (restored_record f)).
      apply get_put_same.
Qed.

Lemma trash_restore_roundtrip_witness :
  snd (restoreFile "fi-0" (snd (trashFile "fi-0" Sample.now SampleMore.db1)))
  = SampleMore.db1.
Proof.
  assert (Hs : wf_files (files SampleMore.db1)) by (repeat constructor).
  exact (proj1 (proj2 (trash_restore_roundtrip SampleMore.db1 "fi-0" Sample.now
                         SampleMore.f0 Hs eq_refl))
           eq_refl eq_refl eq_refl).
Defined.

(** * Emptying the trash *)

Lemma filter_filter {A : Type} (p q : A -> bool) (l : list A) :
  filter p (filter q l) = filter (fun x => q x && p x) l.
Proof.
  induction l as [|x l IH]; cbn; [reflexivity|].
  destruct (q x); cbn; [|exact IH].
  destruct (p x); now rewrite IH.
Qed.

Lemma filter_none {A : Type} (p : A -> bool) (l : list A) :
  filter (fun x => negb (p x) && p x) l = [].
Proof.
  induction l as [|x l IH]; cbn; [reflexivity|].
  destruct (p x); cbn; exact IH.
Qed.

(** On a well-formed database a purge always resolves; it deletes the id
    and touches no folder. *)
Lemma deleteFileFromDB_run (db : DB) (id ownerId : string) (size : number) :
  wf db ->
  exists db1 : DB,
    deleteFileFromDB id ownerId size db = (Resolved tt, db1)
    /\ wf db1
    /\ files db1 = ObjectStore.delete CloudFile.id id (files db)
    /\ folders db1 = folders db
    /\ (ObjectStore.index_get user_ix_id ownerId (users db) = None ->
        users db1 = users db)
    /\ (forall u, ObjectStore.index_get user_ix_id ownerId (users db) = Some u ->
          ObjectStore.index_get user_ix_id ownerId (users db1)
          = Some (User.set_storageUsed (js_add (User.storageUsed u) (js_neg size)) u)).
Proof.
  intros Hwf. pose proof (deleteFileFromDB_preserves_wf db id ownerId size Hwf) as Hwf1.
  destruct Hwf as [Hu Hf].
  destruct (ObjectStore.index_get user_ix_id ownerId (users db)) as [u|] eqn:Hget.
  - rewrite (deleteFileFromDB_found db id ownerId size u Hu Hget) in *.
    eexists. split; [reflexivity|]. cbn [snd] in Hwf1.
    split; [exact Hwf1|]. cbn [files folders users set_files set_users].
    repeat split; try discriminate.
    intros u' H. injection H as <-. now apply index_get_adjusted.
  - unfold deleteFileFromDB, await in *.
    rewrite (updateUserStorage_missing db ownerId (js_neg size) Hget) in *.
    eexists. split; [reflexivity|]. cbn [snd] in Hwf1.
    split; [exact Hwf1|]. cbn [files folders users set_files].
    repeat split; discriminate.
Qed.

(** The loop over a list of files: what is left in the files store. *)
Lemma purge_each_run (ownerId : string) (l : list CloudFile.t) (db : DB) :
  wf db ->
  let db' := snd (purge_each ownerId l db) in
  fst (purge_each ownerId l db) = Resolved tt
  /\ wf db'
  /\ files db'
     = filter (fun f => negb (existsb (fun g => String.eqb (CloudFile.id g) (CloudFile.id f)) l))
         (files db)
  /\ folders db' = folders db
  /\ (ObjectStore.index_get user_ix_id ownerId (users db) = None ->
      users db' = users db)
  /\ (forall u, ObjectStore.index_get user_ix_id ownerId (users db) = Some u ->
        storageUsed_of ownerId db' = Some (released (User.storageUsed u) l)).
Proof.
  revert db. induction l as [|file rest IH]; intros db Hwf.
  - cbn. split; [reflexivity|]. split; [exact Hwf|]. split.
    + induction (files db) as [|x s IHs]; cbn; [reflexivity|]. now rewrite <- IHs.
    + split; [reflexivity|]. split; [reflexivity|].
      intros u Hu. unfold storageUsed_of. rewrite Hu. reflexivity.
  - destruct (deleteFileFromDB_run db (CloudFile.id file) ownerId (CloudFile.size file) Hwf)
      as [db1 [Hrun [Hwf1 [Hfiles [Hfolders [Hmiss Hfound]]]]]].
    cbn [purge_each]. unfold await. rewrite Hrun.
    destruct (IH db1 Hwf1) as [Hok [Hwf' [Hf' [Hd' [Hm' Hu']]]]].
    split; [exact Hok|]. split; [exact Hwf'|]. split; [|split; [|split]].
    + rewrite Hf', Hfiles. unfold ObjectStore.delete. rewrite filter_filter.
      apply filter_ext. intro x. cbn [existsb].
      rewrite negb_orb, (String.eqb_sym (CloudFile.id x)). reflexivity.
    + now rewrite Hd'.
    + intro Hnone. rewrite Hm'; [auto|]. rewrite (Hmiss Hnone). exact Hnone.
    + intros u Hu. rewrite (Hu' _ (Hfound u Hu)). reflexivity.
Qed.

Lemma trashed_files_eq (o : string) (db : DB) :
  trashed_files o db
  = filter (fun f => String.eqb (CloudFile.ownerId f) o && truthy (CloudFile.isTrashed f))
      (files db).
Proof. reflexivity. Qed.

Lemma emptyTrash_run (o : string) (db : DB) :
  emptyTrash o db = purge_each o (trashed_files o db) db.
Proof. reflexivity. Qed.

(** In a sorted store, deleting the ids of the records that pass a test
    leaves exactly the records that fail it. *)
Lemma filter_out_ids (p : CloudFile.t -> bool) (s : list CloudFile.t) :
  wf_files s ->
  filter (fun f => negb (existsb (fun g => String.eqb (CloudFile.id g) (CloudFile.id f))
                           (filter p s))) s
  = filter (fun f => negb (p f)) s.
Proof.
  intro Hs. apply filter_ext_in. intros f Hin. f_equal.
  destruct (p f) eqn:Hp.
  - apply existsb_exists. exists f. split; [|apply String.eqb_refl].
    apply filter_In. auto.
  - apply not_true_is_false. intro Hex. apply existsb_exists in Hex.
    destruct Hex as [g [Hg Hid]]. apply filter_In in Hg. destruct Hg as [Hg Hpg].
    apply String.eqb_eq in Hid.
    rewrite (sorted_key_inj CloudFile.id s g f Hs Hg Hin Hid) in Hpg. congruence.
Qed.

Lemma emptyTrash_facts (o : string) (db : DB) :
  wf db ->
  let db' := snd (emptyTrash o db) in
  fst (emptyTrash o db) = Resolved tt
  /\ wf db'
  /\ files db'
     = filter (fun f => negb (String.eqb (CloudFile.ownerId f) o
                              && truthy (CloudFile.isTrashed f))) (files db)
  /\ folders db' = folders db
  /\ trashed_files o db' = []
  /\ (ObjectStore.index_get user_ix_id o (users db) = None -> users db' = users db)
  /\ (forall u, ObjectStore.index_get user_ix_id o (users db) = Some u ->
        storageUsed_of o db'
        = Some (released (User.storageUsed u) (trashed_files o db))).
Proof.
  intros Hwf db'. unfold db'. rewrite emptyTrash_run.
  destruct (purge_each_run o (trashed_files o db) db Hwf)
    as [Hok [Hwf' [Hf [Hd [Hm Hu]]]]].
  assert (Hfiles : files (snd (purge_each o (trashed_files o db) db))
                   = filter (fun f => negb (String.eqb (CloudFile.ownerId f) o
                                            && truthy (CloudFile.isTrashed f))) (files db)).
  { rewrite Hf, trashed_files_eq. apply filter_out_ids. now destruct Hwf. }
  repeat (split; [assumption|]). split; [|split; assumption].
  rewrite trashed_files_eq, Hfiles, filter_filter. apply filter_none.
Qed.

(** X17. On a well-formed database [emptyTrash] resolves and removes
    exactly the owner's trashed files: the files store keeps, in order,
    every file of another owner and every file whose trash flag is not
    set; the owner's trash listing of files is empty afterwards; and the
    folders store, trashed folders included, is as before. *)
Theorem emptyTrash_removes_the_owners_trashed_files (o : string) (db : DB) :
  wf db ->
  let db' := snd (emptyTrash o db) in
  fst (emptyTrash o db) = Resolved tt
  /\ files db'
     = filter (fun f => negb (String.eqb (CloudFile.ownerId f) o
                              && truthy (CloudFile.isTrashed f))) (files db)
  /\ trashed_files o db' = []
  /\ folders db' = folders db
  /\ trashed_folders o db' = trashed_folders o db.
Proof.
  intros Hwf db'.
  destruct (emptyTrash_facts o db Hwf) as [Hok [_ [Hf [Hd [Ht _]]]]].
  repeat (split; [assumption|]).
  unfold trashed_folders, getTrashedItems, await, files_getAll, folders_getAll, resolve.
  cbn [fst snd resolved_or]. fold db'. fold db' in Hd. now rewrite Hd.
Qed.

Lemma emptyTrash_removes_the_owners_trashed_files_witness :
  files (snd (emptyTrash "u-alice" Sample.db0)) = [Sample.f1; Sample.f2]
  /\ trashed_folders "u-alice" (snd (emptyTrash "u-alice" Sample.db0)) = [Sample.d3].
Proof.
  assert (Hwf : wf Sample.db0) by (split; [apply sample_wf_users|apply sample_wf_files]).
  destruct (emptyTrash_removes_the_owners_trashed_files "u-alice" Sample.db0 Hwf)
    as [_ [Hf [_ [_ Hd]]]].
  split; [rewrite Hf; reflexivity|rewrite Hd; reflexivity].
Defined.




Lemma sample_large_wf : wf SampleLarge.db.
Proof.
  split; [apply sample_large_wf_users|repeat constructor].
Qed.


(** X19. Emptying the trash a second time resolves and changes nothing. *)
Theorem emptyTrash_idempotent (o : string) (db : DB) :
  wf db ->
  emptyTrash o (snd (emptyTrash o db)) = (Resolved tt, snd (emptyTrash o db)).
Proof.
  intro Hwf.
  destruct (emptyTrash_facts o db Hwf) as [_ [_ [_ [_ [Ht _]]]]].
  rewrite (emptyTrash_run o (snd (emptyTrash o db))), Ht. reflexivity.
Qed.

Lemma emptyTrash_idempotent_witness :
  emptyTrash "u-alice" (snd (emptyTrash "u-alice" Sample.db0))
  = (Resolved tt, snd (emptyTrash "u-alice" Sample.db0)).
Proof.
  apply emptyTrash_idempotent.
  split; [apply sample_wf_users|apply sample_wf_files].
Defined.

(** * Share links through the life of a file *)

Lemma share_scan_find (token : string) (s : list CloudFile.t) :
  share_scan token s = find (share_test token) s.
Proof.
  induction s as [|x s IH]; cbn; [reflexivity|].
  unfold share_test at 1. now rewrite IH.
Qed.

(** In a sorted store where no other record passes the cursor's test for
    [token], the scan after a [put] of [r] answers by [r] alone. *)
Lemma share_scan_put_unique (token : string) (r : CloudFile.t) (s : list CloudFile.t) :
  wf_files s ->
  (forall g, In g s -> CloudFile.id g <> CloudFile.id r -> share_test token g = false) ->
  share_scan token (ObjectStore.put CloudFile.id r s)
  = if share_test token r then Some r else None.
Proof.
  intros Hs Hothers. rewrite share_scan_find.
  destruct (find (share_test token) (ObjectStore.put CloudFile.id r s)) as [g|] eqn:E.
  - apply find_some in E. destruct E as [Hin Hg].
    destruct (put_in_sorted CloudFile.id r g s Hs Hin) as [->|[Hg' Hne]].
    + now rewrite Hg.
    + rewrite (Hothers g Hg' Hne) in Hg. discriminate.
  - pose proof (find_none _ _ E r (put_in_new CloudFile.id r s)) as Hr.
    now rewrite Hr.
Qed.

(** X20. Let no other stored file pass the cursor's test for a token.
    After [updateFileShareStatus] on a stored file, resolving that token
    gives the updated record exactly when sharing was enabled with that
    very token and the file is not trashed, and [null] otherwise: after
    disabling, after enabling under another token, and for a trashed file
    even when enabled. *)
Theorem resolve_after_share_update
    (db : DB) (id token now : string) (isShared : bool) (shareToken : option string)
    (f : CloudFile.t) :
  wf_files (files db) ->
  ObjectStore.get CloudFile.id id (files db) = Some f ->
  (forall g, In g (files db) -> CloudFile.id g <> id -> share_test token g = false) ->
  let db' := snd (updateFileShareStatus id isShared shareToken now db) in
  getFileByShareToken token db'
  = (Resolved (if isShared && strict_eq shareToken token
                  && negb (truthy (CloudFile.isTrashed f))
               then Some (share_record isShared shareToken now f)
               else None), db').
Proof.
  intros Hs Hget Hothers db'. destruct (get_some _ _ _ _ Hget) as [_ Hid].
  unfold db'. rewrite (updateFileShareStatus_run db id isShared shareToken now f Hget).
  cbn [snd]. unfold getFileByShareToken, await, files_openCursor, resolve.
  cbn [files set_files]. rewrite share_scan_put_unique; auto.
  - unfold share_test, share_record. cbn. destruct isShared; reflexivity.
  - intros g Hg Hne. apply Hothers; auto. cbn in Hne. congruence.
Qed.

Lemma resolve_after_share_update_witness :
  fst (getFileByShareToken "t1"
         (snd (updateFileShareStatus "fi-1" true (Some "t1"%string) Sample.now Sample.db0)))
  = Resolved (Some (share_record true (Some "t1"%string) Sample.now Sample.f1))
  /\ fst (getFileByShareToken "tok"
            (snd (updateFileShareStatus "fi-2" true (Some "t2"%string) Sample.now Sample.db0)))
     = Resolved None
  /\ fst (getFileByShareToken "old"
            (snd (updateFileShareStatus "fi-3" true (Some "old"%string) Sample.now Sample.db0)))
     = Resolved None.
Proof.
  split; [|split].
  - rewrite (resolve_after_share_update Sample.db0 "fi-1" "t1" Sample.now true
               (Some "t1"%string) Sample.f1 sample_wf_files eq_refl); [reflexivity|].
    intros g [<-|[<-|[<-|[]]]] Hne; try reflexivity; exfalso; now apply Hne.
  - rewrite (resolve_after_share_update Sample.db0 "fi-2" "tok" Sample.now true
               (Some "t2"%string) Sample.f2 sample_wf_files eq_refl); [reflexivity|].
    intros g [<-|[<-|[<-|[]]]] Hne; try reflexivity; exfalso; now apply Hne.
  - rewrite (resolve_after_share_update Sample.db0 "fi-3" "old" Sample.now true
               (Some "old"%string) Sample.f3 sample_wf_files eq_refl); [reflexivity|].
    intros g [<-|[<-|[<-|[]]]] Hne; try reflexivity; exfalso; now apply Hne.
Defined.

Lemma trashed_record_not_shared (now : string) (f : CloudFile.t) :
  truthy (CloudFile.isShared (trashed_record now f)) = false.
Proof.
  unfold trashed_record. cbn.
  destruct (CloudFile.isShared f) as [[|]|] eqn:E; cbn; rewrite ?E; reflexivity.
Qed.

Lemma trash_restore_run (db : DB) (id now : string) (f : CloudFile.t) :
  ObjectStore.get CloudFile.id id (files db) = Some f ->
  snd (restoreFile id (snd (trashFile id now db)))
  = set_files (ObjectStore.put CloudFile.id
                 (restored_record (trashed_record now f)) (files db)) db.
Proof.
  intro Hget. destruct (get_some _ _ _ _ Hget) as [_ Hid].
  rewrite (trashFile_run db id now f Hget). cbn [snd].
  rewrite (restoreFile_run _ id (trashed_record now f)).
  - cbn [snd files set_files]. unfold set_files. cbn [users files folders].
    rewrite put_put; [reflexivity|].
    change (CloudFile.id (restored_record (trashed_record now f)))
      with (CloudFile.id (trashed_record now f)). reflexivity.
  - cbn [files set_files]. rewrite <- Hid, <- (trashed_record_id now f).
    apply get_put_same.
Qed.

(** X21. Let no other stored file pass the cursor's test for a token.
    Once a stored file is trashed the token resolves to [null], and it
    still resolves to [null] after the file is restored, although the
    record keeps its old token field: a trash cycle ends the link. *)
Theorem trash_cycle_ends_the_link (db : DB) (id token now : string) (f : CloudFile.t) :
  wf_files (files db) ->
  ObjectStore.get CloudFile.id id (files db) = Some f ->
  (forall g, In g (files db) -> CloudFile.id g <> id -> share_test token g = false) ->
  let db1 := snd (trashFile id now db) in
  let db2 := snd (restoreFile id db1) in
  getFileByShareToken token db1 = (Resolved None, db1)
  /\ getFileByShareToken token db2 = (Resolved None, db2)
  /\ exists r : CloudFile.t,
       ObjectStore.get CloudFile.id id (files db2) = Some r
       /\ CloudFile.shareToken r = CloudFile.shareToken f.
Proof.
  intros Hs Hget Hothers db1 db2. destruct (get_some _ _ _ _ Hget) as [_ Hid].
  assert (Ho1 : forall g, In g (files db) ->
                  CloudFile.id g <> CloudFile.id (trashed_record now f) ->
                  share_test token g = false).
  { intros g Hg Hne. apply Hothers; auto. rewrite trashed_record_id in Hne. congruence. }
  assert (Ho2 : forall g, In g (files db) ->
                  CloudFile.id g <> CloudFile.id (restored_record (trashed_record now f)) ->
                  share_test token g = false).
  { intros g Hg Hne. apply Ho1; auto. }
  split; [|split].
  - unfold db1. rewrite (trashFile_run db id now f Hget). cbn [snd].
    unfold getFileByShareToken, await, files_openCursor, resolve. cbn [files set_files].
    rewrite share_scan_put_unique; auto.
    replace (share_test token (trashed_record now f)) with false; [reflexivity|].
    unfold share_test, trashed_record. cbn.
    destruct (truthy (CloudFile.isShared f)); cbn; now rewrite ?andb_false_r.
  - unfold db2, db1. rewrite (trash_restore_run db id now f Hget).
    unfold getFileByShareToken, await, files_openCursor, resolve. cbn [files set_files].
    rewrite share_scan_put_unique; auto.
    replace (share_test token (restored_record (trashed_record now f))) with false;
      [reflexivity|].
    unfold share_test.
    change (CloudFile.isShared (restored_record (trashed_record now f)))
      with (CloudFile.isShared (trashed_record now f)).
    now rewrite trashed_record_not_shared.
  - unfold db2, db1. rewrite (trash_restore_run db id now f Hget). cbn [files set_files].
    exists (restored_record (trashed_record now f)). split.
    + rewrite <- Hid, <- (trashed_record_id now f).
      change (CloudFile.id (trashed_record now f))
        with (CloudFile.id (restored_record (trashed_record now f))).
      apply get_put_same.
    + record_field.
Qed.

Lemma trash_cycle_ends_the_link_witness :
  fst (getFileByShareToken "tok" Sample.db0) = Resolved (Some Sample.f2)
  /\ fst (getFileByShareToken "tok"
            (snd (restoreFile "fi-2" (snd (trashFile "fi-2" Sample.now Sample.db0)))))
     = Resolved None.
Proof.
  split; [reflexivity|].
  destruct (trash_cycle_ends_the_link Sample.db0 "fi-2" "tok" Sample.now Sample.f2
              sample_wf_files eq_refl) as [_ [H2 _]].
  - intros g [<-|[<-|[<-|[]]]] Hne; try reflexivity; exfalso; now apply Hne.
  - cbv zeta in H2. now rewrite H2.
Defined.

(** * Classifying a file by its MIME type *)

Lemma startsWith_begins (s p : string) : startsWith s p = true <-> begins s p.
Proof.
  unfold startsWith, begins. revert s.
  induction p as [|a p IH]; intro s; cbn.
  - split; [intros _; now exists s|intros _; destruct s; reflexivity].
  - destruct s as [|b s]; [split; [discriminate|intros [r H]; discriminate]|].
    cbn [String.prefix]. destruct (Ascii.ascii_dec a b) as [->|Hne].
    + rewrite IH. split; intros [r H]; exists r; congruence.
    + split; [discriminate|]. intros [r H]. congruence.
Qed.

Lemma includes_contains (s sub : string) : includes s sub = true <-> contains s sub.
Proof.
  unfold contains.
  induction s as [|c s IH]; cbn [includes].
  - rewrite orb_false_r. fold (startsWith "" sub). rewrite startsWith_begins.
    split.
    + intros [r H]. exists ""%string, r. exact H.
    + intros [[|c b] [a H]]; [now exists a|discriminate].
  - rewrite orb_true_iff. fold (startsWith (String c s) sub).
    rewrite startsWith_begins, IH. split.
    + intros [[r H]|[b [a H]]].
      * exists ""%string, r. exact H.
      * exists (String c b), a. cbn. now rewrite H.
    + intros [[|c' b] [a H]].
      * left. now exists a.
      * right. cbn in H. injection H as -> H. now exists b, a.
Qed.

Lemma begins_head (s : string) (a b : Ascii.ascii) (p q : string) :
  begins s (String a p) -> begins s (String b q) -> a = b.
Proof.
  intros [r1 H1] [r2 H2]. rewrite H1 in H2. cbn in H2. congruence.
Qed.

(** X22. [getFileType] answers by the first rule that applies: IMAGE,
    VIDEO, AUDIO exactly for a type that begins with [image/], [video/],
    [audio/]; otherwise DOCUMENT exactly when it has [pdf], [text] or
    [document] inside; otherwise ARCHIVE exactly when it has [zip], [rar]
    or [7z] inside; otherwise UNKNOWN. So a media prefix wins over any
    keyword and a document keyword wins over an archive keyword. *)
Theorem getFileType_rules (mimeType : string) :
  let media := begins mimeType "image/" \/ begins mimeType "video/"
               \/ begins mimeType "audio/" in
  let doc := contains mimeType "pdf" \/ contains mimeType "text"
             \/ contains mimeType "document" in
  let arch := contains mimeType "zip" \/ contains mimeType "rar"
              \/ contains mimeType "7z" in
  (getFileType mimeType = IMAGE <-> begins mimeType "image/")
  /\ (getFileType mimeType = VIDEO <-> begins mimeType "video/")
  /\ (getFileType mimeType = AUDIO <-> begins mimeType "audio/")
  /\ (getFileType mimeType = DOCUMENT <-> ~ media /\ doc)
  /\ (getFileType mimeType = ARCHIVE <-> ~ media /\ ~ doc /\ arch)
  /\ (getFileType mimeType = UNKNOWN <-> ~ media /\ ~ doc /\ ~ arch).
Proof.
  intros media doc arch. unfold media, doc, arch.
  rewrite <- !startsWith_begins, <- !includes_contains.
  assert (Hiv : startsWith mimeType "image/" = true ->
                startsWith mimeType "video/" = true -> False).
  { rewrite !startsWith_begins. intros H1 H2.
    pose proof (begins_head _ _ _ _ _ H1 H2). discriminate. }
  assert (Hia : startsWith mimeType "image/" = true ->
                startsWith mimeType "audio/" = true -> False).
  { rewrite !startsWith_begins. intros H1 H2.
    pose proof (begins_head _ _ _ _ _ H1 H2). discriminate. }
  assert (Hva : startsWith mimeType "video/" = true ->
                startsWith mimeType "audio/" = true -> False).
  { rewrite !startsWith_begins. intros H1 H2.
    pose proof (begins_head _ _ _ _ _ H1 H2). discriminate. }
  unfold getFileType.
  destruct (startsWith mimeType "image/"), (startsWith mimeType "video/"),
    (startsWith mimeType "audio/");
    try (exfalso; auto; fail);
    destruct (includes mimeType "pdf"), (includes mimeType "text"),
      (includes mimeType "document"), (includes mimeType "zip"),
      (includes mimeType "rar"), (includes mimeType "7z");
    cbn; repeat split; intros; try discriminate; try tauto;
    intuition discriminate.
Qed.

Lemma getFileType_rules_witness :
  getFileType "image/x-zip" = IMAGE
  /\ getFileType "application/pdf+zip" = DOCUMENT
  /\ getFileType "application/x-7z-compressed" = ARCHIVE
  /\ getFileType "Image/PNG" = UNKNOWN.
Proof.
  destruct (getFileType_rules "image/x-zip") as [[_ Hi] _].
  split; [apply Hi; now exists "x-zip"%string|].
  repeat split; reflexivity.
Defined.

(** * The start-up seeding of the administrator *)

Lemma registerUser_rejected (db : DB) (user : User.t) (e : Rejection) :
  fst (registerUser user db) = Rejected e -> snd (registerUser user db) = db.
Proof.
  unfold registerUser, try_catch, users_add, ObjectStore.add, reject.
  destruct (ObjectStore.get User.username (User.username user) (users db));
    [reflexivity|].
  destruct (ObjectStore.violates_unique User.username user_ix_id user (users db));
    [reflexivity|cbn; discriminate].
Qed.

Lemma seedAdmin_run (db : DB) (now : string) :
  (forall x, In x (users db) -> User.id x = "admin"%string ->
             User.username x = "admin"%string) ->
  seedAdmin now db
  = (Resolved tt,
     set_users (ObjectStore.put User.username (adminUser now) (users db)) db).
Proof.
  intro Hid. unfold seedAdmin, try_catch.
  destruct (registerUser (adminUser now) db) as [[[]|e] db'] eqn:E.
  - rewrite <- E. apply registerUser_resolved. now rewrite E.
  - assert (Hdb : db' = db).
    { pose proof (registerUser_rejected db (adminUser now) e) as H.
      rewrite E in H. now apply H. }
    subst db'. unfold updateUser, users_put.
    destruct (ObjectStore.violates_unique User.username user_ix_id (adminUser now)
                (users db)) eqn:Hv; [|reflexivity].
    apply users_violation_iff in Hv. destruct Hv as [x [Hin [Hx Hname]]].
    exfalso. apply Hname. now apply Hid.
Qed.

(** X23. When the id [admin] is held by no account other than [admin],
    the start-up seeding resolves and forces the default administrator:
    whatever was stored under [admin] before, the record is the default one
    afterwards, the default password logs in, and the administrator's
    [storageUsed] reads 0; files, folders and the other users are as
    before. When another username holds the id [admin], both the
    registration and the update are refused and the seeding rejects,
    writing nothing. *)
Theorem seedAdmin_forces_default_admin (db : DB) (now : string) :
  (wf_users (users db) ->
   (forall x, In x (users db) -> User.id x = "admin"%string ->
              User.username x = "admin"%string) ->
   let db' := snd (seedAdmin now db) in
   fst (seedAdmin now db) = Resolved tt
   /\ ObjectStore.get User.username "admin" (users db') = Some (adminUser now)
   /\ loginUser "admin" "password" db' = (Resolved (Some (adminUser now)), db')
   /\ storageUsed_of "admin" db' = Some (num 0)
   /\ (forall k, k <> "admin"%string ->
         ObjectStore.get User.username k (users db')
         = ObjectStore.get User.username k (users db))
   /\ files db' = files db /\ folders db' = folders db)
  /\ (forall x, In x (users db) -> User.id x = "admin"%string ->
                User.username x <> "admin"%string ->
      seedAdmin now db = (Rejected ConstraintError, db)).
Proof.
  split.
  - intros [Hs Hu] Hid db'. unfold db'. rewrite (seedAdmin_run db now Hid).
    cbn [fst snd]. unfold set_users. cbn [users files folders].
    assert (Hget : ObjectStore.get User.username "admin"
                     (ObjectStore.put User.username (adminUser now) (users db))
                   = Some (adminUser now)) by apply (get_put_same User.username (adminUser now)).
    split; [reflexivity|]. split; [exact Hget|]. split; [|split; [|split]].
    + unfold loginUser, await, users_get. cbn [users]. rewrite Hget. reflexivity.
    + unfold storageUsed_of. cbn [users].
      destruct (ObjectStore.index_get user_ix_id "admin"
                  (ObjectStore.put User.username (adminUser now) (users db)))
        as [x|] eqn:E.
      * destruct (index_get_some _ _ _ _ E) as [Hx Hix].
        unfold user_ix_id in Hix. injection Hix as Hix.
        destruct (put_in_sorted User.username _ _ _ Hs Hx) as [->|[Hx' Hne]];
          [reflexivity|].
        exfalso. apply Hne. now apply Hid.
      * exfalso.
        exact (proj1 (index_get_none_iff _ _) E (adminUser now)
                 (put_in_new User.username _ _) eq_refl).
    + intros k Hk. now apply get_put_other.
    + split; reflexivity.
  - intros x Hin Hx Hname.
    assert (Hv : ObjectStore.violates_unique User.username user_ix_id (adminUser now)
                   (users db) = true).
    { apply users_violation_iff. exists x. auto. }
    unfold seedAdmin, try_catch, registerUser, try_catch, users_add, ObjectStore.add,
      reject, updateUser, users_put.
    rewrite Hv.
    destruct (ObjectStore.get User.username (User.username (adminUser now)) (users db));
      cbn; now rewrite Hv.
Qed.

Lemma seedAdmin_forces_default_admin_witness :
  storageUsed_of "admin" SampleMore.db2 = Some (num 500)
  /\ fst (loginUser "admin" "password" SampleMore.db2) = Resolved None
  /\ storageUsed_of "admin" (snd (seedAdmin Sample.now SampleMore.db2)) = Some (num 0)
  /\ fst (loginUser "admin" "password" (snd (seedAdmin Sample.now SampleMore.db2)))
     = Resolved (Some (adminUser Sample.now))
  /\ seedAdmin Sample.now SampleMore.db3 = (Rejected ConstraintError, SampleMore.db3).
Proof.
  split; [reflexivity|]. split; [reflexivity|].
  destruct (seedAdmin_forces_default_admin SampleMore.db2 Sample.now) as [Hok _].
  destruct (seedAdmin_forces_default_admin SampleMore.db3 Sample.now) as [_ Hrej].
  assert (Hwf : wf_users (users SampleMore.db2)).
  { split; [repeat constructor|].
    intros a b v [<-|[<-|[]]] [<-|[<-|[]]] Ea Eb; try reflexivity;
      cbv in Ea, Eb; congruence. }
  destruct (Hok Hwf) as [_ [_ [Hlogin [Hused _]]]].
  - intros x [<-|[<-|[]]] Hx; [reflexivity|cbv in Hx; congruence].
  - split; [exact Hused|]. split; [now rewrite Hlogin|].
    apply (Hrej SampleMore.impostor); [right; now left|reflexivity|cbv; discriminate].
Defined.

(** * The share toggle of the application *)

(** X24. [handleShareToggle] never hands the service an enabled share
    without a token, so it keeps every shared record with a token. On a
    selected file that is stored it flips the share state the view shows:
    when enabling, the stored record gets the view's token if the view has
    a non-empty one and the fresh random string otherwise; when disabling,
    the token is cleared; and the view's selected file shows the state and
    token that were stored. On a selected file that is not stored it
    rejects and writes nothing; with nothing selected it does nothing. *)
Theorem handleShareToggle_contract (db : DB) (view : ShareView) (random now : string) :
  (share_inv_store (files db) ->
   share_inv_store (files (snd (handleShareToggle view random now db))))
  /\ (forall sel f : CloudFile.t,
        selectedFile view = Some sel ->
        ObjectStore.get CloudFile.id (CloudFile.id sel) (files db) = Some f ->
        let enabled := negb (truthy (CloudFile.isShared sel)) in
        let db' := snd (handleShareToggle view random now db) in
        exists (f' : CloudFile.t) (view' : ShareView),
          handleShareToggle view random now db = (Resolved view', db')
          /\ ObjectStore.get CloudFile.id (CloudFile.id sel) (files db') = Some f'
          /\ CloudFile.isShared f' = Some enabled
          /\ CloudFile.shareToken f'
             = (if enabled
                then (if no_token (CloudFile.shareToken sel) then Some random
                      else CloudFile.shareToken sel)
                else None)
          /\ (enabled = true -> CloudFile.shareToken f' <> None)
          /\ option_map CloudFile.isShared (selectedFile view')
             = Some (CloudFile.isShared f')
          /\ option_map CloudFile.shareToken (selectedFile view')
             = Some (CloudFile.shareToken f'))
  /\ (forall sel : CloudFile.t,
        selectedFile view = Some sel ->
        ObjectStore.get CloudFile.id (CloudFile.id sel) (files db) = None ->
        handleShareToggle view random now db
        = (Rejected (Reason "Arquivo não encontrado"), db))
  /\ (selectedFile view = None ->
      handleShareToggle view random now db = (Resolved view, db)).
Proof.
  assert (Htok : forall sel : CloudFile.t,
            negb (truthy (CloudFile.isShared sel)) = true ->
            (if negb (truthy (CloudFile.isShared sel))
             then (if negb (truthy (CloudFile.isShared sel))
                      && no_token (CloudFile.shareToken sel)
                   then Some random else CloudFile.shareToken sel)
             else None) <> None).
  { intros sel ->. cbn. destruct (CloudFile.shareToken sel) as [[|c t]|]; cbn; discriminate. }
  split; [|split; [|split]].
  - intro Hinv. unfold handleShareToggle.
    destruct (selectedFile view) as [sel|] eqn:Hsel; [|exact Hinv].
    unfold await.
    destruct (ObjectStore.get CloudFile.id (CloudFile.id sel) (files db)) as [f|] eqn:Hget.
    + rewrite (updateFileShareStatus_run db _ _ _ now f Hget).
      cbn [snd files set_files resolve]. apply Forall_put; [exact Hinv|].
      unfold share_inv, share_record. cbn.
      intro H. injection H as H. now apply Htok.
    + unfold updateFileShareStatus, await, files_get, reject. rewrite Hget. exact Hinv.
  - intros sel f Hsel Hget enabled db'. unfold db', handleShareToggle.
    rewrite Hsel. unfold await.
    rewrite (updateFileShareStatus_run db _ _ _ now f Hget).
    cbn [snd fst resolve files set_files].
    eexists. eexists. split; [reflexivity|].
    split; [destruct (get_some _ _ _ _ Hget) as [_ <-];
            apply (get_put_same CloudFile.id (share_record _ _ now f))|].
    fold enabled. cbn.
    split; [reflexivity|]. split.
    + destruct enabled; reflexivity.
    + split; [|split; reflexivity].
      intro He. unfold enabled in *. now apply Htok.
  - intros sel Hsel Hget. unfold handleShareToggle. rewrite Hsel.
    unfold await, updateFileShareStatus, await, files_get, reject. now rewrite Hget.
  - intro Hsel. unfold handleShareToggle. now rewrite Hsel.
Qed.

Lemma handleShareToggle_contract_witness :
  (exists f',
     ObjectStore.get CloudFile.id "fi-1"
       (files (snd (handleShareToggle SampleMore.view1 "r4nd0m" Sample.now Sample.db0)))
     = Some f'
     /\ CloudFile.isShared f' = Some true
     /\ CloudFile.shareToken f' = Some "r4nd0m"%string)
  /\ (exists f',
        ObjectStore.get CloudFile.id "fi-2"
          (files (snd (handleShareToggle SampleMore.view2 "r4nd0m" Sample.now Sample.db0)))
        = Some f'
        /\ CloudFile.isShared f' = Some false
        /\ CloudFile.shareToken f' = None).
Proof.
  destruct (handleShareToggle_contract Sample.db0 SampleMore.view1 "r4nd0m" Sample.now)
    as [_ [H1 _]].
  destruct (handleShareToggle_contract Sample.db0 SampleMore.view2 "r4nd0m" Sample.now)
    as [_ [H2 _]].
  destruct (H1 Sample.f1 Sample.f1 eq_refl eq_refl) as [f1' [v1 [_ [Hg1 [Hs1 [Ht1 _]]]]]].
  destruct (H2 Sample.f2 Sample.f2 eq_refl eq_refl) as [f2' [v2 [_ [Hg2 [Hs2 [Ht2 _]]]]]].
  split; [exists f1'|exists f2']; repeat split; assumption.
Defined.

(** X25. Every stored file is either in the listing of its parent and
    owner or in its owner's trash listing, and no file is in a listing and
    in a trash listing at once; [getTrashedItems] and [getFilesFromDB]
    write nothing. *)
Theorem listing_and_trash_partition (db : DB) (f : CloudFile.t) :
  (In f (files db) ->
   In f (listed_files (CloudFile.parentId f) (CloudFile.ownerId f) db)
   \/ In f (trashed_files (CloudFile.ownerId f) db))
  /\ (forall p o o' : string,
        In f (listed_files p o db) -> In f (trashed_files o' db) -> False)
  /\ (forall p o : string,
        snd (getFilesFromDB p o db) = db /\ snd (getTrashedItems o db) = db).
Proof.
  split; [|split].
  - intro Hin. rewrite listed_files_in, trashed_files_in.
    destruct (truthy (CloudFile.isTrashed f)); [right|left]; auto.
  - intros p o o'. rewrite listed_files_in, trashed_files_in.
    intros [_ [_ [_ H1]]] [_ [_ H2]]. congruence.
  - intros p o. split; reflexivity.
Qed.

Lemma listing_and_trash_partition_witness :
  In Sample.f3 (trashed_files "u-alice" Sample.db0)
  /\ ~ In Sample.f3 (listed_files "root" "u-alice" Sample.db0).
Proof.
  destruct (listing_and_trash_partition Sample.db0 Sample.f3) as [_ [Hex _]].
  assert (E : trashed_files "u-alice" Sample.db0 = [Sample.f3]) by reflexivity.
  assert (Ht : In Sample.f3 (trashed_files "u-alice" Sample.db0))
    by (rewrite E; now left).
  split; [exact Ht|]. intro Hl. exact (Hex "root"%string "u-alice"%string "u-alice"%string Hl Ht).
Defined.

(** * Colliding tokens *)

Lemma find_first_sorted (p : CloudFile.t -> bool) (s : list CloudFile.t) (f g : CloudFile.t) :
  wf_files s -> find p s = Some f -> In g s -> p g = true ->
  g = f \/ String.compare (CloudFile.id f) (CloudFile.id g) = Lt.
Proof.
  intros Hs Hfind Hg Hpg.
  induction s as [|x s IH]; [destruct Hg|].
  cbn in Hfind. destruct (p x) eqn:Hpx.
  - injection Hfind as <-. destruct Hg as [->|Hg]; [now left|right].
    exact (sorted_head_lt CloudFile.id _ _ Hs _ Hg).
  - destruct Hg as [->|Hg]; [congruence|].
    apply IH; auto. exact (sorted_tail CloudFile.id _ _ Hs).
Qed.

(** X26. The service accepts a token that another file already carries.
    On a files store whose ids are ASCII (as the ids the application
    generates are), when several stored files are shared under one token
    and not trashed, [getFileByShareToken] resolves with the one whose id
    comes first in key order; and it resolves with [null] only when no
    stored file passes the test. *)
Theorem resolve_share_picks_the_first_id (db : DB) (token : string) :
  wf_files (files db) ->
  (Forall (fun f => ascii_key (CloudFile.id f) = true) (files db) ->
   forall f g : CloudFile.t,
     fst (getFileByShareToken token db) = Resolved (Some f) ->
     In g (files db) -> share_test token g = true ->
     g = f \/ String.compare (CloudFile.id f) (CloudFile.id g) = Lt)
  /\ (forall g : CloudFile.t,
        In g (files db) -> share_test token g = true ->
        exists f : CloudFile.t,
          fst (getFileByShareToken token db) = Resolved (Some f)
          /\ share_test token f = true).
Proof.
  intro Hs.
  assert (Hrun : fst (getFileByShareToken token db)
                 = Resolved (find (share_test token) (files db))).
  { unfold getFileByShareToken, await, files_openCursor, resolve. cbn [fst].
    now rewrite share_scan_find. }
  rewrite Hrun. split.
  - intros _ f g H Hg Hpg. injection H as H.
    exact (find_first_sorted _ _ f g Hs H Hg Hpg).
  - intros g Hg Hpg.
    destruct (find (share_test token) (files db)) as [f|] eqn:E.
    + exists f. split; [reflexivity|]. apply find_some in E. tauto.
    + rewrite (find_none _ _ E g Hg) in Hpg. discriminate.
Qed.

Lemma resolve_share_picks_the_first_id_witness :
  let db := snd (updateFileShareStatus "fi-1" true (Some "tok"%string) Sample.now Sample.db0) in
  fst (getFileByShareToken "tok" db)
  = Resolved (Some (share_record true (Some "tok"%string) Sample.now Sample.f1))
  /\ In Sample.f2 (files db)
  /\ share_test "tok" Sample.f2 = true
  /\ String.compare "fi-1" "fi-2" = Lt.
Proof.
  intro db.
  assert (Hs : wf_files (files db)) by (repeat constructor).
  assert (Ha : Forall (fun f => ascii_key (CloudFile.id f) = true) (files db))
    by (repeat constructor).
  destruct (resolve_share_picks_the_first_id db "tok" Hs) as [Hfirst _].
  assert (Hrun : fst (getFileByShareToken "tok" db)
                 = Resolved (Some (share_record true (Some "tok"%string) Sample.now Sample.f1)))
    by reflexivity.
  assert (Hin : In Sample.f2 (files db)) by (right; now left).
  split; [exact Hrun|]. split; [exact Hin|]. split; [reflexivity|].
  destruct (Hfirst Ha _ Sample.f2 Hrun Hin eq_refl) as [H|H]; [discriminate|exact H].
Defined.
